(** * EHR: patient records, vitals history and derived views

    A shallow embedding of the storage layer ([DatabaseStorage], [MemStorage]),
    of the patient routes, of the rule-based estimator fallbacks and of the
    client-side vitals ladder, followed by the properties established about
    them.

    Conventions.
    - A JavaScript [number] held in an [integer] column is a [Z]; one held in
      a [real] column is a [Q].  Only comparisons against constants and
      truthiness are ever applied to them.
    - A [timestamp] is a [Z] (milliseconds since the epoch); the reading of
      the clock is an argument of every operation that stamps a row.
    - A nullable column is an [option]; a key that may be missing from a
      JavaScript object is an [option] too, and a key that may be missing or
      [null] is a [nullish].
    - A text value is a [string] of UTF-8 bytes. *)

From Stdlib Require Import ZArith QArith List String Ascii Bool Lia Lqa.
From Stdlib Require Import DecimalString Sorted Permutation.
Import ListNotations.
Local Open Scope Z_scope.

Set Implicit Arguments.

(** ** JavaScript values *)

Module Js.

Inductive nullish (A : Type) : Type :=
| undefined
| null
| defined (a : A).
Arguments undefined {A}.
Arguments null {A}.

(** Truthiness of a number: every number but [0] (and [NaN], which no
    column holds). *)
Definition truthyZ (z : Z) : bool := negb (z =? 0).
Definition truthyQ (q : Q) : bool := negb (Qeq_bool q 0).

Definition truthyOpt {A} (t : A -> bool) (o : option A) : bool :=
  match o with Some a => t a | None => false end.

Definition truthyNullish {A} (t : A -> bool) (o : nullish A) : bool :=
  match o with defined a => t a | _ => false end.

(** [a || b] where [a] may be missing and [b] is a value. *)
Definition or {A} (t : A -> bool) (a : option A) (b : A) : A :=
  match a with
  | Some x => if t x then x else b
  | None => b
  end.

(** [a || b] where [a] may be missing or [null] and [b] is nullable. *)
Definition orNullish {A} (t : A -> bool) (a : nullish A) (b : option A)
  : nullish A :=
  if truthyNullish t a then a
  else match b with Some x => defined x | None => null end.

(** What a column receives from a value that may be missing or [null]. *)
Definition toColumn {A} (a : nullish A) : option A :=
  match a with defined x => Some x | _ => None end.

(** A key of an object is there, that is, its value is not [undefined]. *)
Definition present {A} (o : option A) : bool :=
  match o with Some _ => true | None => false end.

Definition presentNullish {A} (o : nullish A) : bool :=
  match o with undefined => false | _ => true end.

(** [String(n)] for an integer [n]. *)
Definition StringZ (n : Z) : string := NilZero.string_of_int (Z.to_int n).

(** Comparisons of numbers. *)
Definition gtQ (x y : Q) : bool := negb (Qle_bool x y).
Definition geQ (x y : Q) : bool := Qle_bool y x.

End Js.

Import Js.

(** ** The schema (shared/schema.ts) *)

Module User.
Record t : Type := Build {
  id : Z;
  username : string;
  password : string;
  role : string;
  name : string;
  isActive : bool;
  createdAt : option Z
}.
End User.

Module Patient.
Record t : Type := Build {
  id : Z;
  patientId : string;
  name : string;
  age : Z;
  phone : string;
  bloodSugar : Q;
  bloodPressureSystolic : Z;
  bloodPressureDiastolic : Z;
  weight : option Q;
  height : option Q;
  medicalHistory : string;
  createdAt : option Z;
  updatedAt : option Z;
  createdBy : option Z;
  isActive : bool
}.
End Patient.

Module HealthPrediction.
Record t : Type := Build {
  id : Z;
  patientId : option Z;
  cardiovascularRisk : Q;
  diabetesRisk : Q;
  overallHealthScore : Q;
  predictionData : string;
  createdAt : option Z
}.
End HealthPrediction.

Module MedicalImage.
Record t : Type := Build {
  id : Z;
  patientId : option Z;
  filename : string;
  analysisType : string;
  analysisResult : string;
  confidence : Q;
  findings : string;
  createdAt : option Z
}.
End MedicalImage.

Module AuditLog.
Record t : Type := Build {
  id : Z;
  userId : option Z;
  action : string;
  targetType : string;
  targetId : string;
  details : string;
  createdAt : option Z
}.
End AuditLog.

Module HealthHistory.
Record t : Type := Build {
  id : Z;
  patientId : Z;
  recordedBy : Z;
  bloodSugar : option Q;
  bloodPressureSystolic : option Z;
  bloodPressureDiastolic : option Z;
  changeType : string;
  notes : option string;
  timestamp : option Z
}.
End HealthHistory.

Module Appointment.
Record t : Type := Build {
  id : Z;
  patientId : Z;
  staffId : Z;
  appointmentDate : Z;
  description : option string;
  status : option string;
  createdAt : option Z;
  updatedAt : option Z
}.
End Appointment.

(** [insertPatientSchema]: the nine picked columns; [weight] and [height]
    are nullable, hence optional in the insert schema. *)
Module InsertPatient.
Record t : Type := Build {
  name : string;
  age : Z;
  phone : string;
  bloodSugar : Q;
  bloodPressureSystolic : Z;
  bloodPressureDiastolic : Z;
  weight : nullish Q;
  height : nullish Q;
  medicalHistory : string
}.
End InsertPatient.

(** [Partial<InsertPatient>], what [insertPatientSchema.partial()] parses. *)
Module PartialPatient.
Record t : Type := Build {
  name : option string;
  age : option Z;
  phone : option string;
  bloodSugar : option Q;
  bloodPressureSystolic : option Z;
  bloodPressureDiastolic : option Z;
  weight : nullish Q;
  height : nullish Q;
  medicalHistory : option string
}.

Definition empty : t :=
  Build None None None None None None undefined undefined None.
End PartialPatient.

(** The object [createPatient] receives: [InsertPatient & { createdBy }],
    to which the route adds the [patientId] key. *)
Module NewPatient.
Record t : Type := Build {
  patientId : option string;
  fields : InsertPatient.t;
  createdBy : Z
}.
End NewPatient.

(** The object literal handed to [createHealthHistory]. The [weight] and
    [height] keys are part of the literal; the [health_history] table has no
    such columns. *)
Module HistoryValues.
Record t : Type := Build {
  patientId : Z;
  bloodPressureSystolic : option Z;
  bloodPressureDiastolic : option Z;
  bloodSugar : option Q;
  weight : nullish Q;
  height : nullish Q;
  recordedBy : Z;
  notes : string;
  changeType : string
}.
End HistoryValues.

(** ** The relational store *)

Record Db : Type := mkDb {
  users : list User.t;
  patients : list Patient.t;
  healthPredictions : list HealthPrediction.t;
  medicalImages : list MedicalImage.t;
  auditLogs : list AuditLog.t;
  healthHistory : list HealthHistory.t;
  appointments : list Appointment.t;
  patients_id_seq : Z;
  health_history_id_seq : Z;
  audit_logs_id_seq : Z
}.

Definition set_patients (ps : list Patient.t) (d : Db) : Db :=
  mkDb (users d) ps (healthPredictions d) (medicalImages d) (auditLogs d)
       (healthHistory d) (appointments d)
       (patients_id_seq d) (health_history_id_seq d) (audit_logs_id_seq d).

Definition set_healthHistory (hs : list HealthHistory.t) (d : Db) : Db :=
  mkDb (users d) (patients d) (healthPredictions d) (medicalImages d)
       (auditLogs d) hs (appointments d)
       (patients_id_seq d) (health_history_id_seq d) (audit_logs_id_seq d).

Definition set_auditLogs (ls : list AuditLog.t) (d : Db) : Db :=
  mkDb (users d) (patients d) (healthPredictions d) (medicalImages d)
       ls (healthHistory d) (appointments d)
       (patients_id_seq d) (health_history_id_seq d) (audit_logs_id_seq d).

Definition set_patients_id_seq (n : Z) (d : Db) : Db :=
  mkDb (users d) (patients d) (healthPredictions d) (medicalImages d)
       (auditLogs d) (healthHistory d) (appointments d)
       n (health_history_id_seq d) (audit_logs_id_seq d).

Definition set_health_history_id_seq (n : Z) (d : Db) : Db :=
  mkDb (users d) (patients d) (healthPredictions d) (medicalImages d)
       (auditLogs d) (healthHistory d) (appointments d)
       (patients_id_seq d) n (audit_logs_id_seq d).

Definition set_audit_logs_id_seq (n : Z) (d : Db) : Db :=
  mkDb (users d) (patients d) (healthPredictions d) (medicalImages d)
       (auditLogs d) (healthHistory d) (appointments d)
       (patients_id_seq d) (health_history_id_seq d) n.

(** What a statement may be refused for, the refusal of the query builder to
    build an UPDATE without a SET clause, and the error of reading a property
    of [undefined]. *)
Inductive DbError : Type :=
| NotNullViolation
| UniqueViolation
| ForeignKeyViolation
| NoValuesToSet
| TypeError.

Inductive Outcome (A : Type) : Type :=
| Resolved (a : A)
| Rejected (e : DbError).
Arguments Rejected {A} e.

(** An awaited storage call: every statement commits on its own, so the
    store a rejected call leaves behind is the one reached so far. *)
Definition Async (A : Type) : Type := Db -> Outcome A * Db.

Definition ret {A} (a : A) : Async A := fun d => (Resolved a, d).
Definition throw {A} (e : DbError) : Async A := fun d => (Rejected e, d).

Definition bind {A B} (m : Async A) (k : A -> Async B) : Async B :=
  fun d =>
    match m d with
    | (Resolved a, d') => k a d'
    | (Rejected e, d') => (Rejected e, d')
    end.

Definition tryCatch {A} (m : Async A) (handler : DbError -> Async A)
  : Async A :=
  fun d =>
    match m d with
    | (Resolved a, d') => (Resolved a, d')
    | (Rejected e, d') => handler e d'
    end.

Declare Scope async_scope.
Delimit Scope async_scope with async.
Notation "x <- m ;; k" := (bind m (fun x => k))
  (at level 61, m at next level, right associativity) : async_scope.
Notation "m ;;; k" := (bind m (fun _ => k))
  (at level 61, right associativity) : async_scope.
Local Open Scope async_scope.

(** *** Statements, with the constraints of the schema *)

Definition userExists (uid : Z) (d : Db) : bool :=
  existsb (fun u => User.id u =? uid) (users d).

Definition patientExists (pid : Z) (d : Db) : bool :=
  existsb (fun p => Patient.id p =? pid) (patients d).

Definition patientIdTaken (code : string) (d : Db) : bool :=
  existsb (fun p => String.eqb (Patient.patientId p) code) (patients d).

Definition optEqb (o : option Z) (z : Z) : bool :=
  match o with Some x => x =? z | None => false end.

(** Rows of other tables that reference patient [pid]. *)
Definition patientReferenced (pid : Z) (d : Db) : bool :=
  existsb (fun h => HealthHistory.patientId h =? pid) (healthHistory d)
  || existsb (fun r => optEqb (HealthPrediction.patientId r) pid)
             (healthPredictions d)
  || existsb (fun r => optEqb (MedicalImage.patientId r) pid)
             (medicalImages d)
  || existsb (fun a => Appointment.patientId a =? pid) (appointments d).

(** The row a [patients] insert stores: the serial, the values given, and
    the defaults of the remaining columns. *)
Definition patientRow (id : Z) (code : string) (v : NewPatient.t) (now : Z)
  : Patient.t :=
  let f := NewPatient.fields v in
  Patient.Build id code (InsertPatient.name f) (InsertPatient.age f)
    (InsertPatient.phone f) (InsertPatient.bloodSugar f)
    (InsertPatient.bloodPressureSystolic f)
    (InsertPatient.bloodPressureDiastolic f)
    (toColumn (InsertPatient.weight f))
    (toColumn (InsertPatient.height f))
    (InsertPatient.medicalHistory f)
    (Some now) (Some now) (Some (NewPatient.createdBy v)) true.

(** The row a [health_history] insert stores: the columns of the table that
    the values name, the serial and the default timestamp. *)
Definition historyRow (id : Z) (v : HistoryValues.t) (now : Z)
  : HealthHistory.t :=
  HealthHistory.Build id (HistoryValues.patientId v)
    (HistoryValues.recordedBy v) (HistoryValues.bloodSugar v)
    (HistoryValues.bloodPressureSystolic v)
    (HistoryValues.bloodPressureDiastolic v)
    (HistoryValues.changeType v) (Some (HistoryValues.notes v))
    (Some now).

(** [db.insert(patients).values(v).returning()]: the serial is drawn first;
    [patient_id] is NOT NULL and UNIQUE, [created_by] references [users]. *)
Definition insertPatients (v : NewPatient.t) (now : Z)
  : Async (list Patient.t) :=
  fun d =>
    let id := patients_id_seq d in
    let d1 := set_patients_id_seq (id + 1) d in
    match NewPatient.patientId v with
    | None => (Rejected NotNullViolation, d1)
    | Some code =>
        if patientIdTaken code d1 then (Rejected UniqueViolation, d1)
        else if negb (userExists (NewPatient.createdBy v) d1)
        then (Rejected ForeignKeyViolation, d1)
        else
          let row := patientRow id code v now in
          (Resolved [row], set_patients (patients d1 ++ [row]) d1)
    end.

(** [db.insert(healthHistory).values(v).returning()]: [patient_id] references
    [patients], [recorded_by] references [users]. *)
Definition insertHealthHistory (v : HistoryValues.t) (now : Z)
  : Async (list HealthHistory.t) :=
  fun d =>
    let id := health_history_id_seq d in
    let d1 := set_health_history_id_seq (id + 1) d in
    if negb (patientExists (HistoryValues.patientId v) d1)
       || negb (userExists (HistoryValues.recordedBy v) d1)
    then (Rejected ForeignKeyViolation, d1)
    else
      let row := historyRow id v now in
      (Resolved [row], set_healthHistory (healthHistory d1 ++ [row]) d1).

Definition orElse {A} (o : option A) (a : A) : A :=
  match o with Some x => x | None => a end.

(** The SET clause built from a partial object: a missing key leaves the
    column alone, [null] clears a nullable one. *)
Definition applySet (u : PartialPatient.t) (p : Patient.t) : Patient.t :=
  Patient.Build (Patient.id p) (Patient.patientId p)
    (orElse (PartialPatient.name u) (Patient.name p))
    (orElse (PartialPatient.age u) (Patient.age p))
    (orElse (PartialPatient.phone u) (Patient.phone p))
    (orElse (PartialPatient.bloodSugar u) (Patient.bloodSugar p))
    (orElse (PartialPatient.bloodPressureSystolic u)
            (Patient.bloodPressureSystolic p))
    (orElse (PartialPatient.bloodPressureDiastolic u)
            (Patient.bloodPressureDiastolic p))
    (match PartialPatient.weight u with
     | undefined => Patient.weight p | null => None | defined w => Some w end)
    (match PartialPatient.height u with
     | undefined => Patient.height p | null => None | defined h => Some h end)
    (orElse (PartialPatient.medicalHistory u) (Patient.medicalHistory p))
    (Patient.createdAt p) (Patient.updatedAt p) (Patient.createdBy p)
    (Patient.isActive p).

(** No key of the partial object has a value. *)
Definition nothingToSet (u : PartialPatient.t) : bool :=
  negb (present (PartialPatient.name u)
        || present (PartialPatient.age u)
        || present (PartialPatient.phone u)
        || present (PartialPatient.bloodSugar u)
        || present (PartialPatient.bloodPressureSystolic u)
        || present (PartialPatient.bloodPressureDiastolic u)
        || presentNullish (PartialPatient.weight u)
        || presentNullish (PartialPatient.height u)
        || present (PartialPatient.medicalHistory u)).

(** [db.update(patients).set(u).where(eq(patients.id, pid)).returning()];
    [set] throws when [u] leaves it nothing to set. *)
Definition updatePatients (u : PartialPatient.t) (pid : Z)
  : Async (list Patient.t) :=
  fun d =>
    if nothingToSet u then (Rejected NoValuesToSet, d)
    else
      let upd p := if Patient.id p =? pid then applySet u p else p in
      let ps := map upd (patients d) in
      (Resolved (filter (fun p => Patient.id p =? pid) ps), set_patients ps d).

(** [db.delete(healthHistory).where(eq(healthHistory.patientId, pid))]. *)
Definition deleteHealthHistoryOf (pid : Z) : Async unit :=
  fun d =>
    (Resolved tt,
     set_healthHistory
       (filter (fun h => negb (HealthHistory.patientId h =? pid))
               (healthHistory d)) d).

(** [db.delete(patients).where(eq(patients.id, pid)).returning()]: the four
    foreign keys onto [patients] are ON DELETE no action, so a referenced row
    is not deleted and the statement is refused. *)
Definition deletePatients (pid : Z) : Async (list Patient.t) :=
  fun d =>
    let gone := filter (fun p => Patient.id p =? pid) (patients d) in
    match gone with
    | [] => (Resolved [], d)
    | _ :: _ =>
        if patientReferenced pid d then (Rejected ForeignKeyViolation, d)
        else
          (Resolved gone,
           set_patients
             (filter (fun p => negb (Patient.id p =? pid)) (patients d)) d)
    end.

(** [db.insert(auditLogs).values(v).returning()]. *)
Definition insertAuditLogs (uid : Z) (action targetType targetId details : string)
    (now : Z) : Async (list AuditLog.t) :=
  fun d =>
    let id := audit_logs_id_seq d in
    let d1 := set_audit_logs_id_seq (id + 1) d in
    if negb (userExists uid d1) then (Rejected ForeignKeyViolation, d1)
    else
      let row :=
        AuditLog.Build id (Some uid) action targetType targetId details
                       (Some now) in
      (Resolved [row], set_auditLogs (auditLogs d1 ++ [row]) d1).

Definition set_users (us : list User.t) (d : Db) : Db :=
  mkDb us (patients d) (healthPredictions d) (medicalImages d) (auditLogs d)
       (healthHistory d) (appointments d)
       (patients_id_seq d) (health_history_id_seq d) (audit_logs_id_seq d).

(** Rows that reference user [uid]: patients by [created_by], history rows
    by [recorded_by], audit entries by [user_id] and appointments by
    [staff_id]. *)
Definition userReferenced (uid : Z) (d : Db) : bool :=
  existsb (fun p => optEqb (Patient.createdBy p) uid) (patients d)
  || existsb (fun h => HealthHistory.recordedBy h =? uid) (healthHistory d)
  || existsb (fun l => optEqb (AuditLog.userId l) uid) (auditLogs d)
  || existsb (fun a => Appointment.staffId a =? uid) (appointments d).

(** [db.delete(users).where(eq(users.id, uid))], whose result carries the
    number of rows deleted; the four foreign keys onto [users] are ON DELETE
    no action. *)
Definition deleteUsers (uid : Z) : Async nat :=
  fun d =>
    let gone := filter (fun u => User.id u =? uid) (users d) in
    match gone with
    | [] => (Resolved 0%nat, d)
    | _ :: _ =>
        if userReferenced uid d then (Rejected ForeignKeyViolation, d)
        else
          (Resolved (List.length gone),
           set_users (filter (fun u => negb (User.id u =? uid)) (users d)) d)
    end.

(** A stable insertion sort, used for ORDER BY and for [Array.prototype.sort]:
    [before a b] says that [a] may stay in front of [b]. *)
Section Sort.
Variable A : Type.
Variable before : A -> A -> bool.

Fixpoint insertSorted (x : A) (l : list A) : list A :=
  match l with
  | [] => [x]
  | y :: l' => if before x y then x :: l else y :: insertSorted x l'
  end.

Definition sortBy (l : list A) : list A :=
  fold_right insertSorted [] l.
End Sort.

(** ** server/database-storage.ts *)

Module DatabaseStorage.

Definition getPatient (id : Z) : Async (option Patient.t) :=
  fun d =>
    (Resolved (hd_error (filter (fun p => Patient.id p =? id) (patients d))),
     d).

Definition createHealthHistory (history : HistoryValues.t) (now : Z)
  : Async (option HealthHistory.t) :=
  result <- insertHealthHistory history now ;;
  ret (hd_error result).

(** The object literal of [createPatient]. *)
Definition initialValues (id : Z) (patient : NewPatient.t)
  : HistoryValues.t :=
  let f := NewPatient.fields patient in
  HistoryValues.Build id
    (Some (InsertPatient.bloodPressureSystolic f))
    (Some (InsertPatient.bloodPressureDiastolic f))
    (Some (InsertPatient.bloodSugar f))
    (InsertPatient.weight f)
    (InsertPatient.height f)
    (NewPatient.createdBy patient)
    "Initial patient record"
    "initial_record".

Definition createPatient (patient : NewPatient.t) (now : Z)
  : Async Patient.t :=
  result <- insertPatients patient now ;;
  match result with
  | [] => throw TypeError (* result[0] is undefined *)
  | row :: _ =>
      createHealthHistory (initialValues (Patient.id row) patient) now ;;;
      ret row
  end.

(** The condition guarding the history entry of [updatePatient]. *)
Definition vitalsProvided (patient : PartialPatient.t) : bool :=
  truthyOpt truthyZ (PartialPatient.bloodPressureSystolic patient)
  || truthyOpt truthyZ (PartialPatient.bloodPressureDiastolic patient)
  || truthyOpt truthyQ (PartialPatient.bloodSugar patient)
  || truthyNullish truthyQ (PartialPatient.weight patient)
  || truthyNullish truthyQ (PartialPatient.height patient).

(** The object literal of [updatePatient]. *)
Definition updateValues (id : Z) (patient : PartialPatient.t)
    (existingPatient : Patient.t) : HistoryValues.t :=
  HistoryValues.Build id
    (Some (Js.or truthyZ (PartialPatient.bloodPressureSystolic patient)
                 (Patient.bloodPressureSystolic existingPatient)))
    (Some (Js.or truthyZ (PartialPatient.bloodPressureDiastolic patient)
                 (Patient.bloodPressureDiastolic existingPatient)))
    (Some (Js.or truthyQ (PartialPatient.bloodSugar patient)
                 (Patient.bloodSugar existingPatient)))
    (orNullish truthyQ (PartialPatient.weight patient)
               (Patient.weight existingPatient))
    (orNullish truthyQ (PartialPatient.height patient)
               (Patient.height existingPatient))
    1
    "Patient record updated"
    "manual_edit".

Definition updatePatient (id : Z) (patient : PartialPatient.t) (now : Z)
  : Async (option Patient.t) :=
  existing <- getPatient id ;;
  match existing with
  | None => ret None
  | Some existingPatient =>
      result <- updatePatients patient id ;;
      (if vitalsProvided patient
       then createHealthHistory (updateValues id patient existingPatient) now
            ;;; ret tt
       else ret tt) ;;;
      ret (hd_error result)
  end.

Definition deletePatient (id : Z) : Async bool :=
  tryCatch
    (deleteHealthHistoryOf id ;;;
     result <- deletePatients id ;;
     ret (0 <? Z.of_nat (List.length result)))
    (fun error => throw error).

(** ORDER BY created_at DESC: nulls sort first. *)
Definition createdAtDesc (a b : Patient.t) : bool :=
  match Patient.createdAt a, Patient.createdAt b with
  | None, _ => true
  | Some _, None => false
  | Some x, Some y => y <=? x
  end.

Definition getAllPatients : Async (list Patient.t) :=
  fun d => (Resolved (sortBy createdAtDesc (patients d)), d).

Definition getPatientsByCreator (createdBy : Z) : Async (list Patient.t) :=
  fun d =>
    (Resolved (filter (fun p => optEqb (Patient.createdBy p) createdBy)
                      (patients d)), d).

(** The ORDER BY of this query is commented out in the source. *)
Definition getHealthHistoryByPatient (patientId : Z)
  : Async (list HealthHistory.t) :=
  fun d =>
    (Resolved (filter (fun h => HealthHistory.patientId h =? patientId)
                      (healthHistory d)), d).

Definition createAuditLog (userId : Z)
    (action targetType targetId details : string) (now : Z)
  : Async (option AuditLog.t) :=
  result <- insertAuditLogs userId action targetType targetId details now ;;
  ret (hd_error result).

Record Stats : Type := mkStats {
  totalPatients : nat;
  newAdmissions : nat;
  criticalCases : nat;
  aiPredictions : nat
}.

Definition count {A} (p : A -> bool) (l : list A) : nat :=
  List.length (filter p l).

(** [gte(patients.createdAt, today)]: a null never compares. *)
Definition admittedSince (today : Z) (p : Patient.t) : bool :=
  match Patient.createdAt p with
  | Some t => today <=? t
  | None => false
  end.

(** [or(gte(systolic, 140), gte(bloodSugar, 200))]. *)
Definition isCriticalCase (p : Patient.t) : bool :=
  (140 <=? Patient.bloodPressureSystolic p)
  || geQ (Patient.bloodSugar p) 200.

(** [today] is [new Date()] after [setHours(0, 0, 0, 0)]. *)
Definition getPatientStats (today : Z) : Async Stats :=
  fun d =>
    (Resolved
       (mkStats (count (fun _ => true) (patients d))
                (count (admittedSince today) (patients d))
                (count isCriticalCase (patients d))
                (count (fun _ => true) (healthPredictions d))),
     d).

(** *** The other queries of the class *)

Definition getUserByUsername (username : string) : Async (option User.t) :=
  fun d =>
    (Resolved
       (hd_error (filter (fun u => String.eqb (User.username u) username)
                         (users d))), d).

Definition deleteUser (id : Z) : Async bool :=
  rowCount <- deleteUsers id ;;
  ret (0 <? Z.of_nat rowCount).

Definition getPatientByPatientId (patientId : string)
  : Async (option Patient.t) :=
  fun d =>
    (Resolved
       (hd_error (filter (fun p => String.eqb (Patient.patientId p) patientId)
                         (patients d))), d).

Definition getHealthPredictionsByPatient (patientId : Z)
  : Async (list HealthPrediction.t) :=
  fun d =>
    (Resolved
       (filter (fun r => optEqb (HealthPrediction.patientId r) patientId)
               (healthPredictions d)), d).

Definition getMedicalImagesByPatient (patientId : Z)
  : Async (list MedicalImage.t) :=
  fun d =>
    (Resolved
       (filter (fun r => optEqb (MedicalImage.patientId r) patientId)
               (medicalImages d)), d).

(** ORDER BY appointment_date DESC; the column is NOT NULL. *)
Definition getAllAppointments : Async (list Appointment.t) :=
  fun d =>
    (Resolved
       (sortBy (fun a b =>
                  Appointment.appointmentDate b <=? Appointment.appointmentDate a)
               (appointments d)), d).

(** ORDER BY created_at DESC: nulls sort first. *)
Definition loggedAtDesc (a b : AuditLog.t) : bool :=
  match AuditLog.createdAt a, AuditLog.createdAt b with
  | None, _ => true
  | Some _, None => false
  | Some x, Some y => y <=? x
  end.

Definition getAuditLogs : Async (list AuditLog.t) :=
  fun d => (Resolved (sortBy loggedAtDesc (auditLogs d)), d).

End DatabaseStorage.

(** ** server/storage.ts: the in-memory store *)

(** A JavaScript [Map] keeps its entries in insertion order; [set] on a key
    already present replaces the value where it stands. *)
Module JsMap.
Section JsMap.
Variable V : Type.

Definition t : Type := list (Z * V).

Definition get (k : Z) (m : t) : option V :=
  option_map snd (find (fun kv => fst kv =? k) m).

Fixpoint set (k : Z) (v : V) (m : t) : t :=
  match m with
  | [] => [(k, v)]
  | (k', v') :: m' =>
      if k' =? k then (k, v) :: m' else (k', v') :: set k v m'
  end.

Definition values (m : t) : list V := map snd m.

Definition size (m : t) : nat := List.length m.

(** [m.delete(k)]: whether an entry was removed, and the map without it. *)
Definition delete (k : Z) (m : t) : bool * t :=
  (existsb (fun kv => fst kv =? k) m,
   filter (fun kv => negb (fst kv =? k)) m).

End JsMap.
End JsMap.

Module MemStorage.

(** The maps and counters read or written by the methods below. *)
Record t : Type := mk {
  patients : JsMap.t Patient.t;
  healthPredictions : JsMap.t HealthPrediction.t;
  healthHistories : JsMap.t HealthHistory.t;
  currentPatientId : Z;
  currentHealthHistoryId : Z;
  patientIdCounter : Z
}.

(** [s.padStart(n, c)]. *)
Definition padStart (n : nat) (c : ascii) (s : string) : string :=
  (string_of_list_ascii (repeat c (n - String.length s)) ++ s)%string.

Definition createPatient (insertPatient : NewPatient.t) (now : Z) (s : t)
  : Patient.t * t :=
  let id := currentPatientId s in
  let patientId :=
    ("PT-2024-" ++ padStart 3 "0" (StringZ (patientIdCounter s)))%string in
  let patient := patientRow id patientId insertPatient now in
  (patient,
   mk (JsMap.set id patient (patients s)) (healthPredictions s)
      (healthHistories s) (id + 1) (currentHealthHistoryId s)
      (patientIdCounter s + 1)).

Definition createHealthHistory (insertHistory : HistoryValues.t) (now : Z)
    (s : t) : HealthHistory.t * t :=
  let id := currentHealthHistoryId s in
  let history := historyRow id insertHistory now in
  (history,
   mk (patients s) (healthPredictions s)
      (JsMap.set id history (healthHistories s))
      (currentPatientId s) (id + 1) (patientIdCounter s)).

Definition vitalsProvided (updates : PartialPatient.t) : bool :=
  truthyOpt truthyQ (PartialPatient.bloodSugar updates)
  || truthyOpt truthyZ (PartialPatient.bloodPressureSystolic updates)
  || truthyOpt truthyZ (PartialPatient.bloodPressureDiastolic updates).

Definition updateValues (id : Z) (updates : PartialPatient.t)
    (patient : Patient.t) (recordedBy : Z) : HistoryValues.t :=
  HistoryValues.Build id
    (Some (Js.or truthyZ (PartialPatient.bloodPressureSystolic updates)
                 (Patient.bloodPressureSystolic patient)))
    (Some (Js.or truthyZ (PartialPatient.bloodPressureDiastolic updates)
                 (Patient.bloodPressureDiastolic patient)))
    (Some (Js.or truthyQ (PartialPatient.bloodSugar updates)
                 (Patient.bloodSugar patient)))
    undefined undefined
    recordedBy
    "Patient record updated by staff"
    "manual_edit".

Definition stamp (now : Z) (p : Patient.t) : Patient.t :=
  Patient.Build (Patient.id p) (Patient.patientId p) (Patient.name p)
    (Patient.age p) (Patient.phone p) (Patient.bloodSugar p)
    (Patient.bloodPressureSystolic p) (Patient.bloodPressureDiastolic p)
    (Patient.weight p) (Patient.height p) (Patient.medicalHistory p)
    (Patient.createdAt p) (Some now) (Patient.createdBy p)
    (Patient.isActive p).

Definition updatePatient (id : Z) (updates : PartialPatient.t)
    (recordedBy : option Z) (now : Z) (s : t) : option Patient.t * t :=
  match JsMap.get id (patients s) with
  | None => (None, s)
  | Some patient =>
      let updatedPatient := stamp now (applySet updates patient) in
      let s1 :=
        mk (JsMap.set id updatedPatient (patients s)) (healthPredictions s)
           (healthHistories s) (currentPatientId s)
           (currentHealthHistoryId s) (patientIdCounter s) in
      let s2 :=
        match recordedBy with
        | Some by_ =>
            if truthyZ by_ && vitalsProvided updates
            then snd (createHealthHistory
                        (updateValues id updates patient by_) now s1)
            else s1
        | None => s1
        end in
      (Some updatedPatient, s2)
  end.

Definition getAllPatients (s : t) : list Patient.t :=
  JsMap.values (patients s).

(** [(b.timestamp?.getTime() || 0) - (a.timestamp?.getTime() || 0)]. *)
Definition time (h : HealthHistory.t) : Z :=
  match HealthHistory.timestamp h with
  | Some x => if truthyZ x then x else 0
  | None => 0
  end.

Definition compareHistory (a b : HealthHistory.t) : Z := time b - time a.

Definition getHealthHistoryByPatient (patientId : Z) (s : t)
  : list HealthHistory.t :=
  sortBy (fun a b => compareHistory a b <=? 0)
    (filter (fun h => HealthHistory.patientId h =? patientId)
            (JsMap.values (healthHistories s))).

Definition admittedLastDay (yesterday : Z) (p : Patient.t) : bool :=
  match Patient.createdAt p with
  | Some x => yesterday <? x
  | None => false
  end.

Definition isCriticalCase (p : Patient.t) : bool :=
  (140 <? Patient.bloodPressureSystolic p)
  || gtQ (Patient.bloodSugar p) 200.

Definition getPatientStats (now : Z) (s : t) : DatabaseStorage.Stats :=
  let totalPatients := JsMap.size (patients s) in
  let yesterday := now - 24 * 60 * 60 * 1000 in
  DatabaseStorage.mkStats totalPatients
    (List.length (filter (admittedLastDay yesterday)
                         (JsMap.values (patients s))))
    (List.length (filter isCriticalCase (JsMap.values (patients s))))
    (JsMap.size (healthPredictions s)).

(** *** The other patient methods of the class *)

Definition getPatient (id : Z) (s : t) : option Patient.t :=
  JsMap.get id (patients s).

Definition getPatientByPatientId (patientId : string) (s : t)
  : option Patient.t :=
  find (fun patient => String.eqb (Patient.patientId patient) patientId)
       (JsMap.values (patients s)).

Definition deletePatient (id : Z) (s : t) : bool * t :=
  let (deleted, rest) := JsMap.delete id (patients s) in
  (deleted,
   mk rest (healthPredictions s) (healthHistories s) (currentPatientId s)
      (currentHealthHistoryId s) (patientIdCounter s)).

Definition getPatientsByCreator (createdBy : Z) (s : t) : list Patient.t :=
  filter (fun patient => optEqb (Patient.createdBy patient) createdBy)
         (JsMap.values (patients s)).

End MemStorage.

(** ** server/auth.ts *)

Module Auth.

Record LoginData : Type := mkLogin {
  username : string;
  password : string
}.

(** The password is compared as plain text, as the source does. *)
Definition authenticateUser (credentials : LoginData)
  : Async (option User.t) :=
  user <- DatabaseStorage.getUserByUsername (username credentials) ;;
  match user with
  | None => ret None
  | Some u =>
      if negb (User.isActive u) then ret None
      else if negb (String.eqb (User.password u) (password credentials))
      then ret None
      else ret (Some u)
  end.

End Auth.

(** ** server/routes.ts *)

Module Routes.

(** [req.user], as set by [requireAuth]. *)
Record Principal : Type := mkPrincipal {
  id : Z;
  username : string;
  role : string;
  name : string
}.

Inductive Response (A : Type) : Type :=
| Json (body : A)
| Status (code : Z) (message : string).
Arguments Status {A} code message.

Definition respond {A} (m : Async A) (onError : Response A) (d : Db)
  : Response A * Db :=
  match m d with
  | (Resolved a, d') => (Json a, d')
  | (Rejected _, d') => (onError, d')
  end.

(** The exported [storage] is a [DatabaseStorage], whose [updatePatient]
    has two parameters: a third argument of a call is dropped. *)
Definition storage_updatePatient (id : Z) (updates : PartialPatient.t)
    (_ : Z) (now : Z) : Async (option Patient.t) :=
  DatabaseStorage.updatePatient id updates now.

(** POST /api/patients, past [requireAuth] and [requireRole]. [body] is
    what [insertPatientSchema.parse] returns, [None] when it throws; [now]
    is the clock of the request. *)
Definition postPatients (user : Principal) (body : option InsertPatient.t)
    (now : Z) (d : Db) : Response Patient.t * Db :=
  match body with
  | None => (Status 400 "Invalid patient data", d)
  | Some patientData =>
      respond
        (patient <- DatabaseStorage.createPatient
                      (NewPatient.Build
                         (Some ("PT-" ++ StringZ now)%string)
                         patientData (id user)) now ;;
         DatabaseStorage.createAuditLog (id user) "CREATE_PATIENT" "patient"
           (Patient.patientId patient)
           ("Created patient: " ++ Patient.name patient)%string now ;;;
         ret patient)
        (Status 400 "Invalid patient data") d
  end.

(** PUT /api/patients/:id. *)
Definition putPatient (user : Principal) (patientKey : Z)
    (body : option PartialPatient.t) (now : Z) (d : Db)
  : Response Patient.t * Db :=
  match body with
  | None => (Status 400 "Invalid update data", d)
  | Some updates =>
      match storage_updatePatient patientKey updates (id user) now d with
      | (Rejected _, d') => (Status 400 "Invalid update data", d')
      | (Resolved None, d') => (Status 404 "Patient not found", d')
      | (Resolved (Some patient), d') =>
          respond
            (DatabaseStorage.createAuditLog (id user) "UPDATE_PATIENT"
               "patient" (Patient.patientId patient)
               ("Updated patient: " ++ Patient.name patient)%string now ;;;
             ret patient)
            (Status 400 "Invalid update data") d'
      end
  end.

(** *** GET /api/patients/export *)

Definition comma : ascii := ","%char.
Definition quote : ascii := "034"%char.
Definition LF : ascii := "010"%char.
Definition CR : ascii := "013"%char.

(** [str.includes(c)] for a one-character [c]. *)
Fixpoint includes (c : ascii) (str : string) : bool :=
  match str with
  | EmptyString => false
  | String x rest => Ascii.eqb x c || includes c rest
  end.

(** [str.replace] of every double quote by two of them. *)
Fixpoint doubleQuotes (str : string) : string :=
  match str with
  | EmptyString => EmptyString
  | String x rest =>
      if Ascii.eqb x quote
      then String quote (String quote (doubleQuotes rest))
      else String x (doubleQuotes rest)
  end.

(** The values [escapeCsvField] is applied to. *)
Inductive Field : Type :=
| FNull
| FUndefined
| FText (s : string)
| FInteger (z : Z)
| FReal (q : Q).

(** U+FEFF as sent on the wire. *)
Definition BOM : string :=
  String "239"%char (String "187"%char (String "191"%char EmptyString)).

Definition csvHeader : string :=
  ("Patient ID,Name,Age,Phone,Blood Sugar,Systolic BP,Diastolic BP,Medical History,Created Date"
     ++ String LF EmptyString)%string.

Section CsvExport.
(** [String(x)] for a number that need not be an integer, and
    [new Date(t).toISOString().split('T')[0]]. *)
Variable StringQ : Q -> string.
Variable isoDate : option Z -> string.

Definition toText (field : Field) : string :=
  match field with
  | FNull => "null"
  | FUndefined => "undefined"
  | FText s => s
  | FInteger z => StringZ z
  | FReal q => StringQ q
  end.

Definition escapeCsvField (field : Field) : string :=
  match field with
  | FNull | FUndefined => EmptyString
  | _ =>
      let str := toText field in
      if includes comma str || includes quote str
         || includes LF str || includes CR str
      then (String quote (doubleQuotes str) ++ String quote EmptyString)%string
      else str
  end.

(** The nine values of a row, in the order of the array literal. *)
Definition rowFields (patient : Patient.t) : list Field :=
  [ FText (Patient.patientId patient);
    FText (Patient.name patient);
    FInteger (Patient.age patient);
    FText (Patient.phone patient);
    FReal (Patient.bloodSugar patient);
    FInteger (Patient.bloodPressureSystolic patient);
    FInteger (Patient.bloodPressureDiastolic patient);
    FText (Patient.medicalHistory patient);
    FText (isoDate (Patient.createdAt patient)) ].

Definition csvRow (patient : Patient.t) : string :=
  String.concat (String comma EmptyString)
                (map escapeCsvField (rowFields patient)).

Definition csvData (patients : list Patient.t) : string :=
  String.concat (String LF EmptyString) (map csvRow patients).

Definition csvContent (patients : list Patient.t) : string :=
  (csvHeader ++ csvData patients)%string.

(** The body passed to [res.send]. *)
Definition exportBody (patients : list Patient.t) : string :=
  (BOM ++ csvContent patients)%string.

Definition getPatientsExport (d : Db) : Response string * Db :=
  respond
    (patients <- DatabaseStorage.getAllPatients ;;
     ret (exportBody patients))
    (Status 500 "Failed to export patient data") d.
End CsvExport.


(** *** Sessions and the two guards *)

(** The [sessions] map, from session id to principal, in insertion order. *)
Definition Sessions : Type := list (string * Principal).

Definition sessions_get (sid : string) (m : Sessions) : option Principal :=
  option_map snd (find (fun kv => String.eqb (fst kv) sid) m).

Definition sessions_has (sid : string) (m : Sessions) : bool :=
  existsb (fun kv => String.eqb (fst kv) sid) m.

Fixpoint sessions_set (sid : string) (user : Principal) (m : Sessions)
  : Sessions :=
  match m with
  | [] => [(sid, user)]
  | (k, v) :: m' =>
      if String.eqb k sid then (sid, user) :: m'
      else (k, v) :: sessions_set sid user m'
  end.

Definition sessions_delete (sid : string) (m : Sessions) : Sessions :=
  filter (fun kv => negb (String.eqb (fst kv) sid)) m.

(** What is left of [s] after the prefix [p], when [s] starts with [p]. *)
Fixpoint afterPrefix (p s : string) : option string :=
  match p with
  | EmptyString => Some s
  | String a p' =>
      match s with
      | EmptyString => None
      | String b s' => if Ascii.eqb a b then afterPrefix p' s' else None
      end
  end.

(** [s.replace(pattern, replacement)] for a text pattern: the first
    occurrence is replaced. *)
Fixpoint replace (pattern replacement s : string) : string :=
  match afterPrefix pattern s with
  | Some rest => (replacement ++ rest)%string
  | None =>
      match s with
      | EmptyString => EmptyString
      | String c s' => String c (replace pattern replacement s')
      end
  end.

(** The part of a request the guards read. *)
Record Request : Type := mkRequest {
  authorization : option string
}.

(** [req.headers.authorization?.replace('Bearer ', '')]. *)
Definition sessionIdOf (req : Request) : option string :=
  option_map (replace "Bearer " "") (authorization req).

Definition truthyText (o : option string) : bool :=
  match o with
  | Some s => negb (String.eqb s EmptyString)
  | None => false
  end.

(** A route with its guards applied is a function of the sessions, the
    request and the store. [requireAuth] answers 401 or hands the principal
    of the session to [next]. *)
Definition requireAuth {A} (sessions : Sessions) (req : Request)
    (next : Principal -> Db -> Response A * Db) (d : Db)
  : Response A * Db :=
  match sessionIdOf req with
  | Some sessionId =>
      if truthyText (Some sessionId) && sessions_has sessionId sessions
      then match sessions_get sessionId sessions with
           | Some user => next user d
           | None => (Status 401 "Unauthorized", d)
           end
      else (Status 401 "Unauthorized", d)
  | None => (Status 401 "Unauthorized", d)
  end.

(** [requireRole(roles)], past [requireAuth]. *)
Definition requireRole {A} (roles : list string) (user : Principal)
    (next : Db -> Response A * Db) (d : Db) : Response A * Db :=
  if existsb (String.eqb (role user)) roles then next d
  else (Status 403 "Forbidden", d).

(** *** Login and logout *)

(** POST /api/login. [body] is what [loginSchema.parse] returns, [None] when
    it throws; [sessionId] is what [generateSessionId()] returns. *)
Definition postLogin (body : option Auth.LoginData) (sessionId : string)
    (sessions : Sessions) (d : Db)
  : Response (Principal * string) * Sessions * Db :=
  match body with
  | None => (Status 400 "Invalid request data", sessions, d)
  | Some credentials =>
      match Auth.authenticateUser credentials d with
      | (Rejected _, d') => (Status 400 "Invalid request data", sessions, d')
      | (Resolved None, d') => (Status 401 "Invalid credentials", sessions, d')
      | (Resolved (Some user), d') =>
          let principal :=
            mkPrincipal (User.id user) (User.username user) (User.role user)
                        (User.name user) in
          (Json (principal, sessionId),
           sessions_set sessionId principal sessions, d')
      end
  end.

(** POST /api/logout, with [requireAuth] applied. *)
Definition postLogout (sessions : Sessions) (req : Request)
  : Response string * Sessions :=
  match sessionIdOf req with
  | Some sessionId =>
      if truthyText (Some sessionId) && sessions_has sessionId sessions
      then (Json "Logged out successfully"%string,
            sessions_delete sessionId sessions)
      else (Status 401 "Unauthorized", sessions)
  | None => (Status 401 "Unauthorized", sessions)
  end.

(** GET /api/me. *)
Definition getMe (sessions : Sessions) (req : Request) (d : Db)
  : Response Principal * Db :=
  requireAuth sessions req (fun user d' => (Json user, d')) d.

(** *** Patient routes *)

(** GET /api/patients. *)
Definition getPatientsHandler (user : Principal) (d : Db)
  : Response (list Patient.t) * Db :=
  respond
    (if String.eqb (role user) "admin"
     then DatabaseStorage.getAllPatients
     else DatabaseStorage.getPatientsByCreator (id user))
    (Status 500 "Failed to fetch patients") d.

Definition getPatients (sessions : Sessions) (req : Request) (d : Db)
  : Response (list Patient.t) * Db :=
  requireAuth sessions req getPatientsHandler d.

(** GET /api/patients/:id. *)
Definition getPatientHandler (patientKey : Z) (user : Principal) (d : Db)
  : Response Patient.t * Db :=
  match DatabaseStorage.getPatient patientKey d with
  | (Rejected _, d') => (Status 500 "Failed to fetch patient", d')
  | (Resolved None, d') => (Status 404 "Patient not found", d')
  | (Resolved (Some patient), d') =>
      if negb (String.eqb (role user) "admin")
         && negb (optEqb (Patient.createdBy patient) (id user))
      then (Status 403 "Access denied", d')
      else (Json patient, d')
  end.

Definition getPatientById (sessions : Sessions) (req : Request)
    (patientKey : Z) (d : Db) : Response Patient.t * Db :=
  requireAuth sessions req (getPatientHandler patientKey) d.

(** DELETE /api/patients/:id. *)
Definition deletePatientHandler (patientKey : Z) (now : Z)
    (user : Principal) (d : Db) : Response string * Db :=
  match DatabaseStorage.getPatient patientKey d with
  | (Rejected _, d') => (Status 500 "Failed to delete patient", d')
  | (Resolved None, d') => (Status 404 "Patient not found", d')
  | (Resolved (Some patient), d') =>
      match DatabaseStorage.deletePatient patientKey d' with
      | (Rejected _, d'') => (Status 500 "Failed to delete patient", d'')
      | (Resolved false, d'') => (Status 500 "Failed to delete patient", d'')
      | (Resolved true, d'') =>
          respond
            (DatabaseStorage.createAuditLog (id user) "DELETE_PATIENT"
               "patient" (Patient.patientId patient)
               ("Deleted patient: " ++ Patient.name patient)%string now ;;;
             ret "Patient deleted successfully"%string)
            (Status 500 "Failed to delete patient") d''
      end
  end.

Definition deletePatientById (sessions : Sessions) (req : Request)
    (patientKey : Z) (now : Z) (d : Db) : Response string * Db :=
  requireAuth sessions req
    (fun user => requireRole ["admin"%string] user
                   (deletePatientHandler patientKey now user)) d.

(** The body of GET /api/patient/:patientId/data: the patient with two more
    keys. *)
Module PatientData.
Record t : Type := Build {
  patient : Patient.t;
  healthPredictions : list HealthPrediction.t;
  medicalImages : list MedicalImage.t
}.
End PatientData.

(** The first of the two handlers registered for
    GET /api/patient/:patientId/data; it always answers, so the second one
    is never reached. *)
Definition getPatientDataHandler (patientId : string) (user : Principal)
    (d : Db) : Response PatientData.t * Db :=
  if String.eqb (role user) "patient"
     && negb (String.eqb (username user) patientId)
  then (Status 403 "Access denied", d)
  else
    match DatabaseStorage.getPatientByPatientId patientId d with
    | (Rejected _, d') => (Status 500 "Failed to fetch patient data", d')
    | (Resolved None, d') => (Status 404 "Patient not found", d')
    | (Resolved (Some p), d') =>
        respond
          (predictions <-
             DatabaseStorage.getHealthPredictionsByPatient (Patient.id p) ;;
           images <-
             DatabaseStorage.getMedicalImagesByPatient (Patient.id p) ;;
           ret (PatientData.Build p predictions images))
          (Status 500 "Failed to fetch patient data") d'
    end.

Definition getPatientData (sessions : Sessions) (req : Request)
    (patientId : string) (d : Db) : Response PatientData.t * Db :=
  requireAuth sessions req (getPatientDataHandler patientId) d.

(** *** Admin routes *)

(** DELETE /api/admin/users/:id. *)
Definition deleteUserHandler (userId : Z) (now : Z) (user : Principal)
    (d : Db) : Response string * Db :=
  match DatabaseStorage.deleteUser userId d with
  | (Rejected _, d') => (Status 500 "Failed to delete user", d')
  | (Resolved false, d') => (Status 404 "User not found", d')
  | (Resolved true, d') =>
      respond
        (DatabaseStorage.createAuditLog (id user) "DELETE_USER" "user"
           (StringZ userId) ("Deleted user ID: " ++ StringZ userId)%string
           now ;;;
         ret "User deleted successfully"%string)
        (Status 500 "Failed to delete user") d'
  end.

Definition deleteUserById (sessions : Sessions) (req : Request)
    (userId : Z) (now : Z) (d : Db) : Response string * Db :=
  requireAuth sessions req
    (fun user => requireRole ["admin"%string] user
                   (deleteUserHandler userId now user)) d.

(** GET /api/stats. *)
Definition getStats (sessions : Sessions) (req : Request) (today : Z)
    (d : Db) : Response DatabaseStorage.Stats * Db :=
  requireAuth sessions req
    (fun _ => respond (DatabaseStorage.getPatientStats today)
                      (Status 500 "Failed to fetch statistics")) d.

End Routes.

(** ** Reading a CSV document back

    The repository writes CSV and never reads it. The round trip of the
    export is stated against this reader of the usual dialect: fields are
    separated by commas and records by line feeds; a field that opens with a
    double quote runs to the next lone double quote, a doubled one standing
    for itself; carriage returns outside quotes are dropped; a leading
    byte-order mark is skipped; a last record without a line feed counts. *)

Module CsvReader.
Import Routes.

Inductive Mode : Type :=
| Plain (fresh : bool)
| Quoted
| QuoteSeen.

Definition snoc (s : string) (c : ascii) : string :=
  (s ++ String c EmptyString)%string.

(** [cur] is the field being read, [row] the fields of the record being
    read, [rows] the records read, [started] whether the record being read
    has any character yet. *)
Fixpoint read (mode : Mode) (cur : string) (row : list string)
    (rows : list (list string)) (started : bool) (input : string)
  : list (list string) :=
  match input with
  | EmptyString =>
      if started then rows ++ [row ++ [cur]] else rows
  | String c rest =>
      let plain :=
        if Ascii.eqb c comma
        then read (Plain true) EmptyString (row ++ [cur]) rows true rest
        else if Ascii.eqb c LF
        then read (Plain true) EmptyString [] (rows ++ [row ++ [cur]])
                  false rest
        else if Ascii.eqb c CR
        then read mode cur row rows started rest
        else read (Plain false) (snoc cur c) row rows true rest in
      match mode with
      | Plain true =>
          if Ascii.eqb c quote
          then read Quoted EmptyString row rows true rest
          else plain
      | Plain false => plain
      | Quoted =>
          if Ascii.eqb c quote
          then read QuoteSeen cur row rows true rest
          else read Quoted (snoc cur c) row rows true rest
      | QuoteSeen =>
          if Ascii.eqb c quote
          then read Quoted (snoc cur quote) row rows true rest
          else plain
      end
  end.

Definition stripBOM (s : string) : string :=
  match s with
  | String a (String b (String c rest)) =>
      if Ascii.eqb a "239" && Ascii.eqb b "187" && Ascii.eqb c "191"
      then rest else s
  | _ => s
  end.

Definition parseCsv (document : string) : list (list string) :=
  read (Plain true) EmptyString [] [] false (stripBOM document).

End CsvReader.

(** ** server/ai-models.ts *)

Module AiModels.

Inductive Gender : Type := male | female.

Record HealthPredictionInput : Type := mkInput {
  age : Q;
  gender : Gender;
  systolicBP : Q;
  diastolicBP : Q;
  bloodSugar : Q;
  bmi : Q
}.

Record HealthPredictionResult : Type := mkResult {
  cardiovascularRisk : Q;
  diabetesRisk : Q;
  overallHealthScore : Q;
  recommendations : list string
}.

Record ImageAnalysisResult : Type := mkAnalysis {
  abnormalityDetected : bool;
  confidence : Q;
  findings : string;
  imageRecommendations : list string
}.

Inductive Promise (A : Type) : Type :=
| fulfilled (a : A)
| rejected.
Arguments rejected {A}.

(** What lies outside the process: the two Python scripts, each of which
    either prints a result or fails, and the values the successive calls
    of [Math.random()] return. *)
Record World : Type := mkWorld {
  health_prediction_py : HealthPredictionInput -> Promise HealthPredictionResult;
  image_analysis_py : string -> string -> Promise ImageAnalysisResult;
  random : nat -> Q
}.

Definition max (x y : Q) : Q := if Qle_bool x y then y else x.
Definition min (x y : Q) : Q := if Qle_bool x y then x else y.

(** [if (c) acc += n]. *)
Definition addIf (c : bool) (n : Q) (acc : Q) : Q :=
  if c then (acc + n)%Q else acc.

(** [if (c) list.push(s)]. *)
Definition pushIf (c : bool) (s : string) (l : list string) : list string :=
  if c then l ++ [s] else l.

Definition isMale (g : Gender) : bool :=
  match g with male => true | female => false end.

Definition fallbackHealthPrediction (input : HealthPredictionInput)
  : HealthPredictionResult :=
  let cardiovascularRisk :=
    addIf (gtQ (bloodSugar input) 200) 25
      (addIf (gtQ (bmi input) 30) 15
         (addIf (isMale (gender input)) 10
            (addIf (gtQ (age input) 65) 20
               (addIf (gtQ (systolicBP input) 140
                       || gtQ (diastolicBP input) 90) 30 0)))) in
  let diabetesRisk :=
    addIf (gtQ (systolicBP input) 140) 10
      (addIf (gtQ (age input) 45) 15
         (addIf (gtQ (bmi input) 30) 25
            (addIf (gtQ (bloodSugar input) 126) 40 0))) in
  let overallHealthScore :=
    max 0 (100 - (cardiovascularRisk + diabetesRisk) / 2)%Q in
  let recommendations :=
    pushIf (negb (Qle_bool 70 overallHealthScore))
           "Schedule comprehensive health checkup"
      (pushIf (gtQ (bmi input) 30) "Consider weight management program"
         (pushIf (gtQ (bloodSugar input) 126)
                 "Consult endocrinologist for diabetes management"
            (pushIf (gtQ (systolicBP input) 140)
                    "Monitor blood pressure regularly" []))) in
  mkResult (min 100 cardiovascularRisk) (min 100 diabetesRisk)
           overallHealthScore recommendations.

(** [draws] are the values of the two calls of [Math.random()], in order. *)
Definition fallbackImageAnalysis (draws : nat -> Q)
    (filename analysisType : string) : ImageAnalysisResult :=
  let confidence := ((85 # 100) + draws 0%nat * (15 # 100))%Q in
  let abnormalityDetected := negb (Qle_bool (2 # 10) (draws 1%nat)) in
  if abnormalityDetected then
    if String.eqb analysisType "xray" then
      mkAnalysis abnormalityDetected confidence
        "Mild opacity detected in lower lung field. May indicate early infection or inflammation."
        ["Recommend follow-up CT scan"; "Consider antibiotic treatment";
         "Monitor symptoms closely"]%string
    else if String.eqb analysisType "ct" then
      mkAnalysis abnormalityDetected confidence
        "Small nodule detected in lung. Requires further evaluation."
        ["Schedule PET scan"; "Consult oncologist";
         "Follow-up in 3 months"]%string
    else if String.eqb analysisType "mri" then
      mkAnalysis abnormalityDetected confidence
        "Minor signal abnormality in brain tissue. Likely benign but needs monitoring."
        ["Repeat MRI in 6 months"; "Neurological consultation";
         "Monitor for symptoms"]%string
    else
      mkAnalysis abnormalityDetected confidence
        "Abnormal tissue pattern detected. Requires specialist review."
        ["Consult specialist"; "Additional imaging recommended"]%string
  else
    mkAnalysis abnormalityDetected confidence
      "No significant abnormalities detected. Normal anatomical structures observed."
      ["Continue routine monitoring"; "No immediate action required"]%string.

Definition predictHealthRisk (w : World) (input : HealthPredictionInput)
  : Promise HealthPredictionResult :=
  match health_prediction_py w input with
  | fulfilled result => fulfilled result
  | rejected => fulfilled (fallbackHealthPrediction input)
  end.

Definition analyzeImage (w : World) (filename analysisType : string)
  : Promise ImageAnalysisResult :=
  match image_analysis_py w filename analysisType with
  | fulfilled result => fulfilled result
  | rejected =>
      fulfilled (fallbackImageAnalysis (random w) filename analysisType)
  end.

End AiModels.

(** ** The vitals ladder of the client components *)

Module Client.

Inductive Status : Type := Critical | Warning | Normal.
Inductive Variant : Type := destructive | secondary | default.

Record Badge : Type := mkBadge { status : Status; variant : Variant }.

(** The [PatientModal] component. *)
Module PatientModal.
Definition getVitalStatus (systolic diastolic sugar : Q) : Badge :=
  if gtQ systolic 140 || gtQ diastolic 90 || gtQ sugar 200
  then mkBadge Critical destructive
  else if gtQ systolic 120 || gtQ diastolic 80 || gtQ sugar 140
  then mkBadge Warning secondary
  else mkBadge Normal default.
End PatientModal.

(** The [DashboardOverview] component. *)
Module DashboardOverview.
Definition getVitalStatus (systolic diastolic sugar : Q) : Badge :=
  if gtQ systolic 140 || gtQ diastolic 90 || gtQ sugar 200
  then mkBadge Critical destructive
  else if gtQ systolic 120 || gtQ diastolic 80 || gtQ sugar 140
  then mkBadge Warning secondary
  else mkBadge Normal default.
End DashboardOverview.

(** The [AdminPanel] component. *)
Module AdminPanel.
Definition getVitalStatus (systolic diastolic sugar : Q) : Badge :=
  if gtQ systolic 140 || gtQ diastolic 90 || gtQ sugar 200
  then mkBadge Critical destructive
  else if gtQ systolic 120 || gtQ diastolic 80 || gtQ sugar 140
  then mkBadge Warning secondary
  else mkBadge Normal default.
End AdminPanel.

(** The [PatientManagement] component. *)
Module PatientManagement.
Definition getVitalStatus (systolic diastolic sugar : Q) : Badge :=
  if gtQ systolic 140 || gtQ diastolic 90 || gtQ sugar 200
  then mkBadge Critical destructive
  else if gtQ systolic 120 || gtQ diastolic 80 || gtQ sugar 140
  then mkBadge Warning secondary
  else mkBadge Normal default.
End PatientManagement.

(** The [PatientView] component, whose badge also carries an icon. *)
Module PatientView.
Inductive Icon : Type := AlertRed | AlertYellow | CheckGreen.

Record IconBadge : Type := mkIconBadge {
  badge : Badge;
  icon : Icon
}.

Definition getVitalStatus (systolic diastolic sugar : Q) : IconBadge :=
  if gtQ systolic 140 || gtQ diastolic 90 || gtQ sugar 200
  then mkIconBadge (mkBadge Critical destructive) AlertRed
  else if gtQ systolic 120 || gtQ diastolic 80 || gtQ sugar 140
  then mkIconBadge (mkBadge Warning secondary) AlertYellow
  else mkIconBadge (mkBadge Normal default) CheckGreen.
End PatientView.

(** The call made by every component that shows the badge of a patient. *)
Definition statusOfPatient (p : Patient.t) : Status :=
  status (PatientModal.getVitalStatus
            (inject_Z (Patient.bloodPressureSystolic p))
            (inject_Z (Patient.bloodPressureDiastolic p))
            (Patient.bloodSugar p)).

End Client.

(** * Notions used in the statements *)

(** The history rows of a patient, in table order, and their number. *)
Definition historyOf (pid : Z) (d : Db) : list HealthHistory.t :=
  filter (fun h => HealthHistory.patientId h =? pid) (healthHistory d).

Definition historyCount (pid : Z) (d : Db) : nat :=
  List.length (historyOf pid d).

(** A partial payload that carries at least one of the five vitals keys. *)
Definition includesVitalsField (u : PartialPatient.t) : bool :=
  present (PartialPatient.bloodSugar u)
  || present (PartialPatient.bloodPressureSystolic u)
  || present (PartialPatient.bloodPressureDiastolic u)
  || presentNullish (PartialPatient.weight u)
  || presentNullish (PartialPatient.height u).

(** Every vitals value a payload carries is falsy: the number 0, or [null]
    for the two nullable ones. *)
Definition falsyQ (o : option Q) : Prop := forall q, o = Some q -> q == 0.
Definition falsyZ (o : option Z) : Prop := forall z, o = Some z -> z = 0.
Definition falsyNullish (o : nullish Q) : Prop :=
  forall q, o = defined q -> q == 0.

Definition allVitalsFalsy (u : PartialPatient.t) : Prop :=
  falsyZ (PartialPatient.bloodPressureSystolic u)
  /\ falsyZ (PartialPatient.bloodPressureDiastolic u)
  /\ falsyQ (PartialPatient.bloodSugar u)
  /\ falsyNullish (PartialPatient.weight u)
  /\ falsyNullish (PartialPatient.height u).

(** The same for the three values the in-memory store looks at. *)
Definition threeVitalsFalsy (u : PartialPatient.t) : Prop :=
  falsyQ (PartialPatient.bloodSugar u)
  /\ falsyZ (PartialPatient.bloodPressureSystolic u)
  /\ falsyZ (PartialPatient.bloodPressureDiastolic u).

(** How [provided || prior] picks the value of a snapshot: the provided one
    when it is truthy, the prior one otherwise. *)
Definition picks {A} (truthy : A -> bool) (provided : option A)
    (prior result : A) : Prop :=
  (forall x, provided = Some x -> truthy x = true -> result = x)
  /\ (forall x, provided = Some x -> truthy x = false -> result = prior)
  /\ (provided = None -> result = prior).

(** Rows other than history rows that reference patient [pid]: stored
    predictions, analysed images and appointments. *)
Definition referencedBeyondHistory (pid : Z) (d : Db) : bool :=
  existsb (fun r => optEqb (HealthPrediction.patientId r) pid)
          (healthPredictions d)
  || existsb (fun r => optEqb (MedicalImage.patientId r) pid)
             (medicalImages d)
  || existsb (fun a => Appointment.patientId a =? pid) (appointments d).

(** The names of the nine columns, in the order of the header line. *)
Definition csvHeaderFields : list string :=
  [ "Patient ID"; "Name"; "Age"; "Phone"; "Blood Sugar"; "Systolic BP";
    "Diastolic BP"; "Medical History"; "Created Date" ]%string.

(** A text holds a comma, a double quote, a line feed or a carriage
    return. *)
Definition needsQuotes (str : string) : bool :=
  Routes.includes Routes.comma str || Routes.includes Routes.quote str
  || Routes.includes Routes.LF str || Routes.includes Routes.CR str.

(** A value that [escapeCsvField] turns into text, and the escaped form of
    a text. *)
Definition isValue (f : Routes.Field) : Prop :=
  f <> Routes.FNull /\ f <> Routes.FUndefined.

Definition escapeText (StringQ : Q -> string) (s : string) : string :=
  Routes.escapeCsvField StringQ (Routes.FText s).

(** The two upper rungs of the ladder. *)
Definition rungCritical (systolic diastolic sugar : Q) : Prop :=
  (systolic > 140 \/ diastolic > 90 \/ sugar > 200)%Q.

Definition rungWarning (systolic diastolic sugar : Q) : Prop :=
  (systolic > 120 \/ diastolic > 80 \/ sugar > 140)%Q.

(** A patient whose vitals status, as the ladder derives it, is Critical. *)
Definition ladderCritical (p : Patient.t) : bool :=
  match Client.statusOfPatient p with
  | Client.Critical => true
  | _ => false
  end.

(** Newest first: timestamps never increase along the list. *)
Definition newestFirst (l : list HealthHistory.t) : Prop :=
  Sorted (fun a b => MemStorage.time b <= MemStorage.time a) l.

Fixpoint newestFirstb (l : list HealthHistory.t) : bool :=
  match l with
  | [] => true
  | a :: l' =>
      match l' with
      | [] => true
      | b :: _ => (MemStorage.time b <=? MemStorage.time a) && newestFirstb l'
      end
  end.

(** The pattern PT-dddd-ddd, looked for anywhere in a text. *)
Definition isDigit (c : ascii) : bool :=
  (48 <=? nat_of_ascii c)%nat && (nat_of_ascii c <=? 57)%nat.

Definition idPatternAt (s : string) : bool :=
  match s with
  | String p (String t (String h1 (String d1 (String d2 (String d3
      (String d4 (String h2 (String d5 (String d6 (String d7 _)))))))))) =>
      Ascii.eqb p "P" && Ascii.eqb t "T" && Ascii.eqb h1 "-"
      && isDigit d1 && isDigit d2 && isDigit d3 && isDigit d4
      && Ascii.eqb h2 "-" && isDigit d5 && isDigit d6 && isDigit d7
  | _ => false
  end.

Fixpoint matchesIdPattern (s : string) : bool :=
  idPatternAt s
  || match s with
     | EmptyString => false
     | String _ rest => matchesIdPattern rest
     end.

Fixpoint allDigits (s : string) : bool :=
  match s with
  | EmptyString => true
  | String c rest => isDigit c && allDigits rest
  end.

(** The codes of the stored patients are pairwise distinct. *)
Definition uniquePatientIds (d : Db) : Prop :=
  NoDup (map Patient.patientId (patients d)).

(** ** Notions used in the further properties *)

(** The three statuses in order of severity. *)
Definition severity (s : Client.Status) : nat :=
  match s with
  | Client.Normal => 0
  | Client.Warning => 1
  | Client.Critical => 2
  end.

(** One input of the estimator is at most another, number by number, for
    the same gender. *)
Definition inputLe (a b : AiModels.HealthPredictionInput) : Prop :=
  AiModels.gender a = AiModels.gender b
  /\ (AiModels.age a <= AiModels.age b)%Q
  /\ (AiModels.systolicBP a <= AiModels.systolicBP b)%Q
  /\ (AiModels.diastolicBP a <= AiModels.diastolicBP b)%Q
  /\ (AiModels.bloodSugar a <= AiModels.bloodSugar b)%Q
  /\ (AiModels.bmi a <= AiModels.bmi b)%Q.

(** The columns of a patient that no update writes. *)
Definition fixedColumns (p : Patient.t)
  : Z * string * option Z * option Z * option Z * bool :=
  (Patient.id p, Patient.patientId p, Patient.createdBy p,
   Patient.createdAt p, Patient.updatedAt p, Patient.isActive p).

(** Every stored patient has a key below the next value of the serial. *)
Definition keysBelowSerial (d : Db) : Prop :=
  forall p, In p (patients d) -> Patient.id p < patients_id_seq d.

(** The keys of the stored patients are pairwise distinct. *)
Definition uniqueKeys (d : Db) : Prop :=
  NoDup (map Patient.id (patients d)).

(** 1 when the statistics count the patient as a critical case, else 0. *)
Definition criticalWeight (p : Patient.t) : nat :=
  if DatabaseStorage.isCriticalCase p then 1 else 0.

(** The request carries the session id, not empty, of a principal. *)
Definition sessionOf (sessions : Routes.Sessions) (req : Routes.Request)
    (user : Routes.Principal) : Prop :=
  exists sid,
    Routes.sessionIdOf req = Some sid
    /\ sid <> EmptyString
    /\ Routes.sessions_get sid sessions = Some user.

(** The request carries the session id of an admin. *)
Definition adminSession (sessions : Routes.Sessions) (req : Routes.Request)
  : Prop :=
  exists user,
    sessionOf sessions req user /\ Routes.role user = "admin"%string.

Definition bearer (sid : string) : Routes.Request :=
  Routes.mkRequest (Some ("Bearer " ++ sid)%string).

(** ** Sample data *)

Module Sample.

Definition admin : User.t :=
  User.Build 1 "admin" "admin123" "admin" "System Administrator" true (Some 0).

Definition staff : User.t :=
  User.Build 2 "staff" "staff123" "staff" "Dr. Sarah Johnson" true (Some 0).

Definition staffPrincipal : Routes.Principal :=
  Routes.mkPrincipal 2 "staff" "staff" "Dr. Sarah Johnson".

Definition db0 : Db := mkDb [admin; staff] [] [] [] [] [] [] 1 1 1.

Definition testUser : InsertPatient.t :=
  InsertPatient.Build "Test User" 40 "555" 95 118 76 undefined undefined
                      "none".

Definition borderline : InsertPatient.t :=
  InsertPatient.Build "Border Line" 50 "556" 100 140 80 undefined undefined
                      "none".

(** One patient, created by the staff user at time 1000. *)
Definition db1 : Db :=
  snd (Routes.postPatients staffPrincipal (Some testUser) 1000 db0).

(** The same patient after an update of the blood sugar at time 2000. *)
Definition sugar210 : PartialPatient.t :=
  PartialPatient.Build None None None (Some 210%Q) None None
                       undefined undefined None.

Definition db2 : Db :=
  snd (Routes.putPatient staffPrincipal 1 (Some sugar210) 2000 db1).

(** A payload that carries the blood sugar key with the value 0. *)
Definition sugar0 : PartialPatient.t :=
  PartialPatient.Build None None None (Some 0%Q) None None
                       undefined undefined None.

(** A payload that sets the blood sugar to 0 and the systolic pressure. *)
Definition sugar0systolic130 : PartialPatient.t :=
  PartialPatient.Build None None None (Some 0%Q) (Some 130) None
                       undefined undefined None.

(** A store whose only patient has a systolic pressure of exactly 140. *)
Definition dbBorderline : Db :=
  snd (Routes.postPatients staffPrincipal (Some borderline) 1000 db0).

(** [db1] with a stored prediction for its patient. *)
Definition dbPredicted : Db :=
  mkDb (users db1) (patients db1)
       [HealthPrediction.Build 1 (Some 1) 0 0 100 "{}" (Some 1500)]
       (medicalImages db1) (auditLogs db1) (healthHistory db1)
       (appointments db1) (patients_id_seq db1)
       (health_history_id_seq db1) (audit_logs_id_seq db1).

Definition failing : AiModels.World :=
  AiModels.mkWorld (fun _ => AiModels.rejected)
                   (fun _ _ => AiModels.rejected) (fun _ => 0%Q).

Definition failing' : AiModels.World :=
  AiModels.mkWorld (fun _ => AiModels.rejected)
                   (fun _ _ => AiModels.rejected) (fun _ => (1 # 2)%Q).


Definition adminPrincipal : Routes.Principal :=
  Routes.mkPrincipal 1 "admin" "admin" "System Administrator".

Definition sessions1 : Routes.Sessions :=
  [("s-admin"%string, adminPrincipal); ("s-staff"%string, staffPrincipal)].

Definition hypertensive : AiModels.HealthPredictionInput :=
  AiModels.mkInput 70 AiModels.male 150 95 130 31.

Definition healthy : AiModels.HealthPredictionInput :=
  AiModels.mkInput 30 AiModels.male 110 70 90 22.

Definition patientPrincipal : Routes.Principal :=
  Routes.mkPrincipal 3 "PT-1000" "patient" "Test User".

Definition staffLogin : Auth.LoginData := Auth.mkLogin "staff" "staff123".

Definition mem0 : MemStorage.t := MemStorage.mk [] [] [] 1 1 4.

Definition mem1 : MemStorage.t :=
  snd (MemStorage.createPatient (NewPatient.Build None testUser 2) 1000 mem0).

End Sample.

(** * Properties *)

(** ** The vitals ladder *)

Lemma gtQ_true (x y : Q) : gtQ x y = true <-> (y < x)%Q.
Proof.
  unfold gtQ. rewrite negb_true_iff.
  split; intro H.
  - apply Qnot_le_lt. intro L. apply Qle_bool_iff in L. congruence.
  - destruct (Qle_bool x y) eqn:E; [|reflexivity].
    apply Qle_bool_iff in E. exfalso. apply (Qlt_not_le _ _ H E).
Qed.

Lemma gtQ_false (x y : Q) : gtQ x y = false <-> (x <= y)%Q.
Proof.
  unfold gtQ. rewrite negb_false_iff. apply Qle_bool_iff.
Qed.

Ltac reflectQ :=
  repeat match goal with
         | H : gtQ _ _ = true |- _ => apply gtQ_true in H
         | H : gtQ _ _ = false |- _ => apply gtQ_false in H
         end.

Lemma ladder_PatientModal (systolic diastolic sugar : Q) :
  let s := Client.status
             (Client.PatientModal.getVitalStatus systolic diastolic sugar) in
  (s = Client.Critical <-> rungCritical systolic diastolic sugar)
  /\ (s = Client.Warning <->
      ~ rungCritical systolic diastolic sugar
      /\ rungWarning systolic diastolic sugar)
  /\ (s = Client.Normal <->
      ~ rungCritical systolic diastolic sugar
      /\ ~ rungWarning systolic diastolic sugar).
Proof.
  unfold Client.PatientModal.getVitalStatus, rungCritical, rungWarning.
  destruct (gtQ systolic 140) eqn:S1, (gtQ diastolic 90) eqn:D1,
           (gtQ sugar 200) eqn:G1,
           (gtQ systolic 120) eqn:S2, (gtQ diastolic 80) eqn:D2,
           (gtQ sugar 140) eqn:G2;
    reflectQ; cbn;
    repeat split; intros; try discriminate; try reflexivity;
    try lra;
    repeat match goal with
           | H : _ /\ _ |- _ => destruct H
           | H : ~ _ |- _ => try (exfalso; apply H; lra); clear H
           | |- ~ _ => intro
           | H : _ \/ _ |- _ => destruct H
           end; try lra; auto.
Qed.


(** ** Statements of the store *)

Lemma filter_app_one {A} (f : A -> bool) (l : list A) (x : A) :
  filter f (l ++ [x]) = filter f l ++ (if f x then [x] else []).
Proof. rewrite filter_app. reflexivity. Qed.

Lemma insertHealthHistory_accepted (v : HistoryValues.t) (now : Z) (d : Db) :
  patientExists (HistoryValues.patientId v) d = true ->
  userExists (HistoryValues.recordedBy v) d = true ->
  insertHealthHistory v now d =
    (Resolved [historyRow (health_history_id_seq d) v now],
     set_healthHistory
       (healthHistory d ++ [historyRow (health_history_id_seq d) v now])
       (set_health_history_id_seq (health_history_id_seq d + 1) d)).
Proof.
  intros Hp Hu. unfold insertHealthHistory.
  change (patientExists (HistoryValues.patientId v)
            (set_health_history_id_seq (health_history_id_seq d + 1) d))
    with (patientExists (HistoryValues.patientId v) d).
  change (userExists (HistoryValues.recordedBy v)
            (set_health_history_id_seq (health_history_id_seq d + 1) d))
    with (userExists (HistoryValues.recordedBy v) d).
  rewrite Hp, Hu. reflexivity.
Qed.

Lemma insertHealthHistory_outcome (v : HistoryValues.t) (now : Z) (d : Db) :
  let r := insertHealthHistory v now d in
  users (snd r) = users d /\ patients (snd r) = patients d
  /\ ((fst r = Resolved [historyRow (health_history_id_seq d) v now]
       /\ healthHistory (snd r) =
          healthHistory d ++ [historyRow (health_history_id_seq d) v now])
      \/ (fst r = Rejected ForeignKeyViolation
          /\ healthHistory (snd r) = healthHistory d)).
Proof.
  unfold insertHealthHistory.
  destruct (negb _ || negb _); cbn; auto.
Qed.

Lemma existsb_map_id (f : Patient.t -> Patient.t) (pid : Z)
    (l : list Patient.t) :
  (forall p, Patient.id (f p) = Patient.id p) ->
  existsb (fun p => Patient.id p =? pid) (map f l)
  = existsb (fun p => Patient.id p =? pid) l.
Proof.
  intro Hf. induction l as [|p l IH]; cbn; [reflexivity|].
  rewrite Hf, IH. reflexivity.
Qed.

Lemma applySet_id (u : PartialPatient.t) (p : Patient.t) :
  Patient.id (applySet u p) = Patient.id p.
Proof. reflexivity. Qed.

Lemma updatePatients_outcome (u : PartialPatient.t) (pid : Z) (d : Db) :
  let r := updatePatients u pid d in
  users (snd r) = users d
  /\ healthHistory (snd r) = healthHistory d
  /\ health_history_id_seq (snd r) = health_history_id_seq d
  /\ forall k, patientExists k (snd r) = patientExists k d.
Proof.
  unfold updatePatients. destruct (nothingToSet u); cbn; [auto|].
  repeat split.
  intro k. unfold patientExists; cbn.
  apply existsb_map_id. intro p. destruct (Patient.id p =? pid); reflexivity.
Qed.

Lemma vitals_are_something_to_set (u : PartialPatient.t) :
  DatabaseStorage.vitalsProvided u = true -> nothingToSet u = false.
Proof.
  unfold DatabaseStorage.vitalsProvided, nothingToSet.
  destruct u as [n a ph bs sy di w h m]; cbn.
  destruct sy, di, bs, w, h; cbn; rewrite ?orb_true_r;
    intro; try reflexivity; discriminate.
Qed.

Lemma hd_error_filter_exists (pid : Z) (l : list Patient.t) :
  existsb (fun p => Patient.id p =? pid) l = true ->
  exists p, hd_error (filter (fun p => Patient.id p =? pid) l) = Some p
            /\ Patient.id p = pid.
Proof.
  induction l as [|p l IH]; cbn; [discriminate|].
  destruct (Patient.id p =? pid) eqn:E; cbn.
  - intros _. exists p. split; [reflexivity|]. apply Z.eqb_eq. exact E.
  - exact IH.
Qed.

Lemma hd_error_filter_none (pid : Z) (l : list Patient.t) :
  existsb (fun p => Patient.id p =? pid) l = false ->
  filter (fun p => Patient.id p =? pid) l = [].
Proof.
  induction l as [|p l IH]; cbn; [reflexivity|].
  destruct (Patient.id p =? pid); cbn; [discriminate|exact IH].
Qed.

(** ** History entries of [createPatient] and [updatePatient] *)

Lemma updatePatient_unknown (id : Z) (u : PartialPatient.t) (now : Z)
    (d : Db) :
  patientExists id d = false ->
  DatabaseStorage.updatePatient id u now d = (Resolved None, d).
Proof.
  intro H. unfold DatabaseStorage.updatePatient, bind,
    DatabaseStorage.getPatient, ret.
  unfold patientExists in H. rewrite (hd_error_filter_none _ _ H).
  reflexivity.
Qed.

Lemma updatePatient_without_vitals (id : Z) (u : PartialPatient.t) (now : Z)
    (d : Db) :
  DatabaseStorage.vitalsProvided u = false ->
  healthHistory (snd (DatabaseStorage.updatePatient id u now d))
  = healthHistory d.
Proof.
  intro H. unfold DatabaseStorage.updatePatient, bind,
    DatabaseStorage.getPatient, ret.
  destruct (hd_error _) as [existing|]; cbn; [|reflexivity].
  unfold updatePatients. destruct (nothingToSet u); [reflexivity|].
  rewrite H. reflexivity.
Qed.

Lemma updatePatient_with_vitals (id : Z) (u : PartialPatient.t) (now : Z)
    (d : Db) :
  patientExists id d = true ->
  userExists 1 d = true ->
  DatabaseStorage.vitalsProvided u = true ->
  exists existing row,
    hd_error (filter (fun p => Patient.id p =? id) (patients d))
      = Some existing
    /\ fst (DatabaseStorage.updatePatient id u now d) = Resolved (Some row)
    /\ healthHistory (snd (DatabaseStorage.updatePatient id u now d))
       = healthHistory d
           ++ [historyRow (health_history_id_seq d)
                 (DatabaseStorage.updateValues id u existing) now].
Proof.
  intros Hp Hu Hv.
  destruct (hd_error_filter_exists _ _ Hp) as (existing & Hex & Hid).
  destruct (updatePatients_outcome u id d) as (Hus & Hh & Hs & Hpe).
  pose proof (vitals_are_something_to_set u Hv) as Hn.
  unfold updatePatients in Hus, Hh, Hs, Hpe. rewrite Hn in Hus, Hh, Hs, Hpe.
  cbn zeta in *.
  assert (Hrow : exists row,
             hd_error (fst (let ps := map (fun p =>
                 if Patient.id p =? id then applySet u p else p) (patients d)
               in (filter (fun p => Patient.id p =? id) ps, ps)))
             = Some row).
  { cbn. unfold patientExists in Hp.
    rewrite <- (existsb_map_id
                  (fun p => if Patient.id p =? id then applySet u p else p))
      in Hp.
    - destruct (hd_error_filter_exists _ _ Hp) as (row & Hr & _). eauto.
    - intro p. destruct (Patient.id p =? id); reflexivity. }
  destruct Hrow as (row & Hrow). cbn in Hrow.
  exists existing, row. split; [exact Hex|].
  unfold DatabaseStorage.updatePatient, bind, DatabaseStorage.getPatient, ret.
  rewrite Hex. unfold updatePatients at 1 2. rewrite Hn. cbn iota beta zeta.
  rewrite Hv. unfold DatabaseStorage.createHealthHistory, bind, ret.
  rewrite insertHealthHistory_accepted.
  - cbn. rewrite Hrow. split; reflexivity.
  - cbn. rewrite <- (Hpe id) in Hp. exact Hp.
  - exact Hu.
Qed.

Lemma existsb_app_last (f : Patient.t -> bool) (l : list Patient.t)
    (x : Patient.t) :
  f x = true -> existsb f (l ++ [x]) = true.
Proof.
  intro H. rewrite existsb_app. cbn. rewrite H.
  rewrite orb_true_r. reflexivity.
Qed.

Lemma createPatient_accepted (p : NewPatient.t) (now : Z) (d : Db)
    (code : string) :
  NewPatient.patientId p = Some code ->
  patientIdTaken code d = false ->
  userExists (NewPatient.createdBy p) d = true ->
  let row := patientRow (patients_id_seq d) code p now in
  let r := DatabaseStorage.createPatient p now d in
  fst r = Resolved row
  /\ patients (snd r) = patients d ++ [row]
  /\ healthHistory (snd r) =
     healthHistory d
       ++ [historyRow (health_history_id_seq d)
             (DatabaseStorage.initialValues (patients_id_seq d) p) now].
Proof.
  intros Hc Ht Hu row r. subst r.
  unfold DatabaseStorage.createPatient, bind, insertPatients.
  rewrite Hc.
  change (patientIdTaken code (set_patients_id_seq (patients_id_seq d + 1) d))
    with (patientIdTaken code d).
  change (userExists (NewPatient.createdBy p)
            (set_patients_id_seq (patients_id_seq d + 1) d))
    with (userExists (NewPatient.createdBy p) d).
  rewrite Ht, Hu. cbn [negb]. cbn iota beta zeta.
  unfold DatabaseStorage.createHealthHistory, bind, ret.
  rewrite insertHealthHistory_accepted.
  - cbn. repeat split; reflexivity.
  - unfold patientExists. cbn. apply existsb_app_last. cbn.
    apply Z.eqb_refl.
  - exact Hu.
Qed.

Lemma createPatient_resolved (p : NewPatient.t) (now : Z) (d d' : Db)
    (row : Patient.t) :
  DatabaseStorage.createPatient p now d = (Resolved row, d') ->
  exists code,
    NewPatient.patientId p = Some code
    /\ patientIdTaken code d = false
    /\ userExists (NewPatient.createdBy p) d = true.
Proof.
  unfold DatabaseStorage.createPatient, bind, insertPatients.
  destruct (NewPatient.patientId p) as [code|]; [|discriminate].
  change (patientIdTaken code (set_patients_id_seq (patients_id_seq d + 1) d))
    with (patientIdTaken code d).
  change (userExists (NewPatient.createdBy p)
            (set_patients_id_seq (patients_id_seq d + 1) d))
    with (userExists (NewPatient.createdBy p) d).
  destruct (patientIdTaken code d) eqn:Ht; [discriminate|].
  destruct (userExists (NewPatient.createdBy p) d) eqn:Hu; cbn [negb];
    [|discriminate].
  intros _. exists code. auto.
Qed.

Lemma historyOf_app (pid : Z) (d d' : Db) (h : HealthHistory.t) :
  healthHistory d' = healthHistory d ++ [h] ->
  HealthHistory.patientId h = pid ->
  historyOf pid d' = historyOf pid d ++ [h].
Proof.
  intros H E. unfold historyOf. rewrite H, filter_app_one.
  rewrite E, Z.eqb_refl. reflexivity.
Qed.

Lemma vitalsProvided_needs_a_field (u : PartialPatient.t) :
  includesVitalsField u = false -> DatabaseStorage.vitalsProvided u = false.
Proof.
  unfold includesVitalsField, DatabaseStorage.vitalsProvided.
  destruct u as [n a ph bs sy di w h m]; cbn.
  destruct bs, sy, di, w, h; cbn; intro H; try discriminate; reflexivity.
Qed.

(** C1, as the code has it. A [createPatient] that returns leaves at least
    one history entry of the new patient, of change type [initial_record],
    and it returns whenever the code is new and the creating user exists.
    An [updatePatient] of an existing patient whose payload carries at least
    one truthy vitals value (a number other than 0) appends, once the
    recorder written into the entry exists, exactly one entry of that
    patient, of change type [manual_edit]. An update whose vitals values are
    all missing or falsy leaves the history table as it was; this covers
    every update that carries no vitals key. *)
Theorem history_entries_of_create_and_update :
  (forall p now d d' row,
      DatabaseStorage.createPatient p now d = (Resolved row, d') ->
      (1 <= historyCount (Patient.id row) d')%nat
      /\ exists h, In h (historyOf (Patient.id row) d')
                   /\ HealthHistory.changeType h = "initial_record"%string)
  /\ (forall p now d code,
         NewPatient.patientId p = Some code ->
         patientIdTaken code d = false ->
         userExists (NewPatient.createdBy p) d = true ->
         exists row d',
           DatabaseStorage.createPatient p now d = (Resolved row, d'))
  /\ (forall id u now d,
         patientExists id d = true ->
         userExists 1 d = true ->
         DatabaseStorage.vitalsProvided u = true ->
         exists row h,
           fst (DatabaseStorage.updatePatient id u now d)
             = Resolved (Some row)
           /\ historyOf id (snd (DatabaseStorage.updatePatient id u now d))
              = historyOf id d ++ [h]
           /\ HealthHistory.changeType h = "manual_edit"%string
           /\ historyCount id (snd (DatabaseStorage.updatePatient id u now d))
              = S (historyCount id d))
  /\ (forall id u now d,
         DatabaseStorage.vitalsProvided u = false ->
         healthHistory (snd (DatabaseStorage.updatePatient id u now d))
         = healthHistory d)
  /\ (forall u,
         includesVitalsField u = false ->
         DatabaseStorage.vitalsProvided u = false).
Proof.
  repeat apply conj.
  - intros p now d d' row H.
    destruct (createPatient_resolved _ _ _ H) as (code & Hc & Ht & Hu).
    destruct (createPatient_accepted p now d Hc Ht Hu) as (Hr & _ & Hh).
    rewrite H in Hr, Hh. cbn in Hr, Hh. injection Hr as ->.
    assert (E : historyOf (patients_id_seq d) d'
                = historyOf (patients_id_seq d) d
                    ++ [historyRow (health_history_id_seq d)
                          (DatabaseStorage.initialValues (patients_id_seq d) p)
                          now])
      by (apply historyOf_app; [exact Hh|reflexivity]).
    cbn. unfold historyCount. rewrite E. split.
    + rewrite length_app. cbn. lia.
    + eexists. split; [apply in_or_app; right; left; reflexivity|].
      reflexivity.
  - intros p now d code Hc Ht Hu.
    destruct (createPatient_accepted p now d Hc Ht Hu) as (Hr & _).
    destruct (DatabaseStorage.createPatient p now d) as [o d'].
    cbn in Hr. subst o. eauto.
  - intros id u now d Hp Hu Hv.
    destruct (updatePatient_with_vitals id u now d Hp Hu Hv)
      as (existing & row & _ & Hr & Hh).
    exists row. eexists.
    assert (E : historyOf id (snd (DatabaseStorage.updatePatient id u now d))
                = historyOf id d
                    ++ [historyRow (health_history_id_seq d)
                          (DatabaseStorage.updateValues id u existing) now])
      by (apply historyOf_app; [exact Hh|reflexivity]).
    split; [exact Hr|]. split; [exact E|]. split; [reflexivity|].
    unfold historyCount. rewrite E, length_app. cbn. lia.
  - intros id u now d Hv.
    apply (updatePatient_without_vitals id u now d Hv).
  - exact vitalsProvided_needs_a_field.
Qed.

(** The end-to-end scenario of the store: one patient created, then its blood
    sugar set to 210. *)
Lemma history_entries_of_create_and_update_witness :
  (1 <= historyCount 1 Sample.db1)%nat
  /\ historyCount 1 Sample.db2 = S (historyCount 1 Sample.db1).
Proof.
  destruct history_entries_of_create_and_update as (_ & _ & Hupd & _).
  split.
  - vm_compute. lia.
  - destruct (Hupd 1 Sample.sugar210 2000 Sample.db1 eq_refl eq_refl eq_refl)
      as (row & h & _ & _ & _ & Hc).
    exact Hc.
Defined.

(** C1 as stated fails: a payload that carries the [bloodSugar] key with the
    value 0 is accepted, updates the row, and adds no history entry. *)
Lemma update_carrying_zero_adds_no_entry :
  includesVitalsField Sample.sugar0 = true
  /\ patientExists 1 Sample.db1 = true
  /\ userExists 1 Sample.db1 = true
  /\ (exists row,
        fst (DatabaseStorage.updatePatient 1 Sample.sugar0 2000 Sample.db1)
        = Resolved (Some row))
  /\ historyCount 1
       (snd (DatabaseStorage.updatePatient 1 Sample.sugar0 2000 Sample.db1))
     = historyCount 1 Sample.db1
  /\ historyCount 1 Sample.db1 = 1%nat.
Proof.
  repeat split; try reflexivity.
  eexists. vm_compute. reflexivity.
Qed.

(** ** Truthiness of the provided vitals *)

Lemma truthyQ_false (q : Q) : truthyQ q = false <-> q == 0.
Proof.
  unfold truthyQ. rewrite negb_false_iff. apply Qeq_bool_iff.
Qed.

Lemma truthyZ_false (z : Z) : truthyZ z = false <-> z = 0.
Proof.
  unfold truthyZ. rewrite negb_false_iff. apply Z.eqb_eq.
Qed.

Lemma truthyOptQ_false (o : option Q) :
  truthyOpt truthyQ o = false <-> falsyQ o.
Proof.
  unfold falsyQ. destruct o as [q|]; cbn.
  - rewrite truthyQ_false. split.
    + intros H x [= <-]. exact H.
    + intro H. apply H. reflexivity.
  - split; [intros _ x; discriminate|reflexivity].
Qed.

Lemma truthyOptZ_false (o : option Z) :
  truthyOpt truthyZ o = false <-> falsyZ o.
Proof.
  unfold falsyZ. destruct o as [z|]; cbn.
  - rewrite truthyZ_false. split.
    + intros H x [= <-]. exact H.
    + intro H. apply H. reflexivity.
  - split; [intros _ x; discriminate|reflexivity].
Qed.

Lemma truthyNullish_false (o : nullish Q) :
  truthyNullish truthyQ o = false <-> falsyNullish o.
Proof.
  unfold falsyNullish. destruct o as [| |q]; cbn.
  - split; [intros _ x; discriminate|reflexivity].
  - split; [intros _ x; discriminate|reflexivity].
  - rewrite truthyQ_false. split.
    + intros H x [= <-]. exact H.
    + intro H. apply H. reflexivity.
Qed.

Lemma vitalsProvided_false (u : PartialPatient.t) :
  DatabaseStorage.vitalsProvided u = false <-> allVitalsFalsy u.
Proof.
  unfold DatabaseStorage.vitalsProvided, allVitalsFalsy.
  rewrite !orb_false_iff.
  rewrite !truthyOptZ_false, truthyOptQ_false, !truthyNullish_false.
  tauto.
Qed.

Lemma mem_vitalsProvided_false (u : PartialPatient.t) :
  MemStorage.vitalsProvided u = false <-> threeVitalsFalsy u.
Proof.
  unfold MemStorage.vitalsProvided, threeVitalsFalsy.
  rewrite !orb_false_iff.
  rewrite !truthyOptZ_false, truthyOptQ_false.
  tauto.
Qed.

Lemma or_picks {A} (truthy : A -> bool) (provided : option A) (prior : A) :
  picks truthy provided prior (Js.or truthy provided prior).
Proof.
  unfold picks, Js.or. repeat split.
  - intros x -> H. rewrite H. reflexivity.
  - intros x -> H. rewrite H. reflexivity.
  - intros ->. reflexivity.
Qed.

Lemma mem_updatePatient_without_vitals (id : Z) (u : PartialPatient.t)
    (recordedBy : option Z) (now : Z) (s : MemStorage.t) :
  MemStorage.vitalsProvided u = false ->
  MemStorage.healthHistories
    (snd (MemStorage.updatePatient id u recordedBy now s))
  = MemStorage.healthHistories s.
Proof.
  intro H. unfold MemStorage.updatePatient.
  destruct (JsMap.get id (MemStorage.patients s)); [|reflexivity].
  destruct recordedBy as [b|]; [|reflexivity].
  rewrite H, andb_false_r. reflexivity.
Qed.



(** ** Who is recorded *)

Lemma insertAuditLogs_history (uid : Z) (a t i x : string) (now : Z) (d : Db) :
  healthHistory (snd (insertAuditLogs uid a t i x now d)) = healthHistory d.
Proof.
  unfold insertAuditLogs. destruct (negb _); reflexivity.
Qed.

Lemma putPatient_history (user : Routes.Principal) (id : Z)
    (u : PartialPatient.t) (now : Z) (d : Db) :
  healthHistory (snd (Routes.putPatient user id (Some u) now d))
  = healthHistory (snd (DatabaseStorage.updatePatient id u now d)).
Proof.
  unfold Routes.putPatient, Routes.storage_updatePatient.
  destruct (DatabaseStorage.updatePatient id u now d) as [[[row|]|e] d'];
    cbn; try reflexivity.
  unfold Routes.respond, DatabaseStorage.createAuditLog, bind, ret.
  match goal with
  | |- context [insertAuditLogs ?a ?b ?c ?e ?f ?g ?h] =>
      pose proof (insertAuditLogs_history a b c e f g h) as H;
      destruct (insertAuditLogs a b c e f g h) as [[r|er] d'']
  end; cbn in *; exact H.
Qed.

Lemma postPatients_history (user : Routes.Principal) (f : InsertPatient.t)
    (now : Z) (d : Db) :
  healthHistory (snd (Routes.postPatients user (Some f) now d))
  = healthHistory
      (snd (DatabaseStorage.createPatient
              (NewPatient.Build (Some ("PT-" ++ StringZ now)%string) f
                                (Routes.id user)) now d)).
Proof.
  unfold Routes.postPatients, Routes.respond, bind.
  destruct (DatabaseStorage.createPatient _ now d) as [[row|e] d'];
    cbn; try reflexivity.
  unfold DatabaseStorage.createAuditLog, bind, ret.
  match goal with
  | |- context [insertAuditLogs ?a ?b ?c ?e ?f ?g ?h] =>
      pose proof (insertAuditLogs_history a b c e f g h) as H;
      destruct (insertAuditLogs a b c e f g h) as [[r|er] d'']
  end; cbn in *; exact H.
Qed.

(** C5, on the code. The entry written by [createPatient] names the creating
    user. The entry written for an update through PUT /api/patients/:id
    names user 1, whoever performs the update: on the sample store the staff
    user (id 2) creates and then updates a patient, and the two entries
    name 2 and 1. *)
Theorem update_entry_names_user_1 :
  (forall user f now d code,
      code = ("PT-" ++ StringZ now)%string ->
      patientIdTaken code d = false ->
      userExists (Routes.id user) d = true ->
      exists h,
        healthHistory (snd (Routes.postPatients user (Some f) now d))
        = healthHistory d ++ [h]
        /\ HealthHistory.recordedBy h = Routes.id user)
  /\ (forall user id u now d,
         patientExists id d = true ->
         userExists 1 d = true ->
         DatabaseStorage.vitalsProvided u = true ->
         exists h,
           healthHistory (snd (Routes.putPatient user id (Some u) now d))
           = healthHistory d ++ [h]
           /\ HealthHistory.recordedBy h = 1)
  /\ Routes.id Sample.staffPrincipal = 2
  /\ map HealthHistory.recordedBy (healthHistory Sample.db2) = [2; 1].
Proof.
  repeat apply conj; try reflexivity.
  - intros user f now d code -> Ht Hu.
    rewrite postPatients_history.
    destruct (createPatient_accepted
                (NewPatient.Build (Some ("PT-" ++ StringZ now)%string) f
                                  (Routes.id user)) now d eq_refl Ht Hu)
      as (_ & _ & Hh).
    eexists. split; [exact Hh|reflexivity].
  - intros user id u now d Hp Hu Hv.
    rewrite putPatient_history.
    destruct (updatePatient_with_vitals id u now d Hp Hu Hv)
      as (existing & row & _ & _ & Hh).
    eexists. split; [exact Hh|reflexivity].
Qed.

(** ** Deleting a patient *)

Lemma existsb_filter_out {A} (key : A -> Z) (k : Z) (l : list A) :
  existsb (fun x => key x =? k) (filter (fun x => negb (key x =? k)) l)
  = false.
Proof.
  induction l as [|x l IH]; cbn; [reflexivity|].
  destruct (key x =? k) eqn:E; cbn; [exact IH|].
  rewrite E, IH. reflexivity.
Qed.

Lemma filter_filter_out {A} (key : A -> Z) (k : Z) (l : list A) :
  filter (fun x => key x =? k) (filter (fun x => negb (key x =? k)) l) = [].
Proof.
  induction l as [|x l IH]; cbn; [reflexivity|].
  destruct (key x =? k) eqn:E; cbn; [exact IH|].
  rewrite E. exact IH.
Qed.

Lemma filter_filter_other {A} (key : A -> Z) (k j : Z) (l : list A) :
  j <> k ->
  filter (fun x => key x =? j) (filter (fun x => negb (key x =? k)) l)
  = filter (fun x => key x =? j) l.
Proof.
  intro N. induction l as [|x l IH]; cbn; [reflexivity|].
  destruct (key x =? k) eqn:E; cbn.
  - apply Z.eqb_eq in E. rewrite E.
    destruct (k =? j) eqn:F; [apply Z.eqb_eq in F; congruence|exact IH].
  - rewrite IH. reflexivity.
Qed.

Lemma existsb_filter_nil {A} (f : A -> bool) (l : list A) :
  existsb f l = false <-> filter f l = [].
Proof.
  induction l as [|x l IH]; cbn; [tauto|].
  destruct (f x); cbn; [split; discriminate|exact IH].
Qed.

Lemma deletePatient_cases (id : Z) (d : Db) :
  let d1 :=
    set_healthHistory
      (filter (fun h => negb (HealthHistory.patientId h =? id))
              (healthHistory d)) d in
  DatabaseStorage.deletePatient id d =
    if negb (patientExists id d) then (Resolved false, d1)
    else if referencedBeyondHistory id d
    then (Rejected ForeignKeyViolation, d1)
    else (Resolved true,
          set_patients
            (filter (fun p => negb (Patient.id p =? id)) (patients d)) d1).
Proof.
  intro d1.
  unfold DatabaseStorage.deletePatient, tryCatch, bind, deleteHealthHistoryOf,
    deletePatients, ret, throw.
  fold d1. change (patients d1) with (patients d).
  assert (R : patientReferenced id d1 = referencedBeyondHistory id d).
  { unfold patientReferenced, referencedBeyondHistory, d1. cbn.
    rewrite (existsb_filter_out HealthHistory.patientId). cbn.
    rewrite <- !orb_assoc. reflexivity. }
  unfold patientExists.
  destruct (filter (fun p => Patient.id p =? id) (patients d)) as [|p gone]
    eqn:G.
  - apply existsb_filter_nil in G. rewrite G. reflexivity.
  - assert (E : existsb (fun p => Patient.id p =? id) (patients d) = true).
    { destruct (existsb _ (patients d)) eqn:E; [reflexivity|].
      apply existsb_filter_nil in E. congruence. }
    rewrite E, R. cbn [negb].
    destruct (referencedBeyondHistory id d); reflexivity.
Qed.

(** C4, as the code has it. [deletePatient] first deletes the history rows
    of the patient and then the patient row, as two statements that commit
    one after the other. History rows of other patients are untouched. With
    an unknown id it returns false without throwing and leaves the patients
    as they were. When no prediction, image or appointment references the
    patient it returns whether a row was removed, and afterwards neither the
    patient row nor a history row of that patient is left. When one does,
    the second statement is refused and the error is thrown again: the
    patient row stays, and the history rows deleted by the first statement
    stay deleted. *)
Theorem deletePatient_cascade (id : Z) (d : Db) :
  let r := DatabaseStorage.deletePatient id d in
  historyOf id (snd r) = []
  /\ (forall k, k <> id -> historyOf k (snd r) = historyOf k d)
  /\ (patientExists id d = false ->
      fst r = Resolved false /\ patients (snd r) = patients d)
  /\ (referencedBeyondHistory id d = false ->
      fst r = Resolved (patientExists id d)
      /\ patientExists id (snd r) = false
      /\ forall k, k <> id -> patientExists k (snd r) = patientExists k d)
  /\ (patientExists id d = true ->
      referencedBeyondHistory id d = true ->
      fst r = Rejected ForeignKeyViolation /\ patients (snd r) = patients d).
Proof.
  intro r. subst r. rewrite deletePatient_cases.
  repeat apply conj.
  - destruct (negb _); [|destruct (referencedBeyondHistory id d)];
      cbn; apply (filter_filter_out HealthHistory.patientId).
  - intros k N.
    destruct (negb _); [|destruct (referencedBeyondHistory id d)];
      cbn; apply (filter_filter_other HealthHistory.patientId); exact N.
  - intros ->. cbn. auto.
  - intros ->. destruct (patientExists id d) eqn:E; cbn.
    + repeat split.
      * unfold patientExists. cbn.
        apply (existsb_filter_out Patient.id).
      * intros k N. unfold patientExists. cbn.
        destruct (existsb (fun p => Patient.id p =? k) (patients d)) eqn:F.
        -- destruct (existsb (fun p => Patient.id p =? k)
                       (filter (fun p => negb (Patient.id p =? id))
                               (patients d))) eqn:F'; [reflexivity|].
           apply existsb_filter_nil in F'.
           rewrite (filter_filter_other Patient.id) in F' by exact N.
           apply existsb_filter_nil in F'. congruence.
        -- apply existsb_filter_nil.
           rewrite (filter_filter_other Patient.id) by exact N.
           apply existsb_filter_nil. exact F.
    + repeat split; auto.
  - intros -> ->. cbn. auto.
Qed.

(** The sample patient is deleted with its history; an unknown id gives
    false. *)
Lemma deletePatient_cascade_witness :
  fst (DatabaseStorage.deletePatient 1 Sample.db1) = Resolved true
  /\ fst (DatabaseStorage.deletePatient 7 Sample.db1) = Resolved false
  /\ fst (DatabaseStorage.deletePatient 1 Sample.dbPredicted)
     = Rejected ForeignKeyViolation.
Proof.
  destruct (deletePatient_cascade 1 Sample.db1) as (_ & _ & _ & H1 & _).
  destruct (deletePatient_cascade 7 Sample.db1) as (_ & _ & H7 & _).
  destruct (deletePatient_cascade 1 Sample.dbPredicted) as (_ & _ & _ & _ & H).
  split; [exact (proj1 (H1 eq_refl))|].
  split; [exact (proj1 (H7 eq_refl))|].
  exact (proj1 (H eq_refl eq_refl)).
Defined.

(** C4 as stated fails: on a patient with a stored prediction the call
    throws, the patient row is still there, and the history row it had is
    gone; the two deletions are not one atomic step. *)
Lemma deletePatient_is_not_atomic :
  fst (DatabaseStorage.deletePatient 1 Sample.dbPredicted)
  = Rejected ForeignKeyViolation
  /\ patientExists 1 (snd (DatabaseStorage.deletePatient 1 Sample.dbPredicted))
     = true
  /\ historyCount 1 Sample.dbPredicted = 1%nat
  /\ historyCount 1 (snd (DatabaseStorage.deletePatient 1 Sample.dbPredicted))
     = 0%nat.
Proof. repeat split. Qed.

(** ** Sorting *)

Section SortFacts.
Variable A : Type.
Variable before : A -> A -> bool.

Lemma insertSorted_perm (x : A) (l : list A) :
  Permutation (insertSorted before x l) (x :: l).
Proof.
  induction l as [|y l IH]; cbn; [apply Permutation_refl|].
  destruct (before x y); [apply Permutation_refl|].
  apply perm_trans with (y :: x :: l); [|apply perm_swap].
  apply perm_skip. exact IH.
Qed.

Lemma sortBy_perm (l : list A) : Permutation (sortBy before l) l.
Proof.
  induction l as [|x l IH]; cbn; [apply perm_nil|].
  apply perm_trans with (x :: sortBy before l).
  - apply insertSorted_perm.
  - apply perm_skip. exact IH.
Qed.

Lemma filter_length_perm (f : A -> bool) (l l' : list A) :
  Permutation l l' ->
  List.length (filter f l) = List.length (filter f l').
Proof.
  induction 1 as [|x l l' _ IH|x y l|l l' l'' _ IH1 _ IH2]; cbn.
  - reflexivity.
  - destruct (f x); cbn; rewrite IH; reflexivity.
  - destruct (f x), (f y); reflexivity.
  - rewrite IH1. exact IH2.
Qed.

Hypothesis before_total :
  forall a b, before a b = false -> before b a = true.

Lemma insertSorted_hd (x a : A) (l : list A) :
  before a x = true ->
  HdRel (fun a b => before a b = true) a l ->
  HdRel (fun a b => before a b = true) a (insertSorted before x l).
Proof.
  intros Hax Hl. destruct l as [|y l]; cbn.
  - constructor. exact Hax.
  - destruct (before x y); constructor; [exact Hax|].
    inversion Hl; subst. assumption.
Qed.

Lemma insertSorted_sorted (x : A) (l : list A) :
  Sorted (fun a b => before a b = true) l ->
  Sorted (fun a b => before a b = true) (insertSorted before x l).
Proof.
  induction 1 as [|y l Hs IH Hh]; cbn.
  - repeat constructor.
  - destruct (before x y) eqn:E.
    + constructor; [constructor; assumption|constructor; exact E].
    + constructor; [exact IH|].
      apply insertSorted_hd; [apply before_total; exact E|exact Hh].
Qed.

Lemma sortBy_sorted (l : list A) :
  Sorted (fun a b => before a b = true) (sortBy before l).
Proof.
  induction l as [|x l IH]; cbn; [constructor|].
  apply insertSorted_sorted. exact IH.
Qed.
End SortFacts.

(** ** Statistics *)

Lemma geQ_true (x y : Q) : geQ x y = true <-> (y <= x)%Q.
Proof. unfold geQ. apply Qle_bool_iff. Qed.

Lemma isCriticalCase_spec (p : Patient.t) :
  DatabaseStorage.isCriticalCase p = true
  <-> 140 <= Patient.bloodPressureSystolic p
      \/ (200 <= Patient.bloodSugar p)%Q.
Proof.
  unfold DatabaseStorage.isCriticalCase.
  rewrite orb_true_iff, Z.leb_le, geQ_true. tauto.
Qed.

Lemma mem_isCriticalCase_spec (p : Patient.t) :
  MemStorage.isCriticalCase p = true
  <-> 140 < Patient.bloodPressureSystolic p
      \/ (200 < Patient.bloodSugar p)%Q.
Proof.
  unfold MemStorage.isCriticalCase.
  rewrite orb_true_iff, Z.ltb_lt, gtQ_true. tauto.
Qed.

Lemma admittedSince_spec (today : Z) (p : Patient.t) :
  DatabaseStorage.admittedSince today p = true
  <-> exists t, Patient.createdAt p = Some t /\ today <= t.
Proof.
  unfold DatabaseStorage.admittedSince.
  destruct (Patient.createdAt p) as [t|].
  - rewrite Z.leb_le. split.
    + intro H. exists t. auto.
    + intros (t' & [= <-] & H). exact H.
  - split; [discriminate|]. intros (t & H & _). discriminate.
Qed.

Lemma admittedLastDay_spec (now : Z) (p : Patient.t) :
  MemStorage.admittedLastDay (now - 24 * 60 * 60 * 1000) p = true
  <-> exists t, Patient.createdAt p = Some t /\ now - 86400000 < t.
Proof.
  unfold MemStorage.admittedLastDay.
  destruct (Patient.createdAt p) as [t|].
  - rewrite Z.ltb_lt. split.
    + intro H. exists t. split; [reflexivity|lia].
    + intros (t' & [= <-] & H). lia.
  - split; [discriminate|]. intros (t & H & _). discriminate.
Qed.

(** C3, as the code has it. [getPatientStats] of the relational store
    returns, for the patients that listing all patients returns: their
    number as [totalPatients]; as [newAdmissions] the number of those created
    at or after [today], the start of the current day; and as
    [criticalCases] the number of those whose systolic pressure is at least
    140 or whose blood sugar is at least 200. The diastolic pressure is not
    looked at and the bounds are inclusive. The in-memory store counts, for
    the same three, all patients, those created less than 24 hours before
    now, and those with systolic pressure above 140 or blood sugar above
    200. *)
Theorem getPatientStats_counts (today : Z) (d : Db) :
  (exists stats listed,
      DatabaseStorage.getPatientStats today d = (Resolved stats, d)
      /\ DatabaseStorage.getAllPatients d = (Resolved listed, d)
      /\ DatabaseStorage.totalPatients stats = List.length listed
      /\ DatabaseStorage.newAdmissions stats
         = List.length (filter (DatabaseStorage.admittedSince today) listed)
      /\ DatabaseStorage.criticalCases stats
         = List.length (filter DatabaseStorage.isCriticalCase listed))
  /\ (forall p,
         (DatabaseStorage.admittedSince today p = true
          <-> exists t, Patient.createdAt p = Some t /\ today <= t)
         /\ (DatabaseStorage.isCriticalCase p = true
             <-> 140 <= Patient.bloodPressureSystolic p
                 \/ (200 <= Patient.bloodSugar p)%Q))
  /\ (forall now s,
         let stats := MemStorage.getPatientStats now s in
         let listed := MemStorage.getAllPatients s in
         DatabaseStorage.totalPatients stats = List.length listed
         /\ DatabaseStorage.newAdmissions stats
            = List.length
                (filter (MemStorage.admittedLastDay (now - 24 * 60 * 60 * 1000))
                        listed)
         /\ DatabaseStorage.criticalCases stats
            = List.length (filter MemStorage.isCriticalCase listed))
  /\ (forall now p,
         (MemStorage.admittedLastDay (now - 24 * 60 * 60 * 1000) p = true
          <-> exists t, Patient.createdAt p = Some t /\ now - 86400000 < t)
         /\ (MemStorage.isCriticalCase p = true
             <-> 140 < Patient.bloodPressureSystolic p
                 \/ (200 < Patient.bloodSugar p)%Q)).
Proof.
  repeat apply conj.
  - eexists. eexists. split; [reflexivity|]. split; [reflexivity|].
    cbn. unfold DatabaseStorage.count.
    pose proof (sortBy_perm DatabaseStorage.createdAtDesc (patients d)) as P.
    apply Permutation_sym in P.
    repeat split; try (apply filter_length_perm; exact P).
    rewrite <- (Permutation_length P).
    clear. induction (patients d) as [|p l IH]; cbn;
      [reflexivity|f_equal; exact IH].
  - intro p. split; [apply admittedSince_spec|apply isCriticalCase_spec].
  - intros now s. cbn. unfold MemStorage.getAllPatients, JsMap.values,
      JsMap.size. rewrite length_map. repeat split.
  - intros now p. split; [apply admittedLastDay_spec|apply mem_isCriticalCase_spec].
Qed.

(** C3 as stated fails: the only patient of the store has a systolic
    pressure of 140, a diastolic one of 80 and a blood sugar of 100; the
    ladder gives Warning, yet [criticalCases] is 1. *)
Lemma stats_count_a_warning_patient :
  map Client.statusOfPatient (patients Sample.dbBorderline) = [Client.Warning]
  /\ List.length (filter ladderCritical (patients Sample.dbBorderline)) = 0%nat
  /\ fst (DatabaseStorage.getPatientStats 0 Sample.dbBorderline)
     = Resolved (DatabaseStorage.mkStats 1 1 1 0).
Proof. repeat split. Qed.

(** ** The order of a patient's history *)

Lemma Sorted_weaken {A} (R R' : A -> A -> Prop) (l : list A) :
  (forall a b, R a b -> R' a b) -> Sorted R l -> Sorted R' l.
Proof.
  intros W. induction 1 as [|a l _ IH H]; constructor; [exact IH|].
  destruct H; constructor. apply W. assumption.
Qed.

Lemma newestFirstb_spec (l : list HealthHistory.t) :
  newestFirstb l = true <-> newestFirst l.
Proof.
  unfold newestFirst. induction l as [|a l IH]; cbn.
  - split; [constructor|reflexivity].
  - destruct l as [|b l].
    + split; [repeat constructor|reflexivity].
    + rewrite andb_true_iff, Z.leb_le, IH. split.
      * intros (H & S). constructor; [exact S|constructor; exact H].
      * intro S. inversion S as [|? ? S' H]; subst.
        inversion H; subst. auto.
Qed.

Lemma mem_history_newest_first (patientId : Z) (s : MemStorage.t) :
  newestFirst (MemStorage.getHealthHistoryByPatient patientId s).
Proof.
  unfold newestFirst, MemStorage.getHealthHistoryByPatient.
  apply Sorted_weaken
    with (R := fun a b => (MemStorage.compareHistory a b <=? 0) = true).
  - intros a b H. apply Z.leb_le in H.
    unfold MemStorage.compareHistory in H. lia.
  - apply sortBy_sorted. intros a b H.
    apply Z.leb_gt in H. apply Z.leb_le.
    unfold MemStorage.compareHistory in *. lia.
Qed.

(** C6, on the code. The relational store returns the history rows of a
    patient in table order, which is the order of insertion: for the sample
    patient, created at time 1000 and updated at time 2000, the older entry
    comes first. The in-memory store does sort newest first. *)
Theorem database_history_in_table_order :
  (forall patientId d,
      DatabaseStorage.getHealthHistoryByPatient patientId d
      = (Resolved (historyOf patientId d), d))
  /\ (exists l,
        fst (DatabaseStorage.getHealthHistoryByPatient 1 Sample.db2)
        = Resolved l
        /\ map HealthHistory.timestamp l = [Some 1000; Some 2000]
        /\ newestFirstb l = false)
  /\ (forall patientId s,
         newestFirst (MemStorage.getHealthHistoryByPatient patientId s)).
Proof.
  repeat apply conj.
  - reflexivity.
  - eexists. repeat split.
  - exact mem_history_newest_first.
Qed.

(** ** The code given to a new patient *)

Lemma insertAuditLogs_accepted (uid : Z) (a t i x : string) (now : Z)
    (d : Db) :
  userExists uid d = true ->
  exists row,
    insertAuditLogs uid a t i x now d
    = (Resolved [row],
       set_auditLogs (auditLogs d ++ [row])
         (set_audit_logs_id_seq (audit_logs_id_seq d + 1) d)).
Proof.
  intro H. unfold insertAuditLogs.
  change (userExists uid (set_audit_logs_id_seq (audit_logs_id_seq d + 1) d))
    with (userExists uid d).
  rewrite H. cbn. eauto.
Qed.

Lemma insertAuditLogs_patients (uid : Z) (a t i x : string) (now : Z)
    (d : Db) :
  patients (snd (insertAuditLogs uid a t i x now d)) = patients d.
Proof.
  unfold insertAuditLogs. destruct (negb _); reflexivity.
Qed.

Lemma patientIdTaken_spec (code : string) (d : Db) :
  patientIdTaken code d = true
  <-> In code (map Patient.patientId (patients d)).
Proof.
  unfold patientIdTaken. induction (patients d) as [|p l IH]; cbn.
  - split; [discriminate|tauto].
  - rewrite orb_true_iff, IH, String.eqb_eq. tauto.
Qed.

Lemma createPatient_refused (v : NewPatient.t) (now : Z) (d : Db)
    (code : string) :
  NewPatient.patientId v = Some code ->
  patientIdTaken code d || negb (userExists (NewPatient.createdBy v) d)
  = true ->
  exists e,
    DatabaseStorage.createPatient v now d
    = (Rejected e, set_patients_id_seq (patients_id_seq d + 1) d).
Proof.
  intros Hc H.
  unfold DatabaseStorage.createPatient, bind, insertPatients. rewrite Hc.
  change (patientIdTaken code (set_patients_id_seq (patients_id_seq d + 1) d))
    with (patientIdTaken code d).
  change (userExists (NewPatient.createdBy v)
            (set_patients_id_seq (patients_id_seq d + 1) d))
    with (userExists (NewPatient.createdBy v) d).
  destruct (patientIdTaken code d); [eauto|].
  cbn [orb] in H. rewrite H. eauto.
Qed.

Lemma createPatient_users (v : NewPatient.t) (now : Z) (d : Db) :
  users (snd (DatabaseStorage.createPatient v now d)) = users d.
Proof.
  unfold DatabaseStorage.createPatient, bind, insertPatients.
  destruct (NewPatient.patientId v) as [code|]; [|reflexivity].
  destruct (patientIdTaken code _); [reflexivity|].
  destruct (negb _); [reflexivity|]. cbn iota beta zeta.
  unfold DatabaseStorage.createHealthHistory, bind, ret.
  match goal with
  | |- context [insertHealthHistory ?a ?b ?c] =>
      destruct (insertHealthHistory_outcome a b c) as (U & _);
      destruct (insertHealthHistory a b c) as [[x|e] d2]
  end; cbn in *; exact U.
Qed.

Lemma postPatients_cases (user : Routes.Principal) (f : InsertPatient.t)
    (now : Z) (d : Db) (code : string) (v : NewPatient.t) :
  code = ("PT-" ++ StringZ now)%string ->
  v = NewPatient.Build (Some code) f (Routes.id user) ->
  if patientIdTaken code d || negb (userExists (Routes.id user) d)
  then fst (Routes.postPatients user (Some f) now d)
       = Routes.Status 400 "Invalid patient data"
       /\ patients (snd (Routes.postPatients user (Some f) now d))
          = patients d
  else fst (Routes.postPatients user (Some f) now d)
       = Routes.Json (patientRow (patients_id_seq d) code v now)
       /\ patients (snd (Routes.postPatients user (Some f) now d))
          = patients d ++ [patientRow (patients_id_seq d) code v now].
Proof.
  intros Ec Ev.
  unfold Routes.postPatients, Routes.respond, bind.
  rewrite <- Ec, <- Ev.
  assert (Hc : NewPatient.patientId v = Some code) by (subst v; reflexivity).
  assert (Hb : NewPatient.createdBy v = Routes.id user)
    by (subst v; reflexivity).
  destruct (patientIdTaken code d || negb (userExists (Routes.id user) d))
    eqn:B.
  - rewrite <- Hb in B.
    destruct (createPatient_refused v now d Hc B) as (e & ->). cbn. auto.
  - apply orb_false_iff in B. destruct B as (Ht & Hu).
    apply negb_false_iff in Hu. rewrite <- Hb in Hu.
    destruct (createPatient_accepted v now d Hc Ht Hu) as (Hr & Hp & _).
    pose proof (createPatient_users v now d) as Hus.
    destruct (DatabaseStorage.createPatient v now d) as [o d1].
    cbn in Hr, Hp, Hus. subst o.
    unfold DatabaseStorage.createAuditLog, bind, ret.
    assert (Hu1 : userExists (Routes.id user) d1 = true).
    { unfold userExists in *. rewrite Hus, <- Hb. exact Hu. }
    match goal with
    | |- context [insertAuditLogs ?a ?b ?c ?e ?g ?h d1] =>
        destruct (insertAuditLogs_accepted a b c e g h d1 Hu1) as (row & ->)
    end.
    cbn. split; [reflexivity|exact Hp].
Qed.

Lemma NoDup_snoc {A} (l : list A) (x : A) :
  NoDup l -> ~ In x l -> NoDup (l ++ [x]).
Proof.
  intros N H. induction N as [|y l Hy N IH]; cbn.
  - constructor; [tauto|constructor].
  - constructor.
    + rewrite in_app_iff. cbn. intros [F|[F|[]]]; [tauto|].
      subst. apply H. left. reflexivity.
    + apply IH. intro F. apply H. right. exact F.
Qed.

(** *** A decimal number after PT- is not a year and a sequence *)

Lemma uint_digits (d : Decimal.uint) :
  allDigits (NilEmpty.string_of_uint d) = true.
Proof. induction d; cbn; auto. Qed.

Lemma StringZ_shape (n : Z) :
  exists s, allDigits s = true
            /\ (StringZ n = s \/ StringZ n = String "-" s).
Proof.
  assert (U : forall d, allDigits (NilZero.string_of_uint d) = true).
  { intro d. destruct d; try apply uint_digits. reflexivity. }
  unfold StringZ, NilZero.string_of_int.
  destruct (Z.to_int n) as [d|d]; eexists; (split; [apply U|]); auto.
Qed.

Lemma digit_is_not_P (c : ascii) :
  isDigit c = true -> Ascii.eqb c "P" = false.
Proof.
  intro H. destruct (Ascii.eqb c "P") eqn:E; [|reflexivity].
  apply Ascii.eqb_eq in E. subst c. discriminate H.
Qed.

Lemma digit_is_not_hyphen (c : ascii) :
  isDigit c = true -> Ascii.eqb c "-" = false.
Proof.
  intro H. destruct (Ascii.eqb c "-") eqn:E; [|reflexivity].
  apply Ascii.eqb_eq in E. subst c. discriminate H.
Qed.

Lemma idPatternAt_P (c : ascii) (s : string) :
  Ascii.eqb c "P" = false -> idPatternAt (String c s) = false.
Proof.
  intro H. unfold idPatternAt.
  do 10 (destruct s as [|? s]; [reflexivity|]).
  rewrite H. reflexivity.
Qed.

Lemma digits_never_match (s : string) :
  allDigits s = true -> matchesIdPattern s = false.
Proof.
  induction s as [|c s IH]; [reflexivity|].
  cbn [allDigits]. intro H. apply andb_true_iff in H. destruct H as (Hc & Hs).
  cbn [matchesIdPattern].
  rewrite (@idPatternAt_P c s (@digit_is_not_P c Hc)), (IH Hs). reflexivity.
Qed.

Lemma PT_digits_no_pattern (s : string) :
  allDigits s = true -> idPatternAt ("PT-" ++ s) = false.
Proof.
  intro H. cbn [append]. unfold idPatternAt.
  destruct s as [|c1 s]; [reflexivity|].
  destruct s as [|c2 s]; [reflexivity|].
  destruct s as [|c3 s]; [reflexivity|].
  destruct s as [|c4 s]; [reflexivity|].
  destruct s as [|c5 s]; [reflexivity|].
  cbn [allDigits] in H. rewrite !andb_true_iff in H.
  destruct H as (_ & _ & _ & _ & H5 & _).
  do 3 (destruct s as [|? s]; [reflexivity|]).
  rewrite (@digit_is_not_hyphen _ H5), !andb_false_r. reflexivity.
Qed.

Lemma PT_hyphen_no_pattern (s : string) :
  idPatternAt ("PT-" ++ String "-" s) = false.
Proof.
  cbn [append]. unfold idPatternAt.
  do 7 (destruct s as [|? s]; [reflexivity|]).
  reflexivity.
Qed.

Lemma PT_clock_never_matches (now : Z) :
  matchesIdPattern ("PT-" ++ StringZ now) = false.
Proof.
  destruct (StringZ_shape now) as (s & D & [->| ->]).
  - cbn [matchesIdPattern append].
    change (String "P" (String "T" (String "-" s)))
      with ("PT-" ++ s)%string.
    rewrite (@PT_digits_no_pattern _ D), (@digits_never_match _ D).
    rewrite !idPatternAt_P by reflexivity. reflexivity.
  - cbn [matchesIdPattern append].
    change (String "P" (String "T" (String "-" (String "-" s))))
      with ("PT-" ++ String "-" s)%string.
    rewrite PT_hyphen_no_pattern, (@digits_never_match _ D).
    rewrite !idPatternAt_P by reflexivity. reflexivity.
Qed.




(** The in-memory store, which the server does not use, builds the code from
    a counter: the fourth patient receives PT-2024-004. *)
Example mem_createPatient_code :
  Patient.patientId
    (fst (MemStorage.createPatient
            (NewPatient.Build None Sample.testUser 2) 1000
            (MemStorage.mk [] [] [] 4 1 4)))
  = "PT-2024-004"%string.
Proof. reflexivity. Qed.

(** ** The fallbacks of the estimators *)

Lemma fallbackImageAnalysis_draws (draws draws' : nat -> Q)
    (filename filename' analysisType : string) :
  draws 0%nat = draws' 0%nat ->
  draws 1%nat = draws' 1%nat ->
  AiModels.fallbackImageAnalysis draws filename analysisType
  = AiModels.fallbackImageAnalysis draws' filename' analysisType.
Proof.
  intros H0 H1. unfold AiModels.fallbackImageAnalysis.
  rewrite H0, H1. reflexivity.
Qed.




(** ** The CSV export read back *)

Lemma append_nil_r (s : string) : (s ++ "")%string = s.
Proof. induction s as [|c s IH]; cbn; [reflexivity|rewrite IH; reflexivity]. Qed.

Lemma append_assoc (a b c : string) :
  ((a ++ b) ++ c)%string = (a ++ (b ++ c))%string.
Proof. induction a as [|x a IH]; cbn; [reflexivity|rewrite IH; reflexivity]. Qed.

Lemma snoc_append (cur : string) (c : ascii) (s : string) :
  (CsvReader.snoc cur c ++ s)%string = (cur ++ String c s)%string.
Proof. unfold CsvReader.snoc. rewrite append_assoc. reflexivity. Qed.

Section ReadBack.
Import Routes CsvReader.

Variable row : list string.
Variable rows : list (list string).

(** A field body without special characters is read as it stands. *)
Lemma read_plain_body (s : string) :
  needsQuotes s = false ->
  forall fresh cur started tail,
    read (Plain fresh) cur row rows started (s ++ tail)
    = read (Plain (fresh && (String.length s =? 0)%nat)) (cur ++ s)
           row rows (started || negb (String.length s =? 0)%nat) tail.
Proof.
  unfold needsQuotes.
  induction s as [|c s IH]; intros H fresh cur started tail.
  - cbn. rewrite append_nil_r, andb_true_r, orb_false_r. reflexivity.
  - cbn in H. rewrite !orb_false_iff in H.
    destruct H as ((((Hc & Hc') & (Hq & Hq')) & (Hl & Hl')) & (Hr & Hr')).
    assert (H' : includes comma s || includes quote s || includes LF s
                 || includes CR s = false)
      by (rewrite Hc', Hq', Hl', Hr'; reflexivity).
    cbn [append read]. rewrite Hc, Hq, Hl, Hr.
    replace (if fresh
             then read (Plain false) (snoc cur c) row rows true (s ++ tail)
             else read (Plain false) (snoc cur c) row rows true (s ++ tail))
      with (read (Plain false) (snoc cur c) row rows true (s ++ tail))
      by (destruct fresh; reflexivity).
    destruct fresh; rewrite (IH H'), snoc_append; cbn;
      rewrite ?andb_false_r, ?orb_true_r; reflexivity.
Qed.

(** Inside quotes, the doubled text up to the closing quote is read as the
    text. *)
Lemma read_quoted_body (s : string) :
  forall cur tail,
    read Quoted cur row rows true (doubleQuotes s ++ String quote tail)
    = read QuoteSeen (cur ++ s) row rows true tail.
Proof.
  induction s as [|c s IH]; intros cur tail.
  - cbn. rewrite append_nil_r. reflexivity.
  - cbn [doubleQuotes]. destruct (Ascii.eqb c quote) eqn:E.
    + apply Ascii.eqb_eq in E. subst c. cbn [append read].
      change (Ascii.eqb quote quote) with true. cbn iota.
      rewrite IH, snoc_append. reflexivity.
    + cbn [append read]. rewrite E, IH, snoc_append. reflexivity.
Qed.
End ReadBack.

Section ExportReadBack.
Import Routes CsvReader.

Variable StringQ : Q -> string.
Variable isoDate : option Z -> string.

(** Reading an escaped text leaves the reader holding that text, in a mode
    from which a comma, a line feed or the end of the input closes the
    field. *)
Lemma read_escaped (s : string) (row : list string)
    (rows : list (list string)) (started : bool) (tail : string) :
  exists mode started',
    read (Plain true) EmptyString row rows started (escapeText StringQ s ++ tail)
    = read mode s row rows started' tail
    /\ ((mode = QuoteSeen /\ started' = true)
        \/ (mode = Plain false /\ started' = true)
        \/ (mode = Plain true /\ s = EmptyString /\ started' = started)).
Proof.
  unfold escapeText, escapeCsvField. cbn [toText].
  fold (needsQuotes s). destruct (needsQuotes s) eqn:N.
  - exists QuoteSeen, true. split; [|auto].
    cbn [append]. rewrite append_assoc. cbn [append read].
    change (Ascii.eqb quote quote) with true. cbn iota.
    rewrite read_quoted_body. reflexivity.
  - rewrite (read_plain_body row rows s N). cbn [append andb].
    destruct s as [|c s].
    + exists (Plain true), started. cbn. rewrite orb_false_r. auto 6.
    + exists (Plain false), true. cbn. rewrite orb_true_r. auto.
Qed.

Lemma read_escaped_comma (s : string) (row : list string)
    (rows : list (list string)) (started : bool) (rest : string) :
  read (Plain true) EmptyString row rows started
       (escapeText StringQ s ++ String comma rest)
  = read (Plain true) EmptyString (row ++ [s]) rows true rest.
Proof.
  destruct (read_escaped s row rows started (String comma rest))
    as (mode & st & -> & [(-> & ->)|[(-> & ->)|(-> & -> & ->)]]);
    reflexivity.
Qed.

Lemma read_escaped_LF (s : string) (row : list string)
    (rows : list (list string)) (started : bool) (rest : string) :
  read (Plain true) EmptyString row rows started
       (escapeText StringQ s ++ String LF rest)
  = read (Plain true) EmptyString [] (rows ++ [row ++ [s]]) false rest.
Proof.
  destruct (read_escaped s row rows started (String LF rest))
    as (mode & st & -> & [(-> & ->)|[(-> & ->)|(-> & -> & ->)]]);
    reflexivity.
Qed.

Lemma read_escaped_end (s : string) (row : list string)
    (rows : list (list string)) :
  read (Plain true) EmptyString row rows true (escapeText StringQ s)
  = rows ++ [row ++ [s]].
Proof.
  rewrite <- (append_nil_r (escapeText StringQ s)).
  destruct (read_escaped s row rows true EmptyString)
    as (mode & st & -> & [(-> & ->)|[(-> & ->)|(-> & -> & ->)]]);
    reflexivity.
Qed.

(** A value other than [null] and [undefined] is escaped as its text. *)
Lemma escapeCsvField_text (f : Field) :
  f <> FNull -> f <> FUndefined ->
  escapeCsvField StringQ f = escapeText StringQ (toText StringQ f).
Proof.
  destruct f; intros N U; try reflexivity; congruence.
Qed.

Lemma concat_cons2 (sep x y : string) (l : list string) :
  String.concat sep (x :: y :: l)
  = (x ++ sep ++ String.concat sep (y :: l))%string.
Proof. reflexivity. Qed.

Lemma read_fields_LF (fs : list Field) :
  forall f row rows started rest,
    Forall isValue (f :: fs) ->
    read (Plain true) EmptyString row rows started
         (String.concat (String comma EmptyString)
                        (map (escapeCsvField StringQ) (f :: fs))
          ++ String LF rest)
    = read (Plain true) EmptyString []
           (rows ++ [row ++ map (toText StringQ) (f :: fs)]) false rest.
Proof.
  induction fs as [|g fs IH]; intros f row rows started rest V;
    inversion V as [|? ? (N & U) V']; subst.
  - cbn [map String.concat]. rewrite (escapeCsvField_text N U).
    apply read_escaped_LF.
  - pose proof (IH g (row ++ [toText StringQ f]) rows true rest V') as E.
    cbn [map] in E |- *.
    rewrite concat_cons2, !append_assoc. cbn [append].
    rewrite (escapeCsvField_text N U), read_escaped_comma, E.
    rewrite <- app_assoc. reflexivity.
Qed.

Lemma read_fields_end (fs : list Field) :
  forall f row rows started,
    Forall isValue (f :: fs) ->
    started = true \/ fs <> [] ->
    read (Plain true) EmptyString row rows started
         (String.concat (String comma EmptyString)
                        (map (escapeCsvField StringQ) (f :: fs)))
    = rows ++ [row ++ map (toText StringQ) (f :: fs)].
Proof.
  induction fs as [|g fs IH]; intros f row rows started V S;
    inversion V as [|? ? (N & U) V']; subst.
  - destruct S as [->|S]; [|congruence].
    cbn [map String.concat]. rewrite (escapeCsvField_text N U).
    apply read_escaped_end.
  - pose proof (IH g (row ++ [toText StringQ f]) rows true V'
                  (or_introl eq_refl)) as E.
    cbn [map] in E |- *.
    rewrite concat_cons2. cbn [append].
    rewrite (escapeCsvField_text N U), read_escaped_comma, E.
    rewrite <- app_assoc. reflexivity.
Qed.

Lemma rowFields_values (p : Patient.t) :
  Forall isValue (rowFields isoDate p).
Proof.
  unfold rowFields, isValue. repeat constructor; discriminate.
Qed.

Lemma read_row_LF (p : Patient.t) (rows : list (list string))
    (started : bool) (rest : string) :
  read (Plain true) EmptyString [] rows started
       (csvRow StringQ isoDate p ++ String LF rest)
  = read (Plain true) EmptyString []
         (rows ++ [map (toText StringQ) (rowFields isoDate p)]) false rest.
Proof.
  pose proof (rowFields_values p) as V.
  unfold csvRow, rowFields in *.
  apply (read_fields_LF [] rows started rest V).
Qed.

Lemma read_row_end (p : Patient.t) (rows : list (list string))
    (started : bool) :
  read (Plain true) EmptyString [] rows started (csvRow StringQ isoDate p)
  = rows ++ [map (toText StringQ) (rowFields isoDate p)].
Proof.
  pose proof (rowFields_values p) as V.
  unfold csvRow, rowFields in *.
  apply (read_fields_end [] rows (started := started) V).
  right. discriminate.
Qed.

Lemma read_data (ps : list Patient.t) :
  forall rows,
    read (Plain true) EmptyString [] rows false (csvData StringQ isoDate ps)
    = rows ++ map (fun p => map (toText StringQ) (rowFields isoDate p)) ps.
Proof.
  unfold csvData.
  induction ps as [|p ps IH]; intro rows.
  - cbn. rewrite app_nil_r. reflexivity.
  - destruct ps as [|q ps].
    + cbn [map String.concat]. apply read_row_end.
    + change (String.concat (String LF EmptyString)
                (map (csvRow StringQ isoDate) (p :: q :: ps)))
        with (csvRow StringQ isoDate p
              ++ String LF (String.concat (String LF EmptyString)
                              (map (csvRow StringQ isoDate) (q :: ps))))%string.
      rewrite read_row_LF, IH.
      change (map (fun p0 => map (toText StringQ) (rowFields isoDate p0))
                  (p :: q :: ps))
        with ([map (toText StringQ) (rowFields isoDate p)]
              ++ map (fun p0 => map (toText StringQ) (rowFields isoDate p0))
                     (q :: ps)).
      rewrite app_assoc. reflexivity.
Qed.

Lemma read_header (rest : string) :
  read (Plain true) EmptyString [] [] false (csvHeader ++ rest)
  = read (Plain true) EmptyString [] [csvHeaderFields] false rest.
Proof. reflexivity. Qed.
End ExportReadBack.

Lemma stripBOM_BOM (s : string) :
  CsvReader.stripBOM (Routes.BOM ++ s) = s.
Proof. reflexivity. Qed.

(** C8. The body of the CSV export is the UTF-8 byte-order mark (EF BB BF),
    the header line and the rows. A text that holds a comma, a double quote,
    a line feed or a carriage return is written between double quotes with
    its double quotes doubled, any other text as it stands, and reading an
    escaped text back gives the text. Read back, the whole body gives the
    nine column names and then, for each patient in order, the nine values
    patientId, name, age, phone, bloodSugar, systolicBP, diastolicBP,
    medicalHistory and creation date, each exactly as it was before
    escaping. *)
Theorem csv_export_reads_back
    (StringQ : Q -> string) (isoDate : option Z -> string)
    (patients : list Patient.t) :
  Routes.exportBody StringQ isoDate patients
  = (String (ascii_of_nat 239)
       (String (ascii_of_nat 187) (String (ascii_of_nat 191) EmptyString))
     ++ Routes.csvHeader ++ Routes.csvData StringQ isoDate patients)%string
  /\ (forall s,
         escapeText StringQ s
         = if needsQuotes s
           then (String Routes.quote (Routes.doubleQuotes s)
                 ++ String Routes.quote EmptyString)%string
           else s)
  /\ (forall s row rows,
         CsvReader.read (CsvReader.Plain true) EmptyString row rows true
                        (escapeText StringQ s)
         = rows ++ [row ++ [s]])
  /\ CsvReader.parseCsv (Routes.exportBody StringQ isoDate patients)
     = csvHeaderFields
         :: map (fun p =>
                   [ Patient.patientId p;
                     Patient.name p;
                     StringZ (Patient.age p);
                     Patient.phone p;
                     StringQ (Patient.bloodSugar p);
                     StringZ (Patient.bloodPressureSystolic p);
                     StringZ (Patient.bloodPressureDiastolic p);
                     Patient.medicalHistory p;
                     isoDate (Patient.createdAt p) ])
                patients.
Proof.
  repeat apply conj.
  - reflexivity.
  - reflexivity.
  - intros s row rows. apply read_escaped_end.
  - unfold CsvReader.parseCsv, Routes.exportBody, Routes.csvContent.
    rewrite stripBOM_BOM, read_header, read_data. reflexivity.
Qed.

(** The value of the specification: O'Brien, John is written between
    quotes and read back as it was; a text with double quotes has them
    doubled. *)
Example csv_OBrien :
  escapeText (fun _ => EmptyString) "O'Brien, John"
  = (String Routes.quote "O'Brien, John" ++ String Routes.quote "")%string
  /\ Routes.doubleQuotes (String Routes.quote "a" ++ String Routes.quote "")
     = (String Routes.quote (String Routes.quote "a")
        ++ String Routes.quote (String Routes.quote ""))%string
  /\ CsvReader.parseCsv
       (Routes.exportBody (fun _ => "95"%string) (fun _ => "2024-01-01"%string)
          [Patient.Build 1 "PT-1" "O'Brien, John" 40 "555" 95 118 76
                         None None
                         (String Routes.quote "none" ++ String Routes.LF "x")
                         (Some 0) (Some 0) (Some 1) true])
     = [csvHeaderFields;
        ["PT-1"; "O'Brien, John"; "40"; "555"; "95"; "118"; "76";
         (String Routes.quote "none" ++ String Routes.LF "x"); "2024-01-01"]%string].
Proof. repeat split. Qed.

(** * Further properties *)

(** ** The rule-based estimate *)

(** X1. Whatever the input, the rule-based estimate stays in range: the
    cardiovascular risk lies in 0..100, the diabetes risk in 0..90 and the
    overall score in 5..100, and the score is 100 minus the mean of the two
    risks. The clamps [Math.min(100, _)] and [Math.max(0, _)] never change
    a value. *)
Theorem fallbackHealthPrediction_ranges (input : AiModels.HealthPredictionInput) :
  let r := AiModels.fallbackHealthPrediction input in
  (0 <= AiModels.cardiovascularRisk r <= 100)%Q
  /\ (0 <= AiModels.diabetesRisk r <= 90)%Q
  /\ (5 <= AiModels.overallHealthScore r <= 100)%Q
  /\ AiModels.overallHealthScore r
     == 100 - (AiModels.cardiovascularRisk r + AiModels.diabetesRisk r) / 2.
Proof.
  unfold AiModels.fallbackHealthPrediction.
  destruct (gtQ (AiModels.systolicBP input) 140),
           (gtQ (AiModels.diastolicBP input) 90),
           (gtQ (AiModels.age input) 65),
           (AiModels.isMale (AiModels.gender input)),
           (gtQ (AiModels.bmi input) 30),
           (gtQ (AiModels.bloodSugar input) 200),
           (gtQ (AiModels.bloodSugar input) 126),
           (gtQ (AiModels.age input) 45);
    cbv zeta;
    repeat split;
    solve [ apply Qle_bool_iff; vm_compute; reflexivity
          | apply Qeq_bool_iff; vm_compute; reflexivity ].
Qed.

Lemma gtQ_mono (x y k : Q) :
  (x <= y)%Q -> gtQ x k = true -> gtQ y k = true.
Proof.
  intros L H. apply gtQ_true in H. apply gtQ_true. lra.
Qed.

Lemma addIf_mono (c c' : bool) (n acc acc' : Q) :
  (0 <= n)%Q -> (c = true -> c' = true) -> (acc <= acc')%Q ->
  (AiModels.addIf c n acc <= AiModels.addIf c' n acc')%Q.
Proof.
  intros N I L. unfold AiModels.addIf.
  destruct c, c'; try lra; specialize (I eq_refl); discriminate.
Qed.

Lemma min_mono (k x y : Q) :
  (x <= y)%Q -> (AiModels.min k x <= AiModels.min k y)%Q.
Proof.
  intro L. unfold AiModels.min.
  destruct (Qle_bool k x) eqn:A, (Qle_bool k y) eqn:B; try lra.
  - apply Qle_bool_iff in A.
    assert (~ (k <= y)%Q) by (intro F; apply Qle_bool_iff in F; congruence).
    lra.
  - assert (~ (k <= x)%Q) by (intro F; apply Qle_bool_iff in F; congruence).
    lra.
Qed.

Lemma max_mono (k x y : Q) :
  (x <= y)%Q -> (AiModels.max k x <= AiModels.max k y)%Q.
Proof.
  intro L. unfold AiModels.max.
  destruct (Qle_bool k x) eqn:A, (Qle_bool k y) eqn:B; try lra.
  - apply Qle_bool_iff in A.
    assert (~ (k <= y)%Q) by (intro F; apply Qle_bool_iff in F; congruence).
    lra.
  - apply Qle_bool_iff in B. lra.
Qed.

(** X2. The estimate is monotone: when every number of one input is at
    most that of another, for the same gender, neither risk is larger and
    the overall score is not smaller. *)
Theorem fallbackHealthPrediction_monotone
    (a b : AiModels.HealthPredictionInput) :
  inputLe a b ->
  let ra := AiModels.fallbackHealthPrediction a in
  let rb := AiModels.fallbackHealthPrediction b in
  (AiModels.cardiovascularRisk ra <= AiModels.cardiovascularRisk rb)%Q
  /\ (AiModels.diabetesRisk ra <= AiModels.diabetesRisk rb)%Q
  /\ (AiModels.overallHealthScore rb <= AiModels.overallHealthScore ra)%Q.
Proof.
  intros (G & A & S & D & B & M).
  unfold AiModels.fallbackHealthPrediction. cbv zeta.
  cbn [AiModels.cardiovascularRisk AiModels.diabetesRisk
       AiModels.overallHealthScore].
  rewrite G.
  match goal with
  | |- (AiModels.min 100 ?ca <= AiModels.min 100 ?cb)%Q
       /\ (AiModels.min 100 ?da <= AiModels.min 100 ?db)%Q /\ _ =>
      assert (C : (ca <= cb)%Q);
      [| assert (E : (da <= db)%Q) ]
  end.
  - repeat (apply addIf_mono; [lra| |]); try lra; try (intro; assumption);
      try (apply gtQ_mono; assumption).
    intro H. apply orb_true_iff in H. apply orb_true_iff.
    destruct H as [H|H]; [left|right]; eapply gtQ_mono; eauto.
  - repeat (apply addIf_mono; [lra| |]); try lra;
      try (apply gtQ_mono; assumption).
  - split; [apply min_mono; exact C|].
    split; [apply min_mono; exact E|].
    apply max_mono. unfold Qdiv. change (/ 2) with (1 # 2). lra.
Qed.

(** A healthy man of 30 against a hypertensive man of 70. *)
Lemma fallbackHealthPrediction_monotone_witness :
  (AiModels.cardiovascularRisk
     (AiModels.fallbackHealthPrediction Sample.healthy)
   <= AiModels.cardiovascularRisk
        (AiModels.fallbackHealthPrediction Sample.hypertensive))%Q.
Proof.
  apply (@fallbackHealthPrediction_monotone Sample.healthy Sample.hypertensive).
  unfold inputLe. cbn. repeat split; try reflexivity;
    apply Qle_bool_iff; reflexivity.
Defined.

(** ** The ladder is monotone *)

(** X3. Raising the systolic pressure, the diastolic pressure or the blood
    sugar never lowers the vitals status: Normal, Warning and Critical only
    go up. *)
Theorem getVitalStatus_monotone
    (systolic diastolic sugar systolic' diastolic' sugar' : Q) :
  (systolic <= systolic')%Q ->
  (diastolic <= diastolic')%Q ->
  (sugar <= sugar')%Q ->
  (severity (Client.status
               (Client.PatientModal.getVitalStatus systolic diastolic sugar))
   <= severity (Client.status
                  (Client.PatientModal.getVitalStatus
                     systolic' diastolic' sugar')))%nat.
Proof.
  intros S D G.
  destruct (ladder_PatientModal systolic diastolic sugar) as (Hc & Hw & _).
  destruct (ladder_PatientModal systolic' diastolic' sugar')
    as (Hc' & _ & Hn').
  cbv zeta in *.
  destruct (Client.status
              (Client.PatientModal.getVitalStatus systolic diastolic sugar))
    eqn:E; cbn [severity].
  - assert (C : rungCritical systolic' diastolic' sugar').
    { destruct (proj1 Hc eq_refl) as [H|[H|H]]; unfold rungCritical; lra. }
    rewrite (proj2 Hc' C). cbn. lia.
  - destruct (proj1 Hw eq_refl) as (_ & W).
    assert (W' : rungWarning systolic' diastolic' sugar').
    { destruct W as [H|[H|H]]; unfold rungWarning; lra. }
    destruct (Client.status
                (Client.PatientModal.getVitalStatus
                   systolic' diastolic' sugar')) eqn:E'; cbn; try lia.
    destruct (proj1 Hn' eq_refl) as (_ & N). contradiction.
  - lia.
Qed.

(** From 118/76 with sugar 95 to 150/76 with sugar 95. *)
Lemma getVitalStatus_monotone_witness :
  (severity (Client.status (Client.PatientModal.getVitalStatus 118 76 95))
   <= severity (Client.status (Client.PatientModal.getVitalStatus 150 76 95)))%nat.
Proof.
  apply getVitalStatus_monotone; apply Qle_bool_iff; reflexivity.
Defined.

(** ** What creating and updating a patient leave alone *)

Lemma createHealthHistory_outcome (v : HistoryValues.t) (now : Z) (d : Db) :
  let r := DatabaseStorage.createHealthHistory v now d in
  users (snd r) = users d /\ patients (snd r) = patients d
  /\ exists added,
       healthHistory (snd r) = healthHistory d ++ added
       /\ (List.length added <= 1)%nat.
Proof.
  unfold DatabaseStorage.createHealthHistory, bind, ret.
  destruct (insertHealthHistory_outcome v now d) as (U & P & H).
  destruct (insertHealthHistory v now d) as [[rows|e] d']; cbn in *;
    (split; [exact U|]); (split; [exact P|]);
    destruct H as [(_ & H)|(_ & H)]; rewrite H.
  - eexists. split; [reflexivity|]. cbn. lia.
  - exists []. rewrite app_nil_r. split; [reflexivity|]. cbn. lia.
  - eexists. split; [reflexivity|]. cbn. lia.
  - exists []. rewrite app_nil_r. split; [reflexivity|]. cbn. lia.
Qed.

Lemma createPatient_history_outcome (p : NewPatient.t) (now : Z) (d : Db) :
  exists added,
    healthHistory (snd (DatabaseStorage.createPatient p now d))
    = healthHistory d ++ added
    /\ (List.length added <= 1)%nat.
Proof.
  assert (Z0 : exists added : list HealthHistory.t,
             healthHistory d = healthHistory d ++ added
             /\ (List.length added <= 1)%nat).
  { exists []. rewrite app_nil_r. split; [reflexivity|]. cbn. lia. }
  unfold DatabaseStorage.createPatient, bind, insertPatients.
  destruct (NewPatient.patientId p) as [code|]; [|exact Z0].
  destruct (patientIdTaken code _); [exact Z0|].
  destruct (negb _); [exact Z0|]. cbn iota beta zeta.
  match goal with
  | |- context [DatabaseStorage.createHealthHistory ?a ?b ?c] =>
      destruct (createHealthHistory_outcome a b c) as (_ & _ & added & H & L);
      destruct (DatabaseStorage.createHealthHistory a b c) as [[x|e] d2]
  end; cbn in *; exists added; auto.
Qed.

Lemma updatePatient_history_outcome (id : Z) (u : PartialPatient.t)
    (now : Z) (d : Db) :
  exists added,
    healthHistory (snd (DatabaseStorage.updatePatient id u now d))
    = healthHistory d ++ added
    /\ (List.length added <= 1)%nat.
Proof.
  assert (Z0 : exists added : list HealthHistory.t,
             healthHistory d = healthHistory d ++ added
             /\ (List.length added <= 1)%nat).
  { exists []. rewrite app_nil_r. split; [reflexivity|]. cbn. lia. }
  unfold DatabaseStorage.updatePatient, bind, DatabaseStorage.getPatient, ret.
  destruct (hd_error _) as [existing|]; [|exact Z0].
  destruct (updatePatients_outcome u id d) as (_ & Hh & _).
  destruct (updatePatients u id d) as [[rows|e] d1]; cbn in Hh |- *;
    [|rewrite Hh; exact Z0].
  destruct (DatabaseStorage.vitalsProvided u); [|cbn; rewrite Hh; exact Z0].
  match goal with
  | |- context [DatabaseStorage.createHealthHistory ?a ?b ?c] =>
      destruct (createHealthHistory_outcome a b c) as (_ & _ & added & H & L);
      destruct (DatabaseStorage.createHealthHistory a b c) as [[x|e] d2]
  end; cbn in *; exists added; rewrite H, Hh; auto.
Qed.

(** X4. The history is append-only under [createPatient] and
    [updatePatient]: whatever the arguments and whether the call returns or
    throws, the history table afterwards is the table before followed by at
    most one new row. No prior entry is edited, moved or removed. *)
Theorem history_is_append_only (d : Db) :
  (forall p now,
      exists added,
        healthHistory (snd (DatabaseStorage.createPatient p now d))
        = healthHistory d ++ added
        /\ (List.length added <= 1)%nat)
  /\ (forall id u now,
         exists added,
           healthHistory (snd (DatabaseStorage.updatePatient id u now d))
           = healthHistory d ++ added
           /\ (List.length added <= 1)%nat).
Proof.
  split.
  - intros p now. apply createPatient_history_outcome.
  - intros id u now. apply updatePatient_history_outcome.
Qed.

Lemma updatePatients_patients (u : PartialPatient.t) (id : Z) (d : Db) :
  patients (snd (updatePatients u id d)) = patients d
  \/ patients (snd (updatePatients u id d))
     = map (fun p => if Patient.id p =? id then applySet u p else p)
           (patients d).
Proof.
  unfold updatePatients. destruct (nothingToSet u); cbn; auto.
Qed.

Lemma updatePatient_patients (id : Z) (u : PartialPatient.t) (now : Z)
    (d : Db) :
  patients (snd (DatabaseStorage.updatePatient id u now d)) = patients d
  \/ patients (snd (DatabaseStorage.updatePatient id u now d))
     = map (fun p => if Patient.id p =? id then applySet u p else p)
           (patients d).
Proof.
  unfold DatabaseStorage.updatePatient, bind, DatabaseStorage.getPatient, ret.
  destruct (hd_error _) as [existing|]; [|auto].
  pose proof (updatePatients_patients u id d) as P.
  destruct (updatePatients u id d) as [[rows|e] d1]; cbn in P |- *;
    [|exact P].
  destruct (DatabaseStorage.vitalsProvided u); [|cbn; exact P].
  match goal with
  | |- context [DatabaseStorage.createHealthHistory ?a ?b ?c] =>
      destruct (createHealthHistory_outcome a b c) as (_ & Q & _);
      destruct (DatabaseStorage.createHealthHistory a b c) as [[x|e] d2]
  end; cbn in *; rewrite Q; exact P.
Qed.

Lemma map_fixed_update (u : PartialPatient.t) (id : Z) (l : list Patient.t) :
  map fixedColumns
      (map (fun p => if Patient.id p =? id then applySet u p else p) l)
  = map fixedColumns l.
Proof.
  rewrite map_map. apply map_ext. intro p.
  destruct (Patient.id p =? id); reflexivity.
Qed.

(** X5. [updatePatient] of the relational store never writes the key, the
    code, the creator, the two timestamps or the active flag of any patient,
    and it leaves every patient with another key exactly as it was, whether
    it returns or throws. In particular [updatedAt] is not stamped and the
    codes stay pairwise distinct. *)
Theorem updatePatient_keeps_fixed_columns
    (id : Z) (u : PartialPatient.t) (now : Z) (d : Db) :
  let d' := snd (DatabaseStorage.updatePatient id u now d) in
  map fixedColumns (patients d') = map fixedColumns (patients d)
  /\ (forall p, In p (patients d) -> Patient.id p <> id -> In p (patients d'))
  /\ (uniquePatientIds d -> uniquePatientIds d').
Proof.
  cbv zeta.
  destruct (updatePatient_patients id u now d) as [E|E]; rewrite ?E.
  - unfold uniquePatientIds. rewrite E. auto.
  - split; [apply map_fixed_update|]. split.
    + intros p I N. apply in_map_iff. exists p. split; [|exact I].
      destruct (Patient.id p =? id) eqn:F; [|reflexivity].
      apply Z.eqb_eq in F. contradiction.
    + unfold uniquePatientIds. rewrite E, map_map.
      assert (M : map (fun p => Patient.patientId
                                  (if Patient.id p =? id then applySet u p
                                   else p)) (patients d)
                  = map Patient.patientId (patients d)).
      { apply map_ext. intro p. destruct (Patient.id p =? id); reflexivity. }
      rewrite M. auto.
Qed.

(** ** Writing a patient and reading it back *)

Lemma createPatient_serial (p : NewPatient.t) (now : Z) (d : Db)
    (code : string) :
  NewPatient.patientId p = Some code ->
  patientIdTaken code d = false ->
  userExists (NewPatient.createdBy p) d = true ->
  patients_id_seq (snd (DatabaseStorage.createPatient p now d))
  = patients_id_seq d + 1.
Proof.
  intros Hc Ht Hu.
  unfold DatabaseStorage.createPatient, bind, insertPatients.
  rewrite Hc.
  change (patientIdTaken code (set_patients_id_seq (patients_id_seq d + 1) d))
    with (patientIdTaken code d).
  change (userExists (NewPatient.createdBy p)
            (set_patients_id_seq (patients_id_seq d + 1) d))
    with (userExists (NewPatient.createdBy p) d).
  rewrite Ht, Hu. cbn [negb]. cbn iota beta zeta.
  unfold DatabaseStorage.createHealthHistory, bind, ret.
  rewrite insertHealthHistory_accepted.
  - reflexivity.
  - unfold patientExists. cbn. apply existsb_app_last. cbn.
    apply Z.eqb_refl.
  - exact Hu.
Qed.

Lemma filter_key_below (k : Z) (l : list Patient.t) :
  (forall p, In p l -> Patient.id p < k) ->
  filter (fun p => Patient.id p =? k) l = [].
Proof.
  intro B. induction l as [|p l IH]; cbn; [reflexivity|].
  destruct (Patient.id p =? k) eqn:E.
  - apply Z.eqb_eq in E. specialize (B p (or_introl eq_refl)). lia.
  - apply IH. intros q I. apply B. right. exact I.
Qed.

Lemma filter_code_free (code : string) (l : list Patient.t) :
  existsb (fun p => String.eqb (Patient.patientId p) code) l = false ->
  filter (fun p => String.eqb (Patient.patientId p) code) l = [].
Proof. apply existsb_filter_nil. Qed.

(** X6. A patient that [createPatient] returns can be read back: in a store
    whose patient keys all lie below the serial, [getPatient] of the new key
    and [getPatientByPatientId] of the new code both return the row that
    [createPatient] returned, the lookup of every other key is unchanged,
    and the keys still lie below the serial and stay pairwise distinct. *)
Theorem createPatient_then_lookup
    (p : NewPatient.t) (now : Z) (d d' : Db) (row : Patient.t) :
  keysBelowSerial d ->
  DatabaseStorage.createPatient p now d = (Resolved row, d') ->
  DatabaseStorage.getPatient (Patient.id row) d' = (Resolved (Some row), d')
  /\ DatabaseStorage.getPatientByPatientId (Patient.patientId row) d'
     = (Resolved (Some row), d')
  /\ (forall k, k <> Patient.id row ->
                fst (DatabaseStorage.getPatient k d')
                = fst (DatabaseStorage.getPatient k d))
  /\ keysBelowSerial d'
  /\ (uniqueKeys d -> uniqueKeys d').
Proof.
  intros B H.
  destruct (createPatient_resolved _ _ _ H) as (code & Hc & Ht & Hu).
  destruct (createPatient_accepted p now d Hc Ht Hu) as (Hr & Hp & _).
  pose proof (createPatient_serial p now d Hc Ht Hu) as Hs.
  rewrite H in Hr, Hp, Hs. cbn in Hr, Hp, Hs. injection Hr as ->.
  unfold DatabaseStorage.getPatient, DatabaseStorage.getPatientByPatientId.
  rewrite Hp. cbn [Patient.id Patient.patientId patientRow].
  repeat apply conj.
  - rewrite filter_app_one. cbn [Patient.id patientRow].
    rewrite Z.eqb_refl, (@filter_key_below (patients_id_seq d) (patients d) B).
    reflexivity.
  - rewrite filter_app_one. cbn [Patient.patientId patientRow].
    rewrite String.eqb_refl, (@filter_code_free code (patients d) Ht).
    reflexivity.
  - intros k N. cbn. rewrite filter_app_one. cbn [Patient.id patientRow].
    destruct (patients_id_seq d =? k) eqn:E.
    + apply Z.eqb_eq in E. congruence.
    + rewrite app_nil_r. reflexivity.
  - unfold keysBelowSerial. rewrite Hp, Hs. intros q I.
    apply in_app_or in I. destruct I as [I|[<-|[]]].
    + specialize (B q I). lia.
    + cbn. lia.
  - unfold uniqueKeys. rewrite Hp, map_app. cbn. intro U.
    apply NoDup_snoc; [exact U|].
    intro I. apply in_map_iff in I. destruct I as (q & E & I).
    specialize (B q I). lia.
Qed.

(** The first patient of the sample store. *)
Lemma createPatient_then_lookup_witness :
  exists row d',
    DatabaseStorage.createPatient
      (NewPatient.Build (Some "PT-1"%string) Sample.testUser 2) 1000 Sample.db0
    = (Resolved row, d')
    /\ DatabaseStorage.getPatient 1 d' = (Resolved (Some row), d').
Proof.
  assert (B : keysBelowSerial Sample.db0) by (intros q []).
  eexists. eexists. split; [reflexivity|].
  exact (proj1 (@createPatient_then_lookup
                  (NewPatient.Build (Some "PT-1"%string) Sample.testUser 2)
                  1000 Sample.db0 _ _ B eq_refl)).
Defined.

Lemma hd_error_filter_update (u : PartialPatient.t) (id : Z)
    (l : list Patient.t) :
  hd_error
    (filter (fun p => Patient.id p =? id)
            (map (fun p => if Patient.id p =? id then applySet u p else p) l))
  = option_map (applySet u)
               (hd_error (filter (fun p => Patient.id p =? id) l)).
Proof.
  induction l as [|p l IH]; cbn; [reflexivity|].
  destruct (Patient.id p =? id) eqn:E; cbn.
  - rewrite E. reflexivity.
  - rewrite E. exact IH.
Qed.

Lemma updatePatient_resolved (id : Z) (u : PartialPatient.t) (now : Z)
    (d d' : Db) (row : Patient.t) :
  DatabaseStorage.updatePatient id u now d = (Resolved (Some row), d') ->
  exists existing,
    hd_error (filter (fun p => Patient.id p =? id) (patients d))
    = Some existing
    /\ row = applySet u existing
    /\ patients d'
       = map (fun p => if Patient.id p =? id then applySet u p else p)
             (patients d).
Proof.
  unfold DatabaseStorage.updatePatient, bind, DatabaseStorage.getPatient, ret.
  destruct (hd_error (filter _ (patients d))) as [existing|] eqn:Hex;
    [|discriminate].
  unfold updatePatients. destruct (nothingToSet u); [discriminate|].
  cbn iota beta zeta. rewrite hd_error_filter_update, Hex.
  destruct (DatabaseStorage.vitalsProvided u).
  - match goal with
    | |- context [DatabaseStorage.createHealthHistory ?a ?b ?c] =>
        destruct (createHealthHistory_outcome a b c) as (_ & Q & _);
        destruct (DatabaseStorage.createHealthHistory a b c) as [[x|e] d2]
    end; cbn in *; [|discriminate].
    intros [= <- <-]. exists existing. auto.
  - cbn. intros [= <- <-]. exists existing. auto.
Qed.



(** ** Statistics after an update *)

Lemma update_absent_key (u : PartialPatient.t) (id : Z)
    (l : list Patient.t) :
  ~ In id (map Patient.id l) ->
  map (fun p => if Patient.id p =? id then applySet u p else p) l = l.
Proof.
  intro N. induction l as [|p l IH]; cbn; [reflexivity|].
  destruct (Patient.id p =? id) eqn:E.
  - apply Z.eqb_eq in E. exfalso. apply N. left. exact E.
  - f_equal. apply IH. intro I. apply N. right. exact I.
Qed.

Lemma count_after_update (f : Patient.t -> bool) (u : PartialPatient.t)
    (id : Z) (l : list Patient.t) (existing : Patient.t) :
  NoDup (map Patient.id l) ->
  hd_error (filter (fun p => Patient.id p =? id) l) = Some existing ->
  Nat.add
    (List.length
       (filter f (map (fun p => if Patient.id p =? id then applySet u p else p)
                      l)))
    (if f existing then 1%nat else 0%nat)
  = Nat.add (List.length (filter f l))
            (if f (applySet u existing) then 1%nat else 0%nat).
Proof.
  intros U H. induction l as [|p l IH]; cbn in *; [discriminate|].
  inversion U as [|? ? Np U']; subst.
  destruct (Patient.id p =? id) eqn:E.
  - cbn in H. injection H as ->. apply Z.eqb_eq in E. subst id.
    rewrite (@update_absent_key u _ _ Np).
    destruct (f (applySet u existing)), (f existing); cbn; lia.
  - specialize (IH U' H). destruct (f p); cbn; lia.
Qed.

(** X8. How an update moves the statistics: in a store whose patient keys
    are pairwise distinct, after an [updatePatient] that returns a patient the
    number of critical cases changes by exactly the change of that one
    patient (it goes up by one when the patient becomes a critical case,
    down by one when it stops being one) and the total number of patients
    is the same. *)
Theorem criticalCases_after_update
    (id : Z) (u : PartialPatient.t) (now today : Z) (d d' : Db)
    (row : Patient.t) :
  uniqueKeys d ->
  DatabaseStorage.updatePatient id u now d = (Resolved (Some row), d') ->
  exists existing stats stats',
    DatabaseStorage.getPatient id d = (Resolved (Some existing), d)
    /\ DatabaseStorage.getPatientStats today d = (Resolved stats, d)
    /\ DatabaseStorage.getPatientStats today d' = (Resolved stats', d')
    /\ (DatabaseStorage.criticalCases stats' + criticalWeight existing
        = DatabaseStorage.criticalCases stats + criticalWeight row)%nat
    /\ DatabaseStorage.totalPatients stats'
       = DatabaseStorage.totalPatients stats.
Proof.
  intros U H.
  destruct (updatePatient_resolved _ _ _ _ H) as (existing & Hex & -> & Hp).
  exists existing. eexists. eexists.
  split; [unfold DatabaseStorage.getPatient; rewrite Hex; reflexivity|].
  split; [reflexivity|]. split; [reflexivity|].
  cbn. unfold DatabaseStorage.count, criticalWeight. rewrite Hp. split.
  - apply count_after_update; assumption.
  - clear. induction (patients d) as [|p l IH]; cbn; [reflexivity|].
    f_equal. exact IH.
Qed.

(** The scenario of the sample store: the blood sugar of the only patient
    goes from 95 to 210 and the critical cases from 0 to 1. *)
Lemma criticalCases_after_update_witness :
  fst (DatabaseStorage.getPatientStats 0 Sample.db1)
  = Resolved (DatabaseStorage.mkStats 1 1 0 0)
  /\ exists row d' stats',
       DatabaseStorage.updatePatient 1 Sample.sugar210 2000 Sample.db1
       = (Resolved (Some row), d')
       /\ DatabaseStorage.getPatientStats 0 d' = (Resolved stats', d')
       /\ DatabaseStorage.criticalCases stats' = 1%nat.
Proof.
  split; [reflexivity|].
  assert (U : uniqueKeys Sample.db1) by (repeat constructor; intros []).
  destruct (@criticalCases_after_update 1 Sample.sugar210 2000 0 Sample.db1
              _ _ U eq_refl)
    as (existing & stats & stats' & G & S & S' & C & _).
  eexists. eexists. exists stats'.
  split; [reflexivity|]. split; [exact S'|].
  injection G as <-. injection S as <-. cbn in C. lia.
Defined.

(** ** Sessions and guards *)

Lemma afterPrefix_append (p s : string) :
  Routes.afterPrefix p (p ++ s) = Some s.
Proof.
  induction p as [|c p IH]; cbn; [reflexivity|].
  rewrite Ascii.eqb_refl. exact IH.
Qed.

Lemma replace_prefix (p r s : string) :
  Routes.replace p r (p ++ s) = (r ++ s)%string.
Proof.
  destruct p as [|c p].
  - destruct s; reflexivity.
  - cbn [append Routes.replace].
    change (Routes.afterPrefix (String c p) (String c (p ++ s)))
      with (Routes.afterPrefix (String c p) (String c p ++ s)).
    rewrite afterPrefix_append. reflexivity.
Qed.

Lemma sessionIdOf_bearer (sid : string) :
  Routes.sessionIdOf (bearer sid) = Some sid.
Proof.
  unfold Routes.sessionIdOf, bearer. cbn [Routes.authorization option_map].
  rewrite replace_prefix. reflexivity.
Qed.

Lemma sessions_get_has (sid : string) (m : Routes.Sessions)
    (user : Routes.Principal) :
  Routes.sessions_get sid m = Some user -> Routes.sessions_has sid m = true.
Proof.
  unfold Routes.sessions_get, Routes.sessions_has.
  induction m as [|[k v] m IH]; cbn; [discriminate|].
  destruct (String.eqb k sid); cbn; auto.
Qed.

Lemma sessions_get_set (sid : string) (user : Routes.Principal)
    (m : Routes.Sessions) :
  Routes.sessions_get sid (Routes.sessions_set sid user m) = Some user.
Proof.
  unfold Routes.sessions_get.
  induction m as [|[k v] m IH]; cbn.
  - rewrite String.eqb_refl. reflexivity.
  - destruct (String.eqb k sid) eqn:E; cbn.
    + rewrite String.eqb_refl. reflexivity.
    + rewrite E. exact IH.
Qed.

Lemma sessions_get_set_other (sid sid' : string) (user : Routes.Principal)
    (m : Routes.Sessions) :
  sid' <> sid ->
  Routes.sessions_get sid' (Routes.sessions_set sid user m)
  = Routes.sessions_get sid' m.
Proof.
  intro N. unfold Routes.sessions_get.
  assert (F : String.eqb sid sid' = false)
    by (apply String.eqb_neq; congruence).
  induction m as [|[k v] m IH]; cbn.
  - rewrite F. reflexivity.
  - destruct (String.eqb k sid) eqn:E; cbn.
    + apply String.eqb_eq in E. subst k. rewrite F. reflexivity.
    + destruct (String.eqb k sid'); [reflexivity|exact IH].
Qed.

Lemma sessions_has_delete (sid : string) (m : Routes.Sessions) :
  Routes.sessions_has sid (Routes.sessions_delete sid m) = false.
Proof.
  unfold Routes.sessions_has, Routes.sessions_delete.
  induction m as [|[k v] m IH]; cbn; [reflexivity|].
  destruct (String.eqb k sid) eqn:E; cbn; [exact IH|].
  rewrite E. exact IH.
Qed.

Lemma sessions_get_delete_other (sid sid' : string) (m : Routes.Sessions) :
  sid' <> sid ->
  Routes.sessions_get sid' (Routes.sessions_delete sid m)
  = Routes.sessions_get sid' m.
Proof.
  intro N. unfold Routes.sessions_get, Routes.sessions_delete.
  induction m as [|[k v] m IH]; cbn; [reflexivity|].
  destruct (String.eqb k sid) eqn:E; cbn.
  - apply String.eqb_eq in E. subst k.
    assert (F : String.eqb sid sid' = false)
      by (apply String.eqb_neq; congruence).
    rewrite F. exact IH.
  - destruct (String.eqb k sid'); [reflexivity|exact IH].
Qed.

Lemma truthyText_nonempty (sid : string) :
  Routes.truthyText (Some sid) = true <-> sid <> EmptyString.
Proof.
  cbn. rewrite negb_true_iff. apply String.eqb_neq.
Qed.

Lemma requireAuth_pass {A} (sessions : Routes.Sessions) (req : Routes.Request)
    (user : Routes.Principal)
    (next : Routes.Principal -> Db -> Routes.Response A * Db) (d : Db) :
  sessionOf sessions req user ->
  Routes.requireAuth sessions req next d = next user d.
Proof.
  intros (sid & E & N & G). unfold Routes.requireAuth. rewrite E.
  rewrite (proj2 (truthyText_nonempty sid) N), (sessions_get_has _ _ G), G.
  reflexivity.
Qed.

Lemma requireAuth_cases {A} (sessions : Routes.Sessions)
    (req : Routes.Request)
    (next : Routes.Principal -> Db -> Routes.Response A * Db) (d : Db) :
  (exists user, sessionOf sessions req user
                /\ Routes.requireAuth sessions req next d = next user d)
  \/ Routes.requireAuth sessions req next d
     = (Routes.Status 401 "Unauthorized", d).
Proof.
  unfold Routes.requireAuth.
  destruct (Routes.sessionIdOf req) as [sid|] eqn:E; [|auto].
  destruct (Routes.truthyText (Some sid)) eqn:T; cbn [andb]; [|auto].
  destruct (Routes.sessions_has sid sessions) eqn:H; [|auto].
  destruct (Routes.sessions_get sid sessions) as [user|] eqn:G; [|auto].
  left. exists user. split; [|reflexivity].
  exists sid. split; [exact E|]. split; [|exact G].
  apply truthyText_nonempty. exact T.
Qed.

Lemma authenticateUser_some (c : Auth.LoginData) (d d' : Db) (u : User.t) :
  Auth.authenticateUser c d = (Resolved (Some u), d') ->
  d' = d /\ In u (users d) /\ User.isActive u = true
  /\ User.username u = Auth.username c
  /\ User.password u = Auth.password c.
Proof.
  unfold Auth.authenticateUser, bind, DatabaseStorage.getUserByUsername, ret.
  destruct (hd_error _) as [v|] eqn:H; [|discriminate].
  destruct (User.isActive v) eqn:A; cbn [negb]; [|discriminate].
  destruct (String.eqb (User.password v) (Auth.password c)) eqn:P;
    cbn [negb]; [|discriminate].
  intros [= <- <-]. split; [reflexivity|].
  assert (I : In v (filter (fun x => String.eqb (User.username x)
                                                (Auth.username c)) (users d))).
  { destruct (filter _ (users d)); [discriminate|].
    cbn in H. injection H as ->. left. reflexivity. }
  apply filter_In in I. destruct I as (I & E).
  apply String.eqb_eq in E, P. auto.
Qed.

(** X9. The life of a session: after a login that succeeds with a session
    id that is not empty, GET /api/me with [Bearer] and that id returns the
    principal of the login, who is an active user of the store with the
    given name and password; logout with the same header succeeds, leaves
    the other sessions alone, and from then on the same header is answered
    401. *)
Theorem login_me_logout
    (credentials : Auth.LoginData) (sid : string)
    (sessions : Routes.Sessions) (d : Db) (principal : Routes.Principal) :
  sid <> EmptyString ->
  fst (fst (Routes.postLogin (Some credentials) sid sessions d))
  = Routes.Json (principal, sid) ->
  let sessions' :=
    snd (fst (Routes.postLogin (Some credentials) sid sessions d)) in
  let sessions'' := snd (Routes.postLogout sessions' (bearer sid)) in
  Routes.getMe sessions' (bearer sid) d = (Routes.Json principal, d)
  /\ fst (Routes.postLogout sessions' (bearer sid))
     = Routes.Json "Logged out successfully"%string
  /\ Routes.getMe sessions'' (bearer sid) d
     = (Routes.Status 401 "Unauthorized", d)
  /\ (forall other, other <> sid ->
                    Routes.sessions_get other sessions''
                    = Routes.sessions_get other sessions)
  /\ exists u,
       In u (users d) /\ User.isActive u = true
       /\ User.username u = Auth.username credentials
       /\ User.password u = Auth.password credentials
       /\ principal = Routes.mkPrincipal (User.id u) (User.username u)
                                         (User.role u) (User.name u).
Proof.
  intros N. unfold Routes.postLogin.
  destruct (Auth.authenticateUser credentials d) as [[[u|]|e] d1] eqn:A;
    cbn [fst snd]; try discriminate.
  intros [= <-]. cbv zeta.
  destruct (authenticateUser_some _ _ A) as (-> & I & Ac & Un & Pw).
  set (principal := Routes.mkPrincipal (User.id u) (User.username u)
                                       (User.role u) (User.name u)).
  set (sessions' := Routes.sessions_set sid principal sessions).
  assert (G : Routes.sessions_get sid sessions' = Some principal)
    by apply sessions_get_set.
  assert (S : sessionOf sessions' (bearer sid) principal).
  { exists sid. split; [apply sessionIdOf_bearer|]. auto. }
  assert (L : Routes.postLogout sessions' (bearer sid)
              = (Routes.Json "Logged out successfully"%string,
                 Routes.sessions_delete sid sessions')).
  { unfold Routes.postLogout. rewrite sessionIdOf_bearer.
    rewrite (proj2 (truthyText_nonempty sid) N), (sessions_get_has _ _ G).
    reflexivity. }
  rewrite L. cbn [fst snd].
  repeat apply conj.
  - unfold Routes.getMe. rewrite (requireAuth_pass _ d S). reflexivity.
  - reflexivity.
  - unfold Routes.getMe, Routes.requireAuth. rewrite sessionIdOf_bearer.
    rewrite sessions_has_delete, andb_false_r. reflexivity.
  - intros other O. rewrite sessions_get_delete_other by exact O.
    apply sessions_get_set_other. exact O.
  - exists u. auto 6.
Qed.

(** The staff user of the sample store logs in with the id s-2. *)
Lemma login_me_logout_witness :
  Routes.getMe
    (snd (fst (Routes.postLogin (Some Sample.staffLogin) "s-2" [] Sample.db0)))
    (bearer "s-2") Sample.db0
  = (Routes.Json Sample.staffPrincipal, Sample.db0).
Proof.
  refine (proj1 (@login_me_logout Sample.staffLogin "s-2" [] Sample.db0
                   Sample.staffPrincipal _ eq_refl)).
  discriminate.
Defined.

Lemma requireRole_cases {A} (roles : list string) (user : Routes.Principal)
    (next : Db -> Routes.Response A * Db) (d : Db) :
  (In (Routes.role user) roles /\ Routes.requireRole roles user next d = next d)
  \/ (~ In (Routes.role user) roles
      /\ Routes.requireRole roles user next d
         = (Routes.Status 403 "Forbidden", d)).
Proof.
  unfold Routes.requireRole.
  destruct (existsb (String.eqb (Routes.role user)) roles) eqn:E.
  - left. split; [|reflexivity].
    apply existsb_exists in E. destruct E as (r & I & E).
    apply String.eqb_eq in E. subst r. exact I.
  - right. split; [|reflexivity]. intro I.
    assert (T : existsb (String.eqb (Routes.role user)) roles = true).
    { apply existsb_exists. exists (Routes.role user).
      split; [exact I|apply String.eqb_refl]. }
    congruence.
Qed.

(** X10. Only an admin deletes: a request that does not carry the session id
    of an admin is answered 401 or 403 by DELETE /api/patients/:id and by
    DELETE /api/admin/users/:id, and the store is left exactly as it was. *)
Theorem deletion_needs_an_admin_session
    (sessions : Routes.Sessions) (req : Routes.Request) (key now : Z)
    (d : Db) :
  ~ adminSession sessions req ->
  (Routes.deletePatientById sessions req key now d
   = (Routes.Status 401 "Unauthorized", d)
   \/ Routes.deletePatientById sessions req key now d
      = (Routes.Status 403 "Forbidden", d))
  /\ (Routes.deleteUserById sessions req key now d
      = (Routes.Status 401 "Unauthorized", d)
      \/ Routes.deleteUserById sessions req key now d
         = (Routes.Status 403 "Forbidden", d)).
Proof.
  intro N. unfold Routes.deletePatientById, Routes.deleteUserById.
  split.
  - match goal with
    | |- context [Routes.requireAuth sessions req ?next d] =>
        destruct (requireAuth_cases sessions req next d)
          as [(user & S & ->) | ->]; [|auto]
    end.
    match goal with
    | |- context [Routes.requireRole ?roles user ?next d] =>
        destruct (requireRole_cases roles user next d)
          as [(I & _)|(_ & ->)]; [|auto]
    end.
    exfalso. apply N. exists user. split; [exact S|].
    destruct I as [<-|[]]. reflexivity.
  - match goal with
    | |- context [Routes.requireAuth sessions req ?next d] =>
        destruct (requireAuth_cases sessions req next d)
          as [(user & S & ->) | ->]; [|auto]
    end.
    match goal with
    | |- context [Routes.requireRole ?roles user ?next d] =>
        destruct (requireRole_cases roles user next d)
          as [(I & _)|(_ & ->)]; [|auto]
    end.
    exfalso. apply N. exists user. split; [exact S|].
    destruct I as [<-|[]]. reflexivity.
Qed.

(** The staff session of the sample sessions against the sample patient. *)
Lemma deletion_needs_an_admin_session_witness :
  Routes.deletePatientById Sample.sessions1 (bearer "s-staff") 1 3000 Sample.db1
  = (Routes.Status 403 "Forbidden", Sample.db1)
  /\ patientExists 1 Sample.db1 = true.
Proof.
  split; [|reflexivity].
  assert (N : ~ adminSession Sample.sessions1 (bearer "s-staff")).
  { intros (user & (sid & E & _ & G) & R).
    rewrite sessionIdOf_bearer in E. injection E as <-.
    cbn in G. injection G as <-. discriminate R. }
  destruct (@deletion_needs_an_admin_session Sample.sessions1
              (bearer "s-staff") 1 3000 Sample.db1 N) as ([H|H] & _).
  - exfalso. vm_compute in H. discriminate H.
  - exact H.
Defined.

(** ** Who reads and who deletes *)

Lemma optEqb_eq (o : option Z) (z : Z) : optEqb o z = true <-> o = Some z.
Proof.
  destruct o as [x|]; cbn.
  - rewrite Z.eqb_eq. split; [intros ->; reflexivity|intros [= ->]; reflexivity].
  - split; discriminate.
Qed.

Lemma hd_error_filter_In {A} (f : A -> bool) (l : list A) (x : A) :
  hd_error (filter f l) = Some x -> In x l /\ f x = true.
Proof.
  intro H. apply filter_In.
  destruct (filter f l); [discriminate|].
  injection H as ->. left. reflexivity.
Qed.

(** X11. What a principal who is not an admin reads of the patients: the
    list route answers with exactly the patients this principal created,
    and the route of one patient answers with a record only when the record
    has the asked id and was created by this principal; neither changes the
    store. *)
Theorem patient_reads_are_scoped (user : Routes.Principal) (d : Db) :
  Routes.role user <> "admin"%string ->
  (exists l,
      Routes.getPatientsHandler user d = (Routes.Json l, d)
      /\ forall p, In p l
                   <-> In p (patients d)
                       /\ Patient.createdBy p = Some (Routes.id user))
  /\ (forall key p d',
         Routes.getPatientHandler key user d = (Routes.Json p, d') ->
         d' = d /\ Patient.id p = key /\ In p (patients d)
         /\ Patient.createdBy p = Some (Routes.id user)).
Proof.
  intro N. apply String.eqb_neq in N. split.
  - unfold Routes.getPatientsHandler, Routes.respond. rewrite N.
    unfold DatabaseStorage.getPatientsByCreator.
    eexists. split; [reflexivity|].
    intro p. rewrite filter_In, optEqb_eq. tauto.
  - intros key p d'. unfold Routes.getPatientHandler.
    unfold DatabaseStorage.getPatient. rewrite N. cbn [negb andb].
    destruct (hd_error _) as [patient|] eqn:H; [|discriminate].
    destruct (optEqb (Patient.createdBy patient) (Routes.id user)) eqn:O;
      cbn [negb]; [|discriminate].
    intros [= <- <-]. apply hd_error_filter_In in H.
    destruct H as (I & K). apply Z.eqb_eq in K. apply optEqb_eq in O. auto.
Qed.

(** The staff principal of the sample reads the sample patient, whom they
    created. *)
Lemma patient_reads_are_scoped_witness :
  exists l,
    Routes.getPatientsHandler Sample.staffPrincipal Sample.db1
    = (Routes.Json l, Sample.db1)
    /\ forall p, In p l
                 <-> In p (patients Sample.db1)
                     /\ Patient.createdBy p = Some 2.
Proof.
  refine (proj1 (@patient_reads_are_scoped Sample.staffPrincipal Sample.db1 _)).
  discriminate.
Defined.

Lemma insertAuditLogs_accepted_row (uid : Z) (a t i x : string) (now : Z)
    (d : Db) (row : AuditLog.t) :
  fst (insertAuditLogs uid a t i x now d) = Resolved [row] ->
  AuditLog.action row = a /\ AuditLog.targetId row = i
  /\ AuditLog.userId row = Some uid.
Proof.
  unfold insertAuditLogs. destruct (negb _); cbn; [discriminate|].
  intros [= <-]. auto.
Qed.

(** X12. DELETE /api/patients/:id behind its guards, for a principal whose
    user row exists. An unknown id is answered 404 and changes nothing. A
    patient referenced by nothing but history entries is answered with
    success: the patient and their history are gone and one audit entry,
    DELETE_PATIENT with the patientId of the deleted record and the id of the
    principal, is appended. A patient referenced by a prediction, an image or
    an appointment is answered 500: the patient stays, their history is gone
    and nothing is logged. *)
Theorem deletePatient_route
    (key now : Z) (user : Routes.Principal) (d : Db) :
  userExists (Routes.id user) d = true ->
  let r := Routes.deletePatientHandler key now user d in
  if negb (patientExists key d) then r = (Routes.Status 404 "Patient not found", d)
  else
    exists patient,
      DatabaseStorage.getPatient key d = (Resolved (Some patient), d)
      /\ historyOf key (snd r) = []
      /\ if referencedBeyondHistory key d
         then fst r = Routes.Status 500 "Failed to delete patient"
              /\ patients (snd r) = patients d
              /\ auditLogs (snd r) = auditLogs d
         else fst r = Routes.Json "Patient deleted successfully"%string
              /\ patientExists key (snd r) = false
              /\ exists entry,
                   auditLogs (snd r) = auditLogs d ++ [entry]
                   /\ AuditLog.action entry = "DELETE_PATIENT"%string
                   /\ AuditLog.targetId entry = Patient.patientId patient
                   /\ AuditLog.userId entry = Some (Routes.id user).
Proof.
  intros U r. subst r. unfold Routes.deletePatientHandler.
  unfold DatabaseStorage.getPatient at 1.
  destruct (patientExists key d) eqn:E; cbn [negb].
  - destruct (hd_error_filter_exists _ _ E) as (patient & H & K).
    unfold DatabaseStorage.getPatient. rewrite H.
    exists patient. split; [reflexivity|].
    pose proof (deletePatient_cases key d) as C. cbv zeta in C.
    rewrite E in C. cbn [negb] in C. rewrite C.
    destruct (referencedBeyondHistory key d) eqn:R.
    + cbn. unfold historyOf. cbn.
      rewrite (filter_filter_out HealthHistory.patientId). auto.
    + unfold Routes.respond, DatabaseStorage.createAuditLog, bind, ret.
      match goal with
      | |- context [insertAuditLogs ?a ?b ?c ?e ?f ?g ?h] =>
          destruct (@insertAuditLogs_accepted a b c e f g h) as (row & L);
          [exact U|];
          pose proof (insertAuditLogs_accepted_row a b c e f g h) as W;
          rewrite L in *
      end.
      cbn [fst snd] in *. unfold historyOf, patientExists. cbn.
      rewrite (filter_filter_out HealthHistory.patientId).
      rewrite (existsb_filter_out Patient.id).
      split; [reflexivity|]. split; [reflexivity|]. split; [reflexivity|].
      exists row. split; [reflexivity|].
      specialize (W row eq_refl). exact W.
  - apply hd_error_filter_none in E. rewrite E. reflexivity.
Qed.

(** The admin of the sample deletes the sample patient. *)
Lemma deletePatient_route_witness :
  fst (Routes.deletePatientHandler 1 3000 Sample.adminPrincipal Sample.db1)
  = Routes.Json "Patient deleted successfully"%string.
Proof.
  pose proof (@deletePatient_route 1 3000 Sample.adminPrincipal Sample.db1
                eq_refl) as H.
  cbv zeta in H.
  change (negb (patientExists 1 Sample.db1)) with false in H. cbv iota in H.
  destruct H as (patient & _ & _ & H).
  change (referencedBeyondHistory 1 Sample.db1) with false in H.
  cbv iota in H. exact (proj1 H).
Defined.

(** X13. The patient portal: a principal of role patient is given, by
    GET /api/patient/:patientId/data, only the record whose patientId is
    their own username; any other patientId is answered 403. The store is
    never changed. *)
Theorem portal_is_self_service
    (patientId : string) (user : Routes.Principal) (d : Db) :
  Routes.role user = "patient"%string ->
  snd (Routes.getPatientDataHandler patientId user d) = d
  /\ (patientId <> Routes.username user ->
      fst (Routes.getPatientDataHandler patientId user d)
      = Routes.Status 403 "Access denied")
  /\ (forall body,
         fst (Routes.getPatientDataHandler patientId user d) = Routes.Json body ->
         Patient.patientId (Routes.PatientData.patient body)
         = Routes.username user
         /\ In (Routes.PatientData.patient body) (patients d)
         /\ (forall r, In r (Routes.PatientData.healthPredictions body) ->
                       HealthPrediction.patientId r
                       = Some (Patient.id (Routes.PatientData.patient body)))
         /\ (forall i, In i (Routes.PatientData.medicalImages body) ->
                       MedicalImage.patientId i
                       = Some (Patient.id (Routes.PatientData.patient body)))).
Proof.
  intro R. unfold Routes.getPatientDataHandler. rewrite R.
  change (String.eqb "patient" "patient") with true. cbn [andb].
  destruct (String.eqb (Routes.username user) patientId) eqn:E; cbn [negb].
  - apply String.eqb_eq in E. subst patientId.
    unfold DatabaseStorage.getPatientByPatientId.
    destruct (hd_error _) as [p|] eqn:H.
    + unfold Routes.respond, bind, ret,
        DatabaseStorage.getHealthPredictionsByPatient,
        DatabaseStorage.getMedicalImagesByPatient. cbn [fst snd].
      split; [reflexivity|]. split; [intro N; contradiction N; reflexivity|].
      intros body [= <-]. cbn.
      apply hd_error_filter_In in H. destruct H as (I & K).
      apply String.eqb_eq in K.
      split; [exact K|]. split; [exact I|].
      split; intros x X; apply filter_In in X; destruct X as (_ & X);
        apply optEqb_eq in X; exact X.
    + cbn. split; [reflexivity|].
      split; [intro N; contradiction N; reflexivity|discriminate].
  - cbn. split; [reflexivity|]. split; [reflexivity|discriminate].
Qed.

(** The patient principal PT-1000 of the sample asks for another record. *)
Lemma portal_is_self_service_witness :
  fst (Routes.getPatientDataHandler "PT-2000" Sample.patientPrincipal Sample.db1)
  = Routes.Status 403 "Access denied".
Proof.
  refine (proj1 (proj2 (@portal_is_self_service "PT-2000"
                          Sample.patientPrincipal Sample.db1 eq_refl)) _).
  discriminate.
Defined.

(** ** Deleting users *)

Lemma insertAuditLogs_users (uid : Z) (a t i x : string) (now : Z) (d : Db) :
  users (snd (insertAuditLogs uid a t i x now d)) = users d.
Proof.
  unfold insertAuditLogs. destruct (negb _); reflexivity.
Qed.

Lemma postPatients_users (user : Routes.Principal) (f : InsertPatient.t)
    (now : Z) (d : Db) :
  users (snd (Routes.postPatients user (Some f) now d)) = users d.
Proof.
  unfold Routes.postPatients, Routes.respond, bind.
  match goal with
  | |- context [DatabaseStorage.createPatient ?v now d] =>
      pose proof (createPatient_users v now d) as C;
      destruct (DatabaseStorage.createPatient v now d) as [[row|e] d']
  end; cbn in *; [|exact C].
  unfold DatabaseStorage.createAuditLog, bind, ret.
  match goal with
  | |- context [insertAuditLogs ?a ?b ?c ?e ?f ?g ?h] =>
      pose proof (insertAuditLogs_users a b c e f g h) as H;
      destruct (insertAuditLogs a b c e f g h) as [[r|er] d'']
  end; cbn in *; congruence.
Qed.

Lemma deleteUser_cases (uid : Z) (d : Db) :
  DatabaseStorage.deleteUser uid d =
    if negb (userExists uid d) then (Resolved false, d)
    else if userReferenced uid d then (Rejected ForeignKeyViolation, d)
    else (Resolved true,
          set_users (filter (fun u => negb (User.id u =? uid)) (users d)) d).
Proof.
  unfold DatabaseStorage.deleteUser, bind, deleteUsers, ret, userExists.
  destruct (filter (fun u => User.id u =? uid) (users d)) as [|u gone] eqn:G.
  - apply existsb_filter_nil in G. rewrite G. reflexivity.
  - assert (E : existsb (fun u => User.id u =? uid) (users d) = true).
    { destruct (existsb _ (users d)) eqn:E; [reflexivity|].
      apply existsb_filter_nil in E. congruence. }
    rewrite E. cbn [negb].
    destruct (userReferenced uid d); reflexivity.
Qed.

(** X14. A user who has registered a patient cannot be deleted: after
    POST /api/patients has answered with the new record, deleting the
    registering user is refused by the store, which stays as it is, and
    DELETE /api/admin/users/:id answers 500 for that user, whoever asks
    and whenever. *)
Theorem registrar_cannot_be_deleted
    (user : Routes.Principal) (f : InsertPatient.t) (now : Z) (d : Db)
    (row : Patient.t) :
  fst (Routes.postPatients user (Some f) now d) = Routes.Json row ->
  let d' := snd (Routes.postPatients user (Some f) now d) in
  DatabaseStorage.deleteUser (Routes.id user) d'
  = (Rejected ForeignKeyViolation, d')
  /\ forall admin now',
       Routes.deleteUserHandler (Routes.id user) now' admin d'
       = (Routes.Status 500 "Failed to delete user", d').
Proof.
  intros J d'.
  assert (D : DatabaseStorage.deleteUser (Routes.id user) d'
              = (Rejected ForeignKeyViolation, d')).
  { rewrite deleteUser_cases.
    pose proof (@postPatients_cases user f now d _ _ eq_refl eq_refl) as C.
    destruct (patientIdTaken _ d || negb (userExists (Routes.id user) d))
      eqn:G.
    - destruct C as (C & _). rewrite C in J. discriminate J.
    - destruct C as (_ & P). apply orb_false_iff in G.
      destruct G as (_ & G). apply negb_false_iff in G.
      assert (U : userExists (Routes.id user) d' = true).
      { unfold userExists, d'. rewrite postPatients_users. exact G. }
      assert (R : userReferenced (Routes.id user) d' = true).
      { unfold userReferenced, d'. rewrite P, existsb_app. cbn.
        rewrite Z.eqb_refl, orb_true_r. reflexivity. }
      rewrite U, R. reflexivity. }
  split; [exact D|].
  intros admin now'. unfold Routes.deleteUserHandler. rewrite D. reflexivity.
Qed.

(** The staff user of the sample registers a patient at time 1000. *)
Lemma registrar_cannot_be_deleted_witness :
  DatabaseStorage.deleteUser 2
    (snd (Routes.postPatients Sample.staffPrincipal (Some Sample.testUser)
            1000 Sample.db0))
  = (Rejected ForeignKeyViolation,
     snd (Routes.postPatients Sample.staffPrincipal (Some Sample.testUser)
            1000 Sample.db0)).
Proof.
  exact (proj1 (@registrar_cannot_be_deleted Sample.staffPrincipal
                  Sample.testUser 1000 Sample.db0 _ eq_refl)).
Defined.

Lemma hd_error_filter_survives {A} (f keep : A -> bool) (l : list A) (x : A) :
  hd_error (filter f l) = Some x -> keep x = true ->
  hd_error (filter f (filter keep l)) = Some x.
Proof.
  induction l as [|y l IH]; cbn; [discriminate|].
  destruct (f y) eqn:F; cbn.
  - intros [= ->] K. rewrite K. cbn. rewrite F. reflexivity.
  - intros H K. destruct (keep y); cbn; [rewrite F|]; apply IH; assumption.
Qed.

(** X15. Deleting a user and logging in: once [deleteUser] has answered
    true for an id, no credentials authenticate as a user of that id, and
    credentials that authenticated as a user of another id before still
    authenticate as the same user. *)
Theorem deleted_user_cannot_log_in (uid : Z) (d d' : Db) :
  DatabaseStorage.deleteUser uid d = (Resolved true, d') ->
  (forall credentials u d'',
      Auth.authenticateUser credentials d' = (Resolved (Some u), d'') ->
      User.id u <> uid /\ In u (users d))
  /\ (forall credentials u,
         Auth.authenticateUser credentials d = (Resolved (Some u), d) ->
         User.id u <> uid ->
         Auth.authenticateUser credentials d' = (Resolved (Some u), d')).
Proof.
  rewrite deleteUser_cases.
  destruct (negb (userExists uid d)); [discriminate|].
  destruct (userReferenced uid d); [discriminate|].
  intros [= <-]. split.
  - intros c u d'' A. apply authenticateUser_some in A.
    destruct A as (_ & I & _). cbn in I. apply filter_In in I.
    destruct I as (I & K). apply negb_true_iff, Z.eqb_neq in K. auto.
  - intros c u. unfold Auth.authenticateUser, bind,
      DatabaseStorage.getUserByUsername, ret. cbn [users set_users].
    destruct (hd_error (filter _ (users d))) as [v|] eqn:H; [|discriminate].
    destruct (User.isActive v) eqn:Ac; cbn [negb]; [|discriminate].
    destruct (String.eqb (User.password v) (Auth.password c)) eqn:P;
      cbn [negb]; [|discriminate].
    intros [= <-] N.
    rewrite (hd_error_filter_survives _
               (fun u => negb (User.id u =? uid)) _ H).
    + rewrite Ac, P. reflexivity.
    + apply negb_true_iff, Z.eqb_neq. exact N.
Qed.

(** The staff user of the sample store is deleted; the admin still logs
    in. *)
Lemma deleted_user_cannot_log_in_witness :
  Auth.authenticateUser (Auth.mkLogin "admin" "admin123")
    (set_users [Sample.admin] Sample.db0)
  = (Resolved (Some Sample.admin), set_users [Sample.admin] Sample.db0).
Proof.
  refine (proj2 (@deleted_user_cannot_log_in 2 Sample.db0 _ eq_refl)
            (Auth.mkLogin "admin" "admin123") Sample.admin eq_refl _).
  discriminate.
Defined.

(** ** The in-memory store *)

Section JsMapFacts.
Variable V : Type.

Lemma JsMap_get_set (k : Z) (v : V) (m : JsMap.t V) :
  JsMap.get k (JsMap.set k v m) = Some v.
Proof.
  unfold JsMap.get. induction m as [|[k' v'] m IH]; cbn.
  - rewrite Z.eqb_refl. reflexivity.
  - destruct (k' =? k) eqn:E; cbn.
    + rewrite Z.eqb_refl. reflexivity.
    + rewrite E. exact IH.
Qed.

Lemma JsMap_get_set_other (j k : Z) (v : V) (m : JsMap.t V) :
  j <> k -> JsMap.get j (JsMap.set k v m) = JsMap.get j m.
Proof.
  intro N. apply Z.eqb_neq in N. unfold JsMap.get.
  induction m as [|[k' v'] m IH]; cbn.
  - rewrite Z.eqb_sym, N. reflexivity.
  - destruct (k' =? k) eqn:E; cbn.
    + apply Z.eqb_eq in E. subst k'. rewrite Z.eqb_sym, N. reflexivity.
    + destruct (k' =? j); [reflexivity|exact IH].
Qed.

Lemma JsMap_get_delete (k : Z) (m : JsMap.t V) :
  JsMap.get k (snd (JsMap.delete k m)) = None.
Proof.
  unfold JsMap.get, JsMap.delete. cbn [snd].
  induction m as [|[k' v'] m IH]; cbn; [reflexivity|].
  destruct (k' =? k) eqn:E; cbn; [exact IH|]. rewrite E. exact IH.
Qed.

Lemma JsMap_get_delete_other (j k : Z) (m : JsMap.t V) :
  j <> k -> JsMap.get j (snd (JsMap.delete k m)) = JsMap.get j m.
Proof.
  intro N. unfold JsMap.get, JsMap.delete. cbn [snd].
  induction m as [|[k' v'] m IH]; cbn; [reflexivity|].
  destruct (k' =? k) eqn:E; cbn.
  - apply Z.eqb_eq in E. subst k'.
    destruct (k =? j) eqn:F; [|exact IH].
    apply Z.eqb_eq in F. congruence.
  - destruct (k' =? j); [reflexivity|exact IH].
Qed.

Lemma JsMap_delete_reports (k : Z) (m : JsMap.t V) :
  fst (JsMap.delete k m) = true <-> exists v, JsMap.get k m = Some v.
Proof.
  unfold JsMap.get, JsMap.delete. cbn [fst].
  induction m as [|[k' v'] m IH]; cbn.
  - split; [discriminate|intros (v & H); discriminate H].
  - destruct (k' =? k); cbn; [|exact IH].
    split; [eauto|reflexivity].
Qed.
End JsMapFacts.

(** X16. The in-memory [createPatient] and the readers: the record it
    returns is the one [getPatient] finds under its id afterwards, it is
    listed by [getPatientsByCreator] for its creator, its id is the counter
    of the store, which moves on by one together with the counter of the
    codes, [getPatientByPatientId] finds a record with its code, every
    other id reads as before, and the history is not written. *)
Theorem mem_createPatient_then_getPatient
    (v : NewPatient.t) (now : Z) (s : MemStorage.t) :
  let patient := fst (MemStorage.createPatient v now s) in
  let s' := snd (MemStorage.createPatient v now s) in
  Patient.id patient = MemStorage.currentPatientId s
  /\ MemStorage.getPatient (Patient.id patient) s' = Some patient
  /\ In patient (MemStorage.getPatientsByCreator (NewPatient.createdBy v) s')
  /\ (exists found,
         MemStorage.getPatientByPatientId (Patient.patientId patient) s'
         = Some found
         /\ Patient.patientId found = Patient.patientId patient)
  /\ (forall j, j <> Patient.id patient ->
                MemStorage.getPatient j s' = MemStorage.getPatient j s)
  /\ MemStorage.currentPatientId s' = MemStorage.currentPatientId s + 1
  /\ MemStorage.patientIdCounter s' = MemStorage.patientIdCounter s + 1
  /\ MemStorage.healthHistories s' = MemStorage.healthHistories s.
Proof.
  cbn. unfold MemStorage.getPatient, MemStorage.getPatientsByCreator,
    MemStorage.getPatientByPatientId. cbn.
  set (p := patientRow _ _ v now).
  assert (I : In p (JsMap.values
                      (JsMap.set (MemStorage.currentPatientId s) p
                                 (MemStorage.patients s)))).
  { pose proof (JsMap_get_set (MemStorage.currentPatientId s) p
                  (MemStorage.patients s)) as G.
    unfold JsMap.get in G.
    destruct (find _ _) as [[k x]|] eqn:F; [|discriminate].
    cbn in G. injection G as ->. apply find_some in F.
    destruct F as (F & _). unfold JsMap.values.
    apply (in_map snd) in F. exact F. }
  split; [reflexivity|]. split; [apply JsMap_get_set|].
  split.
  - apply filter_In. split; [exact I|]. cbn. apply Z.eqb_refl.
  - split.
    + destruct (find _ _) as [found|] eqn:F.
      * exists found. split; [reflexivity|].
        apply find_some in F. destruct F as (_ & F).
        apply String.eqb_eq in F. exact F.
      * exfalso. apply (find_none _ _ F) in I.
        rewrite String.eqb_refl in I. discriminate I.
    + split; [|auto]. intros j N. apply JsMap_get_set_other. exact N.
Qed.

(** X17. The in-memory [updatePatient] with a caller and a truthy vitals
    value: the stored record becomes the returned one, stamped with the time
    of the update and with its id, code, creator and time of creation kept,
    and the history entry written under the next history id names the
    caller, not a fixed user. *)
Theorem mem_updatePatient_records_caller
    (id : Z) (u : PartialPatient.t) (caller now : Z) (s : MemStorage.t)
    (patient : Patient.t) :
  MemStorage.getPatient id s = Some patient ->
  caller <> 0 ->
  MemStorage.vitalsProvided u = true ->
  let r := MemStorage.updatePatient id u (Some caller) now s in
  exists updated entry,
    fst r = Some updated
    /\ MemStorage.getPatient id (snd r) = Some updated
    /\ Patient.updatedAt updated = Some now
    /\ (Patient.id updated, Patient.patientId updated,
        Patient.createdBy updated, Patient.createdAt updated)
       = (Patient.id patient, Patient.patientId patient,
          Patient.createdBy patient, Patient.createdAt patient)
    /\ JsMap.get (MemStorage.currentHealthHistoryId s)
                 (MemStorage.healthHistories (snd r)) = Some entry
    /\ HealthHistory.recordedBy entry = caller
    /\ HealthHistory.patientId entry = id
    /\ HealthHistory.timestamp entry = Some now
    /\ HealthHistory.changeType entry = "manual_edit"%string.
Proof.
  intros G N P r. subst r. unfold MemStorage.updatePatient.
  unfold MemStorage.getPatient in G. rewrite G, P.
  assert (T : truthyZ caller = true)
    by (unfold truthyZ; apply negb_true_iff, Z.eqb_neq; exact N).
  rewrite T. cbn [andb].
  eexists. eexists. cbn [fst snd].
  split; [reflexivity|].
  split; [unfold MemStorage.getPatient; cbn; apply JsMap_get_set|].
  split; [reflexivity|]. split; [reflexivity|].
  split; [cbn; apply JsMap_get_set|].
  repeat split.
Qed.

(** The staff user (id 2) sets the blood sugar of the patient of the
    sample in-memory store. *)
Lemma mem_updatePatient_records_caller_witness :
  exists updated entry,
    fst (MemStorage.updatePatient 1 Sample.sugar210 (Some 2) 2000 Sample.mem1)
    = Some updated
    /\ JsMap.get (MemStorage.currentHealthHistoryId Sample.mem1)
         (MemStorage.healthHistories
            (snd (MemStorage.updatePatient 1 Sample.sugar210 (Some 2) 2000
                    Sample.mem1))) = Some entry
    /\ HealthHistory.recordedBy entry = 2.
Proof.
  destruct (@mem_updatePatient_records_caller 1 Sample.sugar210 2 2000
              Sample.mem1 _ eq_refl) as (updated & entry & H);
    [discriminate|reflexivity|].
  exists updated, entry. tauto.
Defined.

(** X18. The in-memory [deletePatient] answers whether the id was stored and
    removes that patient alone; unlike the relational store it leaves the
    history of the patient in place, so [getHealthHistoryByPatient] answers
    for the deleted id as before. *)
Theorem mem_deletePatient_keeps_history (id : Z) (s : MemStorage.t) :
  let deleted := fst (MemStorage.deletePatient id s) in
  let s' := snd (MemStorage.deletePatient id s) in
  (deleted = true <-> exists p, MemStorage.getPatient id s = Some p)
  /\ MemStorage.getPatient id s' = None
  /\ (forall j, j <> id ->
                MemStorage.getPatient j s' = MemStorage.getPatient j s)
  /\ MemStorage.healthHistories s' = MemStorage.healthHistories s
  /\ MemStorage.getHealthHistoryByPatient id s'
     = MemStorage.getHealthHistoryByPatient id s.
Proof.
  unfold MemStorage.deletePatient, MemStorage.getPatient.
  destruct (JsMap.delete id (MemStorage.patients s)) as [deleted rest] eqn:D.
  cbn.
  pose proof (JsMap_delete_reports id (MemStorage.patients s)) as R.
  pose proof (JsMap_get_delete id (MemStorage.patients s)) as G.
  pose proof (fun j => @JsMap_get_delete_other _ j id (MemStorage.patients s))
    as O.
  rewrite D in R, G, O. cbn in R, G, O. auto.
Qed.

(** ** Listings *)

(** X19. The history of a patient in the in-memory store is the stored
    entries of that patient, each as often as it is stored, and no entry of
    another patient. *)
Theorem mem_history_is_the_patients (patientId : Z) (s : MemStorage.t) :
  Permutation
    (MemStorage.getHealthHistoryByPatient patientId s)
    (filter (fun h => HealthHistory.patientId h =? patientId)
            (JsMap.values (MemStorage.healthHistories s)))
  /\ (forall h, In h (MemStorage.getHealthHistoryByPatient patientId s)
                <-> In h (JsMap.values (MemStorage.healthHistories s))
                    /\ HealthHistory.patientId h = patientId).
Proof.
  assert (P : Permutation
                (MemStorage.getHealthHistoryByPatient patientId s)
                (filter (fun h => HealthHistory.patientId h =? patientId)
                        (JsMap.values (MemStorage.healthHistories s))))
    by apply sortBy_perm.
  split; [exact P|]. intro h. split; intro H.
  - apply (Permutation_in _ P) in H. apply filter_In in H.
    destruct H as (I & E). apply Z.eqb_eq in E. auto.
  - destruct H as (I & E). apply (Permutation_in _ (Permutation_sym P)).
    apply filter_In. split; [exact I|apply Z.eqb_eq; exact E].
Qed.

Lemma descending_total (a b : option Z) :
  match a, b with
  | None, _ => true
  | Some _, None => false
  | Some x, Some y => y <=? x
  end = false ->
  match b, a with
  | None, _ => true
  | Some _, None => false
  | Some x, Some y => y <=? x
  end = true.
Proof.
  destruct a as [x|], b as [y|]; try reflexivity; try discriminate.
  intro H. apply Z.leb_gt in H. apply Z.leb_le. lia.
Qed.

(** X20. The ordered listings of the relational store, [getAllPatients],
    [getAuditLogs] and [getAllAppointments], return every row of their table
    exactly as often as it is stored, newest first (a row without a time of
    creation before the others), and leave the store as it is. *)
Theorem listings_are_sorted_tables (d : Db) :
  (exists l,
      DatabaseStorage.getAllPatients d = (Resolved l, d)
      /\ Permutation l (patients d)
      /\ Sorted (fun a b => DatabaseStorage.createdAtDesc a b = true) l)
  /\ (exists l,
         DatabaseStorage.getAuditLogs d = (Resolved l, d)
         /\ Permutation l (auditLogs d)
         /\ Sorted (fun a b => DatabaseStorage.loggedAtDesc a b = true) l)
  /\ (exists l,
         DatabaseStorage.getAllAppointments d = (Resolved l, d)
         /\ Permutation l (appointments d)
         /\ Sorted (fun a b => Appointment.appointmentDate b
                               <= Appointment.appointmentDate a) l).
Proof.
  repeat apply conj; eexists; (split; [reflexivity|]);
    (split; [apply sortBy_perm|]).
  - apply sortBy_sorted. intros a b. apply descending_total.
  - apply sortBy_sorted. intros a b. apply descending_total.
  - apply Sorted_weaken
      with (R := fun a b => (Appointment.appointmentDate b
                             <=? Appointment.appointmentDate a) = true).
    + intros a b H. apply Z.leb_le. exact H.
    + apply sortBy_sorted. intros a b H.
      apply Z.leb_gt in H. apply Z.leb_le. lia.
Qed.

(** ** The audit trail and the write routes *)

Lemma insertHealthHistory_auditLogs (v : HistoryValues.t) (now : Z) (d : Db) :
  auditLogs (snd (insertHealthHistory v now d)) = auditLogs d.
Proof.
  unfold insertHealthHistory. destruct (negb _ || negb _); reflexivity.
Qed.

Lemma createHealthHistory_auditLogs (v : HistoryValues.t) (now : Z) (d : Db) :
  auditLogs (snd (DatabaseStorage.createHealthHistory v now d)) = auditLogs d.
Proof.
  unfold DatabaseStorage.createHealthHistory, bind, ret.
  pose proof (insertHealthHistory_auditLogs v now d) as H.
  destruct (insertHealthHistory v now d) as [[rows|e] d']; exact H.
Qed.

Lemma createPatient_auditLogs (v : NewPatient.t) (now : Z) (d : Db) :
  auditLogs (snd (DatabaseStorage.createPatient v now d)) = auditLogs d.
Proof.
  unfold DatabaseStorage.createPatient, bind, insertPatients.
  destruct (NewPatient.patientId v) as [code|]; [|reflexivity].
  destruct (patientIdTaken code _); [reflexivity|].
  destruct (negb _); [reflexivity|]. cbn iota beta zeta.
  match goal with
  | |- context [DatabaseStorage.createHealthHistory ?a ?b ?c] =>
      pose proof (createHealthHistory_auditLogs a b c) as H;
      destruct (DatabaseStorage.createHealthHistory a b c) as [[x|e] d2]
  end; cbn in *; exact H.
Qed.

Lemma updatePatient_auditLogs (id : Z) (u : PartialPatient.t) (now : Z)
    (d : Db) :
  auditLogs (snd (DatabaseStorage.updatePatient id u now d)) = auditLogs d
  /\ users (snd (DatabaseStorage.updatePatient id u now d)) = users d.
Proof.
  unfold DatabaseStorage.updatePatient, bind, DatabaseStorage.getPatient, ret.
  destruct (hd_error _) as [existing|]; [|auto].
  unfold updatePatients. destruct (nothingToSet u); [auto|].
  cbn iota beta zeta.
  destruct (DatabaseStorage.vitalsProvided u); [|cbn; auto].
  match goal with
  | |- context [DatabaseStorage.createHealthHistory ?a ?b ?c] =>
      pose proof (createHealthHistory_auditLogs a b c) as H;
      destruct (createHealthHistory_outcome a b c) as (U & _);
      destruct (DatabaseStorage.createHealthHistory a b c) as [[x|e] d2]
  end; cbn in *; auto.
Qed.

Lemma createAuditLog_cases (uid : Z) (a t i x : string) (now : Z) (d : Db) :
  (exists e d', DatabaseStorage.createAuditLog uid a t i x now d
                = (Rejected e, d')
                /\ auditLogs d' = auditLogs d /\ patients d' = patients d)
  \/ (exists entry d',
         DatabaseStorage.createAuditLog uid a t i x now d
         = (Resolved (Some entry), d')
         /\ auditLogs d' = auditLogs d ++ [entry]
         /\ patients d' = patients d
         /\ AuditLog.action entry = a /\ AuditLog.targetId entry = i
         /\ AuditLog.userId entry = Some uid).
Proof.
  unfold DatabaseStorage.createAuditLog, bind, ret, insertAuditLogs.
  destruct (negb _).
  - left. eexists. eexists. split; [reflexivity|]. split; reflexivity.
  - right. eexists. eexists. split; [reflexivity|]. repeat split.
Qed.

(** X21. The audit trail of the write routes: whenever POST /api/patients
    or PUT /api/patients/:id answers with a record, exactly one audit entry
    has been appended, with the action of the route, the patientId of the
    answered record and the id of the principal; when either answers with
    an error status, no audit entry has been written. *)
Theorem writes_are_audited (user : Routes.Principal) (now : Z) (d : Db) :
  (forall f,
      match fst (Routes.postPatients user (Some f) now d) with
      | Routes.Json row =>
          exists entry,
            auditLogs (snd (Routes.postPatients user (Some f) now d))
            = auditLogs d ++ [entry]
            /\ AuditLog.action entry = "CREATE_PATIENT"%string
            /\ AuditLog.targetId entry = Patient.patientId row
            /\ AuditLog.userId entry = Some (Routes.id user)
      | Routes.Status _ _ =>
          auditLogs (snd (Routes.postPatients user (Some f) now d))
          = auditLogs d
      end)
  /\ (forall key u,
         match fst (Routes.putPatient user key (Some u) now d) with
         | Routes.Json row =>
             exists entry,
               auditLogs (snd (Routes.putPatient user key (Some u) now d))
               = auditLogs d ++ [entry]
               /\ AuditLog.action entry = "UPDATE_PATIENT"%string
               /\ AuditLog.targetId entry = Patient.patientId row
               /\ AuditLog.userId entry = Some (Routes.id user)
         | Routes.Status _ _ =>
             auditLogs (snd (Routes.putPatient user key (Some u) now d))
             = auditLogs d
         end).
Proof.
  split.
  - intro f. unfold Routes.postPatients, Routes.respond, bind.
    match goal with
    | |- context [DatabaseStorage.createPatient ?v now d] =>
        pose proof (createPatient_auditLogs v now d) as C;
        destruct (DatabaseStorage.createPatient v now d) as [[row|e] d']
    end; cbn [fst snd] in *; [|exact C].
    match goal with
    | |- context [DatabaseStorage.createAuditLog ?a ?b ?c ?e ?f ?g ?h] =>
        destruct (createAuditLog_cases a b c e f g h)
          as [(er & d'' & -> & L & _)|(entry & d'' & -> & L & _ & A)]
    end; cbn [fst snd ret].
    + congruence.
    + exists entry. rewrite L, C. auto.
  - intros key u. unfold Routes.putPatient, Routes.storage_updatePatient.
    destruct (updatePatient_auditLogs key u now d) as (C & _).
    destruct (DatabaseStorage.updatePatient key u now d) as [[[row|]|e] d'];
      cbn [fst snd] in *; try exact C.
    unfold Routes.respond, bind.
    match goal with
    | |- context [DatabaseStorage.createAuditLog ?a ?b ?c ?e ?f ?g ?h] =>
        destruct (createAuditLog_cases a b c e f g h)
          as [(er & d'' & -> & L & _)|(entry & d'' & -> & L & _ & A)]
    end; cbn [fst snd ret].
    + congruence.
    + exists entry. rewrite L, C. auto.
Qed.

(** X22. PUT /api/patients/:id does not look at who created the patient: a
    principal of role staff who did not create a patient is refused that
    record by GET /api/patients/:id with 403, and their PUT with a truthy
    vitals value is answered with the changed record, which is the one
    stored from then on. *)
Theorem put_is_not_scoped
    (user : Routes.Principal) (key : Z) (u : PartialPatient.t) (now : Z)
    (d : Db) (existing : Patient.t) :
  Routes.role user = "staff"%string ->
  DatabaseStorage.getPatient key d = (Resolved (Some existing), d) ->
  Patient.createdBy existing <> Some (Routes.id user) ->
  userExists (Routes.id user) d = true ->
  userExists 1 d = true ->
  DatabaseStorage.vitalsProvided u = true ->
  Routes.getPatientHandler key user d
  = (Routes.Status 403 "Access denied", d)
  /\ fst (Routes.putPatient user key (Some u) now d)
     = Routes.Json (applySet u existing)
  /\ fst (DatabaseStorage.getPatient key
            (snd (Routes.putPatient user key (Some u) now d)))
     = Resolved (Some (applySet u existing)).
Proof.
  intros N G O U U1 V. split.
  - unfold Routes.getPatientHandler. rewrite G, N.
    change (String.eqb "staff" "admin") with false. cbn [negb andb].
    destruct (optEqb _ _) eqn:E; [|reflexivity].
    apply optEqb_eq in E. contradiction.
  - assert (P : patientExists key d = true).
    { unfold DatabaseStorage.getPatient in G. injection G as G.
      destruct (patientExists key d) eqn:P; [reflexivity|].
      apply hd_error_filter_none in P. rewrite P in G. discriminate G. }
    destruct (updatePatient_with_vitals key u now d P U1 V)
      as (existing' & row & Hex & R & _).
    destruct (updatePatient_auditLogs key u now d) as (_ & Us).
    unfold Routes.putPatient, Routes.storage_updatePatient.
    destruct (DatabaseStorage.updatePatient key u now d) as [o d'] eqn:Up.
    cbn [fst snd] in R, Us. subst o.
    destruct (updatePatient_resolved _ _ _ _ Up) as (ex & Hex' & -> & Hp).
    unfold DatabaseStorage.getPatient in G. injection G as G.
    rewrite G in Hex'. injection Hex' as <-.
    unfold Routes.respond, bind.
    match goal with
    | |- context [DatabaseStorage.createAuditLog ?a ?b ?c ?e ?f ?g ?h] =>
        destruct (createAuditLog_cases a b c e f g h)
          as [(er & d'' & A & _)|(entry & d'' & -> & _ & Pt & _)]
    end.
    + exfalso. revert A.
      unfold DatabaseStorage.createAuditLog, bind, ret, insertAuditLogs.
      unfold userExists in *. cbn [users set_audit_logs_id_seq].
      rewrite Us, U. discriminate.
    + cbn [fst snd ret]. split; [reflexivity|].
      unfold DatabaseStorage.getPatient. cbn [fst].
      rewrite Pt, Hp, hd_error_filter_update, G. reflexivity.
Qed.

(** The admin of the sample store registers a patient; the staff user is
    refused the record and changes its blood sugar. *)
Lemma put_is_not_scoped_witness :
  let d :=
    snd (Routes.postPatients Sample.adminPrincipal (Some Sample.testUser)
           1000 Sample.db0) in
  Routes.getPatientHandler 1 Sample.staffPrincipal d
  = (Routes.Status 403 "Access denied", d)
  /\ exists row,
       fst (Routes.putPatient Sample.staffPrincipal 1 (Some Sample.sugar210)
              2000 d) = Routes.Json row
       /\ Qeq_bool (Patient.bloodSugar row) 210 = true.
Proof.
  intro d.
  assert (existing : { p | DatabaseStorage.getPatient 1 d
                           = (Resolved (Some p), d) })
    by (eexists; reflexivity).
  destruct existing as (p & G).
  assert (O : Patient.createdBy p <> Some (Routes.id Sample.staffPrincipal)).
  { injection G as <-. discriminate. }
  destruct (@put_is_not_scoped Sample.staffPrincipal 1 Sample.sugar210 2000 d
              p) as (F & W & _);
    [reflexivity|exact G|exact O|reflexivity|reflexivity|reflexivity|].
  split; [exact F|].
  exists (applySet Sample.sugar210 p). split; [exact W|].
  injection G as <-. reflexivity.
Defined.

(** ** Reading through the guard *)

(** X23. The read routes behind [requireAuth]: GET /api/me, /api/patients,
    /api/patients/:id, /api/patient/:patientId/data and /api/stats either
    all run their handler for one and the same principal, the one stored
    under the session id of the request, or all answer 401 without
    touching the store. *)
Theorem reads_go_through_the_session
    (sessions : Routes.Sessions) (req : Routes.Request) (key : Z)
    (patientId : string) (today : Z) (d : Db) :
  (exists user,
      sessionOf sessions req user
      /\ Routes.getMe sessions req d = (Routes.Json user, d)
      /\ Routes.getPatients sessions req d = Routes.getPatientsHandler user d
      /\ Routes.getPatientById sessions req key d
         = Routes.getPatientHandler key user d
      /\ Routes.getPatientData sessions req patientId d
         = Routes.getPatientDataHandler patientId user d
      /\ exists stats,
           DatabaseStorage.getPatientStats today d = (Resolved stats, d)
           /\ Routes.getStats sessions req today d = (Routes.Json stats, d))
  \/ (Routes.getMe sessions req d = (Routes.Status 401 "Unauthorized", d)
      /\ Routes.getPatients sessions req d
         = (Routes.Status 401 "Unauthorized", d)
      /\ Routes.getPatientById sessions req key d
         = (Routes.Status 401 "Unauthorized", d)
      /\ Routes.getPatientData sessions req patientId d
         = (Routes.Status 401 "Unauthorized", d)
      /\ Routes.getStats sessions req today d
         = (Routes.Status 401 "Unauthorized", d)).
Proof.
  unfold Routes.getMe, Routes.getPatients, Routes.getPatientById,
    Routes.getPatientData, Routes.getStats, Routes.requireAuth.
  destruct (Routes.sessionIdOf req) as [sid|] eqn:E; [|auto 6].
  destruct (Routes.truthyText (Some sid)) eqn:T; cbn [andb]; [|auto 6].
  destruct (Routes.sessions_has sid sessions) eqn:H; [|auto 6].
  destruct (Routes.sessions_get sid sessions) as [user|] eqn:G; [|auto 6].
  left. exists user. split.
  - exists sid. split; [exact E|]. split; [|exact G].
    apply truthyText_nonempty. exact T.
  - do 4 (split; [reflexivity|]).
    eexists. split; reflexivity.
Qed.

(** ** Logging in *)

Lemma hd_error_filter_unique (l : list User.t) (u : User.t) :
  NoDup (map User.username l) -> In u l ->
  hd_error (filter (fun x => String.eqb (User.username x) (User.username u)) l)
  = Some u.
Proof.
  induction l as [|y l IH]; cbn; [contradiction|].
  intros N I. inversion N as [|? ? Ny Nl]; subst.
  destruct I as [->|I].
  - rewrite String.eqb_refl. reflexivity.
  - destruct (String.eqb (User.username y) (User.username u)) eqn:E.
    + apply String.eqb_eq in E. exfalso. apply Ny. rewrite E.
      apply in_map. exact I.
    + apply IH; assumption.
Qed.

(** X24. A login that no active user backs opens no session: when every
    stored user with the name and the password of the credentials is
    inactive (in particular when there is none), POST /api/login answers
    401 and leaves the sessions and the store as they were. *)
Theorem failed_login_opens_no_session
    (credentials : Auth.LoginData) (sid : string)
    (sessions : Routes.Sessions) (d : Db) :
  (forall u, In u (users d) ->
             User.username u = Auth.username credentials ->
             User.password u = Auth.password credentials ->
             User.isActive u = false) ->
  Routes.postLogin (Some credentials) sid sessions d
  = (Routes.Status 401 "Invalid credentials", sessions, d).
Proof.
  intro H. unfold Routes.postLogin, Auth.authenticateUser, bind,
    DatabaseStorage.getUserByUsername, ret.
  destruct (hd_error _) as [v|] eqn:F; [|reflexivity].
  apply hd_error_filter_In in F. destruct F as (I & E).
  apply String.eqb_eq in E.
  destruct (User.isActive v) eqn:A; cbn [negb]; [|reflexivity].
  destruct (String.eqb (User.password v) (Auth.password credentials)) eqn:P;
    cbn [negb]; [|reflexivity].
  apply String.eqb_eq in P. rewrite (H v I E P) in A. discriminate A.
Qed.

(** The staff user of the sample store with a wrong password. *)
Lemma failed_login_opens_no_session_witness :
  Routes.postLogin (Some (Auth.mkLogin "staff" "wrong")) "s-3"
    Sample.sessions1 Sample.db0
  = (Routes.Status 401 "Invalid credentials", Sample.sessions1, Sample.db0).
Proof.
  apply failed_login_opens_no_session.
  intros u [<-|[<-|[]]] _ P; discriminate P.
Defined.

(** X25. Every active user can log in: when the names of the stored users
    are pairwise distinct, as the UNIQUE constraint of the column has it,
    POST /api/login with the name and the password of an active user
    answers with the principal made of the id, name, role and display name
    of that user, stores it under the new session id and leaves the store
    alone. *)
Theorem login_accepts_active_user
    (u : User.t) (sid : string) (sessions : Routes.Sessions) (d : Db) :
  NoDup (map User.username (users d)) ->
  In u (users d) ->
  User.isActive u = true ->
  let principal :=
    Routes.mkPrincipal (User.id u) (User.username u) (User.role u)
                       (User.name u) in
  Routes.postLogin (Some (Auth.mkLogin (User.username u) (User.password u)))
                   sid sessions d
  = (Routes.Json (principal, sid),
     Routes.sessions_set sid principal sessions, d).
Proof.
  intros N I A principal. unfold Routes.postLogin, Auth.authenticateUser,
    bind, DatabaseStorage.getUserByUsername, ret. cbn [Auth.username Auth.password].
  rewrite (hd_error_filter_unique _ _ N I), A, String.eqb_refl. reflexivity.
Qed.

(** The admin of the sample store logs in. *)
Lemma login_accepts_active_user_witness :
  fst (fst (Routes.postLogin (Some (Auth.mkLogin "admin" "admin123")) "s-9"
              [] Sample.db0))
  = Routes.Json (Sample.adminPrincipal, "s-9"%string).
Proof.
  assert (N : NoDup (map User.username (users Sample.db0))).
  { repeat constructor; cbn; [intros [E|[]]; discriminate E|intros []]. }
  exact (f_equal (fun r => fst (fst r))
           (@login_accepts_active_user Sample.admin "s-9" [] Sample.db0 N
              (or_introl eq_refl) eq_refl)).
Defined.
